(** * yagcl-json: binding a JSON document onto a record, field by field

    A shallow embedding of [json.go] (package [yagcl_json]) and of the
    slices of its collaborators that the binder touches: the parts of Go's
    [reflect] package used to walk and write the target record, the
    [jsonparser] node locator, [encoding/json], [time] and [os].

    Go packages are rendered as modules; the collaborators whose code lives
    outside this repository are gathered in the record [Env] and stay
    abstract in every general statement. *)

From Stdlib Require Import ZArith Ascii String Strings.Byte.
From stdpp Require Import base option list strings.

#[local] Set Warnings "-register-all".

(** ** Results of Go calls *)

(** A Go call returns, panics, or (for the one recursive function of the
    package) exhausts the recursion budget of the model. *)
Inductive Outcome (A : Type) : Type :=
| Ret (a : A)
| Panic (msg : string)
| OutOfFuel.
Arguments Ret {A} a.
Arguments Panic {A} msg.
Arguments OutOfFuel {A}.

#[global] Instance Outcome_ret : MRet Outcome := fun A a => Ret a.
#[global] Instance Outcome_bind : MBind Outcome := fun A B k m =>
  match m with
  | Ret a => k a
  | Panic msg => Panic msg
  | OutOfFuel => OutOfFuel
  end.

(** [(T, error)] of a library call that yields a value or an error. *)
Inductive Result (E A : Type) : Type :=
| Ok (a : A)
| Err (e : E).
Arguments Ok {E A} a.
Arguments Err {E A} e.

(** An [option] that must be present; its absence is a runtime panic. *)
Definition orPanic {A : Type} (msg : string) (o : option A) : Outcome A :=
  match o with
  | Some a => Ret a
  | None => Panic msg
  end.

(** ** Package reflect *)

Module reflect.

Inductive Kind : Set :=
| Invalid | Bool | Int | Int8 | Int16 | Int32 | Int64
| Uint | Uint8 | Uint16 | Uint32 | Uint64 | Uintptr
| Float32 | Float64 | Complex64 | Complex128
| Array | Chan | Func | Interface | Map | Pointer | Slice
| String | Struct | UnsafePointer.

#[global] Instance Kind_eq_dec : EqDecision Kind.
Proof. solve_decision. Defined.

(** Types. [Basic] stands for every type that is neither a pointer nor a
    struct; it is identified by its name and carries its kind. *)
Inductive Type_ : Type :=
| Basic (name : string) (k : Kind)
| PointerTo (elem : Type_)
| StructOf (name : string) (fields : list StructField)
with StructField : Type :=
| mkStructField (Name : string) (Tag : list (string * string))
                (Exported : bool) (FType : Type_).

Definition Name (f : StructField) : string :=
  match f with mkStructField n _ _ _ => n end.
Definition Tag (f : StructField) : list (string * string) :=
  match f with mkStructField _ t _ _ => t end.
Definition IsExported (f : StructField) : bool :=
  match f with mkStructField _ _ e _ => e end.
Definition FType (f : StructField) : Type_ :=
  match f with mkStructField _ _ _ t => t end.

(** [Type.Kind()] *)
Definition KindOf (T : Type_) : Kind :=
  match T with
  | Basic _ k => k
  | PointerTo _ => Pointer
  | StructOf _ _ => Struct
  end.

(** [Type.Elem()], defined on pointer types only. *)
Definition ElemOf (T : Type_) : option Type_ :=
  match T with
  | PointerTo e => Some e
  | _ => None
  end.

(** [StructTag.Get]: the value of the first entry for [key], else empty. *)
Fixpoint TagGet (tag : list (string * string)) (key : string) : string :=
  match tag with
  | [] => EmptyString
  | (k, v) :: rest => if decide (k = key) then v else TagGet rest key
  end.

(** *** Memory *)

Abbreviation addr := nat.

(** What a memory cell or a field slot holds. Values of kinds the binder
    never looks into (floats, slices, maps, arrays, ...) are carried as an
    opaque representation whose empty form is the zero value. *)
Inductive Data : Type :=
| DBool (b : bool)
| DInt (z : Z)
| DString (s : string)
| DOpaque (repr : list byte)
| DPtr (p : option addr)
| DStruct (fields : list Data).

(** The heap is a list of cells, the address of a cell being its index;
    allocation appends. *)
Abbreviation Heap := (list Data).

(** The zero value of a type. *)
Fixpoint Zero (T : Type_) : Data :=
  match T with
  | Basic _ k =>
      match k with
      | Bool => DBool false
      | Int | Int8 | Int16 | Int32 | Int64
      | Uint | Uint8 | Uint16 | Uint32 | Uint64 | Uintptr => DInt 0
      | String => DString EmptyString
      | _ => DOpaque []
      end
  | PointerTo _ => DPtr None
  | StructOf _ fs => DStruct (map (fun f => Zero (FType f)) fs)
  end.

Fixpoint isZeroData (d : Data) : bool :=
  match d with
  | DBool b => negb b
  | DInt z => Z.eqb z 0
  | DString s => bool_decide (s = EmptyString)
  | DOpaque r => match r with [] => true | _ => false end
  | DPtr p => match p with None => true | Some _ => false end
  | DStruct fs => forallb isZeroData fs
  end.

(** Reading and writing along a path of field indices inside a cell. *)
Fixpoint getSel (d : Data) (sel : list nat) : option Data :=
  match sel with
  | [] => Some d
  | i :: rest =>
      match d with
      | DStruct fs => fs !! i ≫= fun x => getSel x rest
      | _ => None
      end
  end.

Fixpoint setSel (d : Data) (sel : list nat) (new : Data) : option Data :=
  match sel with
  | [] => Some new
  | i :: rest =>
      match d with
      | DStruct fs =>
          x ← fs !! i;
          x' ← setSel x rest new;
          Some (DStruct (<[i := x']> fs))
      | _ => None
      end
  end.

(** *** reflect.Value *)

(** Where a [Value] lives: in a heap cell, possibly inside nested structs
    (addressable), or nowhere (a copy, such as the pointer that [New]
    returns). *)
Inductive Loc : Type :=
| Addressable (cell : addr) (sel : list nat)
| Immediate (d : Data).

Record Value : Type := mkValue {
  typ : Type_;
  loc : Loc;
  flagRO : bool   (* obtained through an unexported field *)
}.

(** A Go interface value ([any]): nil, or a dynamic type with its data. *)
Definition any : Type := option (Type_ * Data).

Definition read (h : Heap) (v : Value) : option Data :=
  match loc v with
  | Addressable c sel => h !! c ≫= fun d => getSel d sel
  | Immediate d => Some d
  end.

(** [reflect.ValueOf]; [None] is the invalid zero [Value]. *)
Definition ValueOf (x : any) : option Value :=
  match x with
  | None => None
  | Some (T, d) => Some (mkValue T (Immediate d) false)
  end.

(** [reflect.New]: a fresh cell holding the zero value of [T], and a
    pointer to it. *)
Definition New (T : Type_) (h : Heap) : Heap * Value :=
  (h ++ [Zero T], mkValue (PointerTo T) (Immediate (DPtr (Some (length h)))) false).

(** [Value.Elem] on a pointer; [None] for a nil pointer (Go's zero
    [Value]) and where Go panics (not a pointer). *)
Definition Elem (h : Heap) (v : Value) : option Value :=
  match typ v, read h v with
  | PointerTo T, Some (DPtr (Some a)) => Some (mkValue T (Addressable a []) (flagRO v))
  | _, _ => None
  end.

(** [reflect.Indirect] *)
Definition Indirect (h : Heap) (v : Value) : option Value :=
  if decide (KindOf (typ v) = Pointer) then Elem h v else Some v.

(** [Value.Field(i)] together with [Type.Field(i)]. *)
Definition Field (v : Value) (i : nat) (f : StructField) : Outcome Value :=
  let ro := flagRO v || negb (IsExported f) in
  match loc v with
  | Addressable c sel => Ret (mkValue (FType f) (Addressable c (sel ++ [i])) ro)
  | Immediate (DStruct fs) =>
      d ← orPanic "reflect: Field index out of range" (fs !! i);
      Ret (mkValue (FType f) (Immediate d) ro)
  | Immediate _ => Panic "reflect: call of reflect.Value.Field on non-struct Value"
  end.

Definition IsZero (h : Heap) (v : Value) : Outcome bool :=
  d ← orPanic "invalid memory access" (read h v);
  Ret (isZeroData d).

Definition CanInterface (v : Value) : bool := negb (flagRO v).

(** [Value.Interface] *)
Definition Interface_ (h : Heap) (v : Value) : Outcome any :=
  if flagRO v
  then Panic "reflect.Value.Interface: cannot return value obtained from unexported field or method"
  else d ← orPanic "invalid memory access" (read h v); Ret (Some (typ v, d)).

(** [v.Set(x)] *)
Definition Set_ (h : Heap) (v x : Value) : Outcome Heap :=
  if flagRO v || flagRO x
  then Panic "reflect: reflect.Value.Set using value obtained using unexported field"
  else
    match loc v with
    | Immediate _ => Panic "reflect: reflect.Value.Set using unaddressable value"
    | Addressable c sel =>
        d ← orPanic "invalid memory access" (read h x);
        old ← orPanic "invalid memory access" (h !! c);
        new ← orPanic "invalid memory access" (setSel old sel d);
        Ret (<[c := new]> h)
    end.

(** [v.Convert(T)] between types of one representation: a copy of the
    data under the new type. *)
Definition Convert (h : Heap) (v : Value) (T : Type_) : Outcome Value :=
  d ← orPanic "invalid memory access" (read h v);
  Ret (mkValue T (Immediate d) (flagRO v)).

End reflect.

Abbreviation Heap := (list reflect.Data).

(** ** Package jsonparser (github.com/buger/jsonparser) *)

Module jsonparser.

(** The coarse type of a located node. *)
Inductive ValueType : Set :=
| NotExist | String | Number | Object | Array | Boolean | Null | Unknown.

#[global] Instance ValueType_eq_dec : EqDecision ValueType.
Proof. solve_decision. Defined.

(** The package's error values: the one the binder singles out, and the
    others (malformed JSON along the path and the like). *)
Inductive Error : Type :=
| KeyPathNotFoundError
| OtherError (msg : string).

End jsonparser.

(** ** Package yagcl (github.com/Bios-Marcel/yagcl) *)

Module yagcl.

(** The error values of yagcl that this package returns or wraps. *)
Inductive Sentinel : Set :=
| ErrSourceNotFound
| ErrParseValue
| ErrUnsupportedFieldType
| ErrExportedFieldMissingKey.

#[global] Instance Sentinel_eq_dec : EqDecision Sentinel.
Proof. solve_decision. Defined.

Definition DefaultKeyTagName : string := "key".
Definition IgnoreTagName : string := "ignore".

(** The interface [yagcl.ParsingCompanion]. *)
Record ParsingCompanion : Type := {
  IncludeField : reflect.StructField -> bool;
  ExtractFieldKey : reflect.StructField -> string
}.

Definition toLower (a : ascii) : ascii :=
  let n := nat_of_ascii a in
  if (65 <=? n)%nat && (n <=? 90)%nat then ascii_of_nat (n + 32) else a.

Fixpoint lower (s : string) : string :=
  match s with
  | EmptyString => EmptyString
  | String.String a rest => String.String (toLower a) (lower rest)
  end.

(** Modelled from the spec: yagcl's own [ParsingCompanion] is not part of
    this repository. Unexported fields are always skipped, a field whose
    [ignore] tag is a case-insensitive [true] is skipped, and the fallback
    key is read from the [key] tag. *)
Definition companion : ParsingCompanion := {|
  IncludeField f :=
    reflect.IsExported f
    && negb (bool_decide (lower (reflect.TagGet (reflect.Tag f) IgnoreTagName) = "true"));
  ExtractFieldKey f := reflect.TagGet (reflect.Tag f) DefaultKeyTagName
|}.

End yagcl.

(** ** The world outside the package *)

(** An error of [os] or [io], with what [os.IsNotExist] and
    [errors.Is(_, fs.ErrNotExist)] answer for it. *)
Record IOErr : Type := {
  ioMsg : string;
  os_IsNotExist : bool;
  is_fs_ErrNotExist : bool
}.

(** An [io.Reader]: what [io.ReadAll] obtains from it, and whether it is
    also an [io.Closer]. *)
Record Reader : Type := {
  io_ReadAll : Result IOErr (list byte);
  isCloser : bool
}.

(** What [json.Unmarshal(data, &value)] does when [value] holds a pointer
    to a fresh [T]: it fails, it fills the pointee, or (JSON [null]) it
    resets [value] to nil. *)
Inductive UnmarshalResult : Type :=
| Decoded (d : reflect.Data)
| ResetToNil
| UnmarshalFailed (msg : string).

(** The collaborators of the binder: library functions, the file system
    and the method sets of the program's types. *)
Record Env : Type := {
  jsonparser_Get : list byte -> list string ->
                   Result jsonparser.Error (list byte * jsonparser.ValueType);
  jsonparser_ParseString : list byte -> Result jsonparser.Error string;
  json_Unmarshal : list byte -> reflect.Type_ -> UnmarshalResult;
  time_ParseDuration : string -> Result string Z;
  (* [UnmarshalJSON T]: the method of [*T], if [*T] is a json.Unmarshaler;
     run on a zero [T] it fails or leaves the receiver holding the result *)
  UnmarshalJSON : reflect.Type_ -> option (list byte -> Result string reflect.Data);
  (* the same for encoding.TextUnmarshaler *)
  UnmarshalText : reflect.Type_ -> option (list byte -> Result string reflect.Data);
  os_ReadFile : string -> Result IOErr (list byte)
}.

(** ** Package yagcl_json *)

(** The values of Go's [error] that leave this package. *)
Inductive error : Type :=
| ErrNoDataSourceSpecified
| ErrMultipleDataSourcesSpecified
| ErrYagcl (e : yagcl.Sentinel)
| ErrIO (e : IOErr)
| ErrVerificationMustHaveFailed
    (* "verification process must have failed, please report this to the maintainer" *)
| ErrIncorrectJSONType (fieldName : string) (dataType : jsonparser.ValueType)
    (* "field '%s' had an incorrect JSON type (%s != string): %w", ErrParseValue *)
| ErrUnsupportedType (fieldName : string)
    (* "type '%s' isn't supported and won't ever be: %w", ErrUnsupportedFieldType *)
| ErrDurationUnparsable (stringValue fieldName : string)
    (* "value '%s' isn't parsable as an 'time.Duration' for field '%s': %w", ErrParseValue *)
| ErrUnmarshalling (jsonPath : list string) (cause : string)
    (* "error unmarshalling field '%s': (%s): %w", ErrParseValue *)
| ErrAccessingJSONField (jsonPath : list string) (cause : jsonparser.Error)
    (* "error accessing json field '%s': (%s): %w", ErrParseValue *)
| ErrNoKeyTag (keyTag defaultTag fieldName : string)
    (* "neither tag '%s' nor the standard tag '%s' have been set for field '%s': %w",
       ErrExportedFieldMissingKey *).

(** [errors.Is(err, target)] for a yagcl error value as target. *)
Definition errors_Is (err : error) (target : yagcl.Sentinel) : bool :=
  match err with
  | ErrYagcl e => bool_decide (e = target)
  | ErrIncorrectJSONType _ _ | ErrDurationUnparsable _ _
  | ErrUnmarshalling _ _ | ErrAccessingJSONField _ _ =>
      bool_decide (target = yagcl.ErrParseValue)
  | ErrUnsupportedType _ => bool_decide (target = yagcl.ErrUnsupportedFieldType)
  | ErrNoKeyTag _ _ _ => bool_decide (target = yagcl.ErrExportedFieldMissingKey)
  | _ => false
  end.

(** [err == yagcl.ErrSourceNotFound] and [err == nil] *)
Definition isErrSourceNotFound (err : error) : bool :=
  match err with
  | ErrYagcl yagcl.ErrSourceNotFound => true
  | _ => false
  end.

Definition isNil (err : option error) : bool :=
  match err with
  | None => true
  | Some _ => false
  end.

Record jsonSourceImpl : Type := {
  must : bool;
  path : string;
  bytes : list byte;
  reader : option Reader
}.

(** [Source()] *)
Definition Source : jsonSourceImpl :=
  {| must := false; path := EmptyString; bytes := []; reader := None |}.

Definition Must (s : jsonSourceImpl) : jsonSourceImpl :=
  {| must := true; path := path s; bytes := bytes s; reader := reader s |}.

Definition KeyTag (s : jsonSourceImpl) : string := "json".

Definition Bytes (s : jsonSourceImpl) (b : list byte) : jsonSourceImpl :=
  {| must := must s; path := path s; bytes := b; reader := reader s |}.

Definition String_ (s : jsonSourceImpl) (str : string) : jsonSourceImpl :=
  {| must := must s; path := path s; bytes := list_byte_of_string str; reader := reader s |}.

Definition Path (s : jsonSourceImpl) (p : string) : jsonSourceImpl :=
  {| must := must s; path := p; bytes := bytes s; reader := reader s |}.

Definition Reader_ (s : jsonSourceImpl) (r : Reader) : jsonSourceImpl :=
  {| must := must s; path := path s; bytes := bytes s; reader := Some r |}.

(** [extractNonPointerFieldType] *)
Fixpoint extractNonPointerFieldType (fieldType : reflect.Type_) : reflect.Type_ :=
  match fieldType with
  | reflect.PointerTo elem => extractNonPointerFieldType elem
  | _ => fieldType
  end.

(** [strings.Split(key, ",")[0]] *)
Fixpoint beforeComma (key : string) : string :=
  match key with
  | EmptyString => EmptyString
  | String.String c rest =>
      if Ascii.eqb c "," then EmptyString else String.String c (beforeComma rest)
  end.

(** [time.Duration], and [T.AssignableTo(reflect.TypeOf(time.Duration(0)))]:
    a defined type is assignable to another only if it is that type. *)
Definition time_Duration : reflect.Type_ := reflect.Basic "time.Duration" reflect.Int64.

Definition AssignableToDuration (T : reflect.Type_) : bool :=
  match T with
  | reflect.Basic name reflect.Int64 => bool_decide (name = "time.Duration")
  | _ => false
  end.

Definition newUnmarshalError (jsonPath : list string) (err : string) : error :=
  ErrUnmarshalling jsonPath err.

Definition newJsonparserError (jsonPath : list string) (err : jsonparser.Error) : error :=
  ErrAccessingJSONField jsonPath err.

(** How one round of the field loop of [parse] ends. *)
Inductive Step : Type :=
| Continue (hasAnyFieldBeenSet : bool)   (* [continue], or the end of the body *)
| Return (hasAnyFieldBeenSet : bool) (err : error).

(** How the decoding part of a round ends. *)
Inductive Decode : Type :=
| Got (value : reflect.any)              (* [value] is set, go on to the assignment *)
| Stop (s : Step)
| NotApplied.                            (* no custom unmarshaller ran *)

Section Binder.

Context (E : Env).

(** [getBytes]: the deferred function rewrites a not-exist error. *)
Definition notExistToSourceNotFound (e : IOErr) : error :=
  if os_IsNotExist e || is_fs_ErrNotExist e
  then ErrYagcl yagcl.ErrSourceNotFound
  else ErrIO e.

Definition getBytes (s : jsonSourceImpl) : Result error (list byte) :=
  if (0 <? length (bytes s))%nat then Ok (bytes s)
  else if negb (bool_decide (path s = EmptyString)) then
    match os_ReadFile E (path s) with
    | Ok data => Ok data
    | Err e => Err (notExistToSourceNotFound e)
    end
  else
    match reader s with
    | Some r =>
        match io_ReadAll r with
        | Ok data => Ok data
        | Err e => Err (notExistToSourceNotFound e)
        end
    | None => Err ErrVerificationMustHaveFailed
    end.

(** [verify] *)
Definition verify (s : jsonSourceImpl) : option error :=
  let dataSourcesCount := 0%nat in
  let dataSourcesCount :=
    if negb (bool_decide (path s = EmptyString)) then S dataSourcesCount else dataSourcesCount in
  let dataSourcesCount :=
    if (0 <? length (bytes s))%nat then S dataSourcesCount else dataSourcesCount in
  let dataSourcesCount :=
    match reader s with Some _ => S dataSourcesCount | None => dataSourcesCount end in
  if (dataSourcesCount =? 0)%nat then Some ErrNoDataSourceSpecified
  else if (1 <? dataSourcesCount)%nat then Some ErrMultipleDataSourcesSpecified
  else None.

(** [extractJSONKey] *)
Definition extractJSONKey (s : jsonSourceImpl) (parsingCompanion : yagcl.ParsingCompanion)
    (structField : reflect.StructField) : Result error string :=
  let key := reflect.TagGet (reflect.Tag structField) (KeyTag s) in
  if negb (bool_decide (key = EmptyString)) then Ok (beforeComma key)
  else
    let key := yagcl.ExtractFieldKey parsingCompanion structField in
    if negb (bool_decide (key = EmptyString)) then Ok key
    else Err (ErrNoKeyTag (KeyTag s) yagcl.DefaultKeyTagName (reflect.Name structField)).

(** *** The body of the field loop, part by part *)

Definition quote : byte := x22.

(** The probe for custom unmarshallers ([json.Unmarshaler], then
    [encoding.TextUnmarshaler]). *)
Definition customUnmarshal (jsonPath : list string) (fieldValue : reflect.Value)
    (valueBytes : list byte) (dataType : jsonparser.ValueType)
    (hasAnyFieldBeenSet : bool) (h : Heap) : Heap * Decode :=
  if reflect.CanInterface fieldValue then
    let newType := extractNonPointerFieldType (reflect.typ fieldValue) in
    let cell := length h in   (* where New puts the cell *)
    let '(h, parsed) := reflect.New newType h in
    let u : reflect.any := Some (reflect.PointerTo newType, reflect.DPtr (Some cell)) in
    match UnmarshalJSON E newType with
    | Some unmarshalJSON =>
        let valueBytes :=
          if decide (dataType = jsonparser.String)
          then ([quote] ++ valueBytes) ++ [quote]
          else valueBytes in
        match unmarshalJSON valueBytes with
        | Err err => (h, Stop (Return hasAnyFieldBeenSet (newUnmarshalError jsonPath err)))
        | Ok d => (<[cell := d]> h, Got u)
        end
    | None =>
        match UnmarshalText E newType with
        | Some unmarshalText =>
            if decide (dataType = jsonparser.String) then
              match unmarshalText valueBytes with
              | Err err => (h, Stop (Return hasAnyFieldBeenSet (newUnmarshalError jsonPath err)))
              | Ok d => (<[cell := d]> h, Got u)
              end
            else (h, NotApplied)
        | None => (h, NotApplied)
        end
    end
  else (h, NotApplied).

(** The [default] case of the switch on the kind. *)
Definition decodeDefault (jsonPath : list string) (fieldType : reflect.Type_)
    (valueBytes : list byte) (hasAnyFieldBeenSet : bool) (h : Heap) : Heap * Decode :=
  let cell := length h in   (* where New puts the cell *)
  let '(h, p) := reflect.New fieldType h in
  match json_Unmarshal E valueBytes fieldType with
  | UnmarshalFailed err => (h, Stop (Return hasAnyFieldBeenSet (newUnmarshalError jsonPath err)))
  | Decoded d => (<[cell := d]> h, Got (Some (reflect.PointerTo fieldType, reflect.DPtr (Some cell))))
  | ResetToNil => (h, Got None)
  end.

(** The case [reflect.Int64]: a duration given as a string, else the
    [default] case. *)
Definition decodeInt64 (jsonPath : list string) (structField : reflect.StructField)
    (fieldType : reflect.Type_) (valueBytes : list byte) (dataType : jsonparser.ValueType)
    (hasAnyFieldBeenSet : bool) (h : Heap) : Heap * Decode :=
  let fallthrough := decodeDefault jsonPath fieldType valueBytes hasAnyFieldBeenSet h in
  if decide (dataType = jsonparser.String) then
    match jsonparser_ParseString E valueBytes with
    | Ok stringValue =>
        if AssignableToDuration fieldType then
          match time_ParseDuration E stringValue with
          | Err errParse =>
              (h, Stop (Return hasAnyFieldBeenSet
                          (ErrDurationUnparsable stringValue (reflect.Name structField))))
          | Ok value => (h, Got (Some (fieldType, reflect.DInt value)))
          end
        else fallthrough
    | Err _ => fallthrough
    end
  else fallthrough.

(** The case [reflect.String]. *)
Definition decodeString (jsonPath : list string) (structField : reflect.StructField)
    (valueBytes : list byte) (dataType : jsonparser.ValueType)
    (hasAnyFieldBeenSet : bool) (h : Heap) : Heap * Decode :=
  if negb (bool_decide (dataType = jsonparser.String)) then
    (h, Stop (Return hasAnyFieldBeenSet
                (ErrIncorrectJSONType (reflect.Name structField) dataType)))
  else
    match jsonparser_ParseString E valueBytes with
    | Err err => (h, Stop (Return hasAnyFieldBeenSet (newJsonparserError jsonPath err)))
    | Ok value => (h, Got (Some (reflect.Basic "string" reflect.String, reflect.DString value)))
    end.

(** The signature of [parse], for the recursive call. *)
Definition parseFn : Type :=
  list string -> reflect.Value -> Heap -> Outcome (Heap * (bool * option error)).

(** The case [reflect.Struct]. *)
Definition decodeStruct (parse : parseFn) (jsonPath : list string)
    (fieldType : reflect.Type_) (fieldValue : reflect.Value)
    (hasAnyFieldBeenSet : bool) (h : Heap) : Outcome (Heap * Decode) :=
  isZero ← reflect.IsZero h fieldValue;
  let '(h, structValue) :=
    if isZero : bool then reflect.New fieldType h else (h, fieldValue) in
  structValue ← orPanic "reflect: call of reflect.Value.Type on zero Value"
                   (reflect.Indirect h structValue);
  '(h, (hasAnySubStructFieldBeenSet, err)) ← parse jsonPath structValue h;
  let hasAnyFieldBeenSet := hasAnyFieldBeenSet || hasAnySubStructFieldBeenSet in
  match err with
  | Some err => Ret (h, Stop (Return hasAnyFieldBeenSet err))
  | None =>
      if negb hasAnySubStructFieldBeenSet then Ret (h, Stop (Continue hasAnyFieldBeenSet))
      else
        value ← reflect.Interface_ h structValue;
        Ret (h, Got value)
  end.

(** The switch on [fieldType.Kind()]. *)
Definition decodeByKind (parse : parseFn) (jsonPath : list string)
    (structField : reflect.StructField) (fieldType : reflect.Type_)
    (fieldValue : reflect.Value) (valueBytes : list byte) (dataType : jsonparser.ValueType)
    (hasAnyFieldBeenSet : bool) (h : Heap) : Outcome (Heap * Decode) :=
  match reflect.KindOf fieldType with
  | reflect.String =>
      Ret (decodeString jsonPath structField valueBytes dataType hasAnyFieldBeenSet h)
  | reflect.Struct =>
      decodeStruct parse jsonPath fieldType fieldValue hasAnyFieldBeenSet h
  | reflect.Complex64 | reflect.Complex128 =>
      Ret (h, Stop (Return hasAnyFieldBeenSet (ErrUnsupportedType (reflect.Name structField))))
  | reflect.Int64 =>
      Ret (decodeInt64 jsonPath structField fieldType valueBytes dataType hasAnyFieldBeenSet h)
  | _ =>
      Ret (decodeDefault jsonPath fieldType valueBytes hasAnyFieldBeenSet h)
  end.

(** From the located node to the value to assign: custom unmarshallers
    first, the switch on the kind if none applied. *)
Definition decode (parse : parseFn) (jsonPath : list string)
    (structField : reflect.StructField) (fieldType : reflect.Type_)
    (fieldValue : reflect.Value) (valueBytes : list byte) (dataType : jsonparser.ValueType)
    (hasAnyFieldBeenSet : bool) (h : Heap) : Outcome (Heap * Decode) :=
  let '(h, custom) :=
    customUnmarshal jsonPath fieldValue valueBytes dataType hasAnyFieldBeenSet h in
  match custom with
  | NotApplied =>
      decodeByKind parse jsonPath structField fieldType fieldValue
                   valueBytes dataType hasAnyFieldBeenSet h
  | _ => Ret (h, custom)
  end.

(** The first loop of the pointer chain: as long as the cell allocated last
    holds a pointer, allocate what it points to. [T] is the type of that
    cell, [lastPointer.Elem().Type()]. *)
Fixpoint allocPointers (T : reflect.Type_) (pointers : list reflect.Value) (h : Heap)
    : Heap * list reflect.Value :=
  match T with
  | reflect.PointerTo T' =>
      let '(h, lastPointer) := reflect.New T' h in
      allocPointers T' (pointers ++ [lastPointer]) h
  | _ => (h, pointers)
  end.

(** The second loop: [for i := len(pointers) - 2; i >= 0; i--], entered
    with [n = len(pointers) - 1] rounds to go. *)
Fixpoint linkPointers (pointers : list reflect.Value) (n : nat) (h : Heap) : Outcome Heap :=
  match n with
  | O => Ret h
  | S i =>
      outer ← orPanic "index out of range" (pointers !! i);
      inner ← orPanic "index out of range" (pointers !! S i);
      target ← orPanic "reflect: call of reflect.Value.Set on zero Value" (reflect.Elem h outer);
      h ← reflect.Set_ h target inner;
      linkPointers pointers i h
  end.

(** The end of the body: wrap [parsed] in as many fresh pointers as the
    field has, and assign. *)
Definition assign (fieldValue parsed : reflect.Value) (h : Heap) : Outcome Heap :=
  if decide (reflect.KindOf (reflect.typ fieldValue) = reflect.Pointer) then
    elemType ← orPanic "reflect: Elem of invalid type" (reflect.ElemOf (reflect.typ fieldValue));
    let '(h, lastPointer) := reflect.New elemType h in
    let '(h, pointers) := allocPointers elemType [lastPointer] h in
    last ← orPanic "index out of range" (pointers !! (length pointers - 1)%nat);
    target ← orPanic "reflect: call of reflect.Value.Set on zero Value" (reflect.Elem h last);
    h ← reflect.Set_ h target parsed;
    h ← linkPointers pointers (length pointers - 1) h;
    first ← orPanic "index out of range" (pointers !! 0%nat);
    reflect.Set_ h fieldValue first
  else
    reflect.Set_ h fieldValue parsed.

(** One round of the field loop. *)
Definition parseField (parse : parseFn) (s : jsonSourceImpl)
    (parsingCompanion : yagcl.ParsingCompanion) (bytes : list byte)
    (parentJsonPath : list string) (structValue : reflect.Value)
    (i : nat) (structField : reflect.StructField)
    (hasAnyFieldBeenSet : bool) (h : Heap) : Outcome (Heap * Step) :=
  if negb (yagcl.IncludeField parsingCompanion structField) then
    Ret (h, Continue hasAnyFieldBeenSet)
  else
    match extractJSONKey s parsingCompanion structField with
    | Err err => Ret (h, Return hasAnyFieldBeenSet err)
    | Ok jsonKey =>
        let jsonPath := parentJsonPath ++ [jsonKey] in
        match jsonparser_Get E bytes jsonPath with
        | Err jsonparser.KeyPathNotFoundError => Ret (h, Continue hasAnyFieldBeenSet)
        | Err err => Ret (h, Return hasAnyFieldBeenSet (newJsonparserError jsonPath err))
        | Ok (valueBytes, dataType) =>
            let fieldType := extractNonPointerFieldType (reflect.FType structField) in
            fieldValue ← reflect.Field structValue i structField;
            '(h, decoded) ← decode parse jsonPath structField fieldType fieldValue
                                   valueBytes dataType hasAnyFieldBeenSet h;
            match decoded with
            | Stop step => Ret (h, step)
            | NotApplied => Panic "unreachable"
            | Got value =>
                (* hasAnyFieldBeenSet = true *)
                v ← orPanic "reflect: call of reflect.Value.Convert on zero Value"
                      (reflect.ValueOf value ≫= reflect.Indirect h);
                parsed ← reflect.Convert h v fieldType;
                h ← assign fieldValue parsed h;
                Ret (h, Continue true)
            end
        end
    end.

(** The field loop, from field [i] on; [fields] are the fields not yet
    visited. *)
Fixpoint parseFields (parse : parseFn) (s : jsonSourceImpl)
    (parsingCompanion : yagcl.ParsingCompanion) (bytes : list byte)
    (parentJsonPath : list string) (structValue : reflect.Value)
    (i : nat) (fields : list reflect.StructField)
    (hasAnyFieldBeenSet : bool) (h : Heap) : Outcome (Heap * (bool * option error)) :=
  match fields with
  | [] => Ret (h, (hasAnyFieldBeenSet, None))
  | structField :: rest =>
      '(h, step) ← parseField parse s parsingCompanion bytes parentJsonPath
                     structValue i structField hasAnyFieldBeenSet h;
      match step with
      | Return hasAnyFieldBeenSet err => Ret (h, (hasAnyFieldBeenSet, Some err))
      | Continue hasAnyFieldBeenSet =>
          parseFields parse s parsingCompanion bytes parentJsonPath structValue
                      (S i) rest hasAnyFieldBeenSet h
      end
  end.

(** [parse]. The recursion of the Go function is bounded by [fuel]; see
    [parse_total] for the bound that always suffices. *)
Fixpoint parse (fuel : nat) (s : jsonSourceImpl)
    (parsingCompanion : yagcl.ParsingCompanion) (bytes : list byte)
    (parentJsonPath : list string) (structValue : reflect.Value) (h : Heap)
    : Outcome (Heap * (bool * option error)) :=
  match reflect.typ structValue with
  | reflect.StructOf _ fields =>
      match fuel with
      | O => OutOfFuel
      | S fuel =>
          parseFields (parse fuel s parsingCompanion bytes) s parsingCompanion bytes
                      parentJsonPath structValue 0 fields false h
      end
  | _ => Panic "reflect: call of reflect.Value.NumField on non-struct Value"
  end.

(** How deep structs nest inside a type. *)
Fixpoint structDepth (T : reflect.Type_) : nat :=
  match T with
  | reflect.Basic _ _ => 0
  | reflect.PointerTo elem => structDepth elem
  | reflect.StructOf _ fields =>
      S (foldr Nat.max 0%nat (map (fun f => structDepth (reflect.FType f)) fields))
  end.

(** [Parse] *)
Definition Parse (s : jsonSourceImpl) (parsingCompanion : yagcl.ParsingCompanion)
    (configurationStruct : reflect.any) (h : Heap) : Outcome (Heap * (bool * option error)) :=
  match verify s with
  | Some err => Ret (h, (false, Some err))
  | None =>
      match getBytes s with
      | Err err =>
          if negb (must s) && isErrSourceNotFound err
          then Ret (h, (false, None))
          else Ret (h, (false, Some err))
      | Ok bytes =>
          structValue ← orPanic "reflect: call of reflect.Value.Type on zero Value"
                          (reflect.ValueOf configurationStruct ≫= reflect.Indirect h);
          '(h, (_, err)) ← parse (structDepth (reflect.typ structValue)) s parsingCompanion
                                 bytes [] structValue h;
          Ret (h, (isNil err, err))
      end
  end.

End Binder.

(** ** Vocabulary of the statements about the pointer chain *)

(** [n] pointers around [T]. *)
Fixpoint pointerN (n : nat) (T : reflect.Type_) : reflect.Type_ :=
  match n with
  | O => T
  | S k => reflect.PointerTo (pointerN k T)
  end.

(** The number of pointers around the stripped type. *)
Fixpoint pointerDepth (T : reflect.Type_) : nat :=
  match T with
  | reflect.PointerTo elem => S (pointerDepth elem)
  | _ => 0
  end.

(** The pointer to cell [a] that [New T] returns. *)
Definition pointerValue (T : reflect.Type_) (a : reflect.addr) : reflect.Value :=
  reflect.mkValue (reflect.PointerTo T) (reflect.Immediate (reflect.DPtr (Some a))) false.

(** The cells and the pointers that the allocation loop produces for
    [pointerN n base], the first cell at address [a]. *)
Fixpoint newCells (n : nat) (base : reflect.Type_) : list reflect.Data :=
  match n with
  | O => []
  | S k => reflect.Zero (pointerN k base) :: newCells k base
  end.

Fixpoint newPointers (a : reflect.addr) (n : nat) (base : reflect.Type_) : list reflect.Value :=
  match n with
  | O => []
  | S k => pointerValue (pointerN k base) a :: newPointers (S a) k base
  end.

(** The cells once linked: each holds the address of the next, the last
    holds [d]. *)
Fixpoint chainCells (a : reflect.addr) (n : nat) (d : reflect.Data) : list reflect.Data :=
  match n with
  | O => []
  | S O => [d]
  | S k => reflect.DPtr (Some (S a)) :: chainCells (S a) k d
  end.

(** [x] leads to [d] through the cells at [addrs], in this order. *)
Fixpoint chainTo (h : Heap) (x : reflect.Data) (addrs : list reflect.addr) (d : reflect.Data) : Prop :=
  match addrs with
  | [] => x = d
  | a :: rest => x = reflect.DPtr (Some a) /\ exists y, h !! a = Some y /\ chainTo h y rest d
  end.

(** ** Vocabulary of the statements about the recursion *)

(** A recursive call that reports "nothing set, no error" has only
    allocated: the heap it was given is a prefix of the heap it leaves. *)
Definition allocatesOnly (parse : parseFn) : Prop :=
  forall jsonPath structValue (h h' : Heap),
    parse jsonPath structValue h = Ret (h', (false, None)) -> h `prefix_of` h'.

(** [parse] run with [n] levels left never runs out on a value whose type
    nests structs at most [n] deep. *)
Definition fuelSuffices (n : nat) (parse : parseFn) : Prop :=
  forall jsonPath structValue (h : Heap),
    (structDepth (reflect.typ structValue) <= n)%nat ->
    parse jsonPath structValue h <> OutOfFuel.

(** The kinds that the switch sends to its [default] case. *)
Definition defaultKind (k : reflect.Kind) : bool :=
  match k with
  | reflect.String | reflect.Struct | reflect.Complex64 | reflect.Complex128
  | reflect.Int64 => false
  | _ => true
  end.

(** ** Vocabulary of the statement about flat records *)

(** What the document holds for a field of a flat record: nothing ([None]:
    the field is excluded by the companion, or its path is not in the
    document), or a string ([Some content]: the field is an included,
    exported field of a string kind without custom unmarshallers, and its
    node is a String that unescapes to [content]). *)
Definition stringBinding (E : Env) (s : jsonSourceImpl)
    (parsingCompanion : yagcl.ParsingCompanion) (bytes : list byte)
    (parentJsonPath : list string) (f : reflect.StructField) (r : option string) : Prop :=
  match r with
  | None =>
      yagcl.IncludeField parsingCompanion f = false \/
      exists jsonKey,
        extractJSONKey s parsingCompanion f = Ok jsonKey /\
        jsonparser_Get E bytes (parentJsonPath ++ [jsonKey])
        = Err jsonparser.KeyPathNotFoundError
  | Some content =>
      yagcl.IncludeField parsingCompanion f = true /\
      reflect.IsExported f = true /\
      (exists name, reflect.FType f = reflect.Basic name reflect.String) /\
      UnmarshalJSON E (reflect.FType f) = None /\
      UnmarshalText E (reflect.FType f) = None /\
      exists jsonKey valueBytes,
        extractJSONKey s parsingCompanion f = Ok jsonKey /\
        jsonparser_Get E bytes (parentJsonPath ++ [jsonKey])
        = Ok (valueBytes, jsonparser.String) /\
        jsonparser_ParseString E valueBytes = Ok content
  end.

(** The slot of a field after the bind call, and whether any was set. *)
Definition bound (old : reflect.Data) (r : option string) : reflect.Data :=
  match r with
  | Some content => reflect.DString content
  | None => old
  end.

Definition anyBound (results : list (option string)) : bool :=
  existsb (fun r => match r with Some _ => true | None => false end) results.

(** * Concrete collaborators and documents

    Stand-ins for the libraries, precise enough for the documents below;
    they instantiate the general statements. *)

Module Demo.

Definition b (s : string) : list byte := list_byte_of_string s.

(** What [jsonparser.Get] answers for a document, the document being
    given by the table of its nodes (or of the errors met on the way to
    them); a path that is not in the table is not in the document. *)
Abbreviation Located := (Result jsonparser.Error (list byte * jsonparser.ValueType)).

Fixpoint tableGet (nodes : list (list string * Located)) (keys : list string) : Located :=
  match nodes with
  | [] => Err jsonparser.KeyPathNotFoundError
  | (p, answer) :: rest => if decide (p = keys) then answer else tableGet rest keys
  end.

Definition node (keys : list string) (raw : string) (dataType : jsonparser.ValueType)
    : list string * Located :=
  (keys, Ok (list_byte_of_string raw, dataType)).

(** [jsonparser.ParseString] on the escapes [\n] and [\c]. *)
Fixpoint unescape (raw : list byte) : list byte :=
  match raw with
  | [] => []
  | x5c :: x6e :: rest => x0a :: unescape rest
  | x5c :: c :: rest => c :: unescape rest
  | c :: rest => c :: unescape rest
  end.

(** [time.ParseDuration] on literals made of digits and one unit. *)
Fixpoint leadingInt (s : string) (acc : Z) : Z * string :=
  match s with
  | EmptyString => (acc, s)
  | String.String c rest =>
      let n := nat_of_ascii c in
      if (48 <=? n)%nat && (n <=? 57)%nat
      then leadingInt rest (acc * 10 + Z.of_nat (n - 48))
      else (acc, s)
  end.

Definition unitOf (u : string) : option Z :=
  if decide (u = "ns") then Some 1%Z
  else if decide (u = "us") then Some 1000%Z
  else if decide (u = "ms") then Some 1000000%Z
  else if decide (u = "s") then Some 1000000000%Z
  else if decide (u = "m") then Some 60000000000%Z
  else if decide (u = "h") then Some 3600000000000%Z
  else None.

Definition parseDuration (s : string) : Result string Z :=
  let '(v, rest) := leadingInt s 0 in
  if decide (rest = s) then Err "time: invalid duration"
  else
    match unitOf rest with
    | Some unit => Ok (v * unit)%Z
    | None => Err "time: unknown unit in duration"
    end.

(** [json.Unmarshal] on [null] and on decimal literals. *)
Definition unmarshal (data : list byte) (T : reflect.Type_) : UnmarshalResult :=
  let text := string_of_list_byte data in
  if decide (text = "null") then ResetToNil
  else
    let '(v, rest) := leadingInt text 0 in
    if bool_decide (rest = EmptyString) && negb (bool_decide (text = EmptyString))
    then Decoded (reflect.DInt v)
    else UnmarshalFailed "json: cannot unmarshal".

(** Two types with custom unmarshallers. The JSON one wants a quoted
    string and keeps what is between the quotes; the text one keeps the
    text it is given. *)
Definition customJSONUnmarshalable : reflect.Type_ :=
  reflect.Basic "customJSONUnmarshalable" reflect.String.
Definition customTextUnmarshalable : reflect.Type_ :=
  reflect.Basic "customTextUnmarshalable" reflect.String.

Definition unquote (data : list byte) : Result string reflect.Data :=
  match data with
  | x22 :: rest =>
      match rev rest with
      | x22 :: inner => Ok (reflect.DString (string_of_list_byte (rev inner)))
      | _ => Err "unexpected end of JSON input"
      end
  | _ => Err "invalid character looking for beginning of value"
  end.

Definition keepText (data : list byte) : Result string reflect.Data :=
  Ok (reflect.DString (string_of_list_byte data)).

Definition notExist : IOErr :=
  {| ioMsg := "open ./doesntexist.json: no such file or directory";
     os_IsNotExist := true; is_fs_ErrNotExist := true |}.

Definition isDirectory : IOErr :=
  {| ioMsg := "read ./: is a directory";
     os_IsNotExist := false; is_fs_ErrNotExist := false |}.

(** The environment in which the document holds the nodes [nodes]. *)
Definition env (nodes : list (list string * Located)) : Env := {|
  jsonparser_Get _ keys := tableGet nodes keys;
  jsonparser_ParseString raw := Ok (string_of_list_byte (unescape raw));
  json_Unmarshal := unmarshal;
  time_ParseDuration := parseDuration;
  UnmarshalJSON T :=
    match T with
    | reflect.Basic name reflect.String =>
        if decide (name = "customJSONUnmarshalable") then Some unquote else None
    | _ => None
    end;
  UnmarshalText T :=
    match T with
    | reflect.Basic name reflect.String =>
        if decide (name = "customTextUnmarshalable") then Some keepText else None
    | _ => None
    end;
  os_ReadFile p :=
    if decide (p = "./") then Err isDirectory else Err notExist
|}.

(** [struct { FieldA T `key:"field_a"` }], a zero value of it in cell 0,
    and the pointer to it that the caller passes. *)
Definition fieldA (T : reflect.Type_) : reflect.StructField :=
  reflect.mkStructField "FieldA" [("key", "field_a")] true T.

Definition configuration (T : reflect.Type_) : reflect.Type_ :=
  reflect.StructOf "configuration" [fieldA T].

Definition heap0 (T : reflect.Type_) : Heap := [reflect.Zero (configuration T)].

Definition target (T : reflect.Type_) : reflect.any :=
  Some (reflect.PointerTo (configuration T), reflect.DPtr (Some 0%nat)).

Definition root (T : reflect.Type_) : reflect.Value :=
  reflect.mkValue (configuration T) (reflect.Addressable 0 []) false.

(** A source with bytes to read; the stand-in locator reads the table. *)
Definition source : jsonSourceImpl := Bytes Source (b "{}").

Definition string_ : reflect.Type_ := reflect.Basic "string" reflect.String.
Definition int_ : reflect.Type_ := reflect.Basic "int" reflect.Int.
Definition complex128_ : reflect.Type_ := reflect.Basic "complex128" reflect.Complex128.

End Demo.

(** * Properties *)

(** ** The pointer chain *)

Lemma pointerN_strip (T : reflect.Type_) :
  T = pointerN (pointerDepth T) (extractNonPointerFieldType T).
Proof. induction T; simpl; congruence. Qed.

Lemma extractNonPointerFieldType_not_pointer (T e : reflect.Type_) :
  extractNonPointerFieldType T <> reflect.PointerTo e.
Proof. induction T; simpl; congruence. Qed.

Lemma extractNonPointerFieldType_pointerN (n : nat) (base : reflect.Type_) :
  (forall e, base <> reflect.PointerTo e) ->
  extractNonPointerFieldType (pointerN n base) = base.
Proof.
  intros Hb. induction n as [|n IH]; simpl; [|exact IH].
  destruct base; simpl; try reflexivity. exfalso. eapply Hb. reflexivity.
Qed.

Lemma Kind_not_pointer (base : reflect.Type_) :
  reflect.KindOf base <> reflect.Pointer -> forall e, base <> reflect.PointerTo e.
Proof. intros Hk e ->. apply Hk. reflexivity. Qed.

Lemma newCells_length n base : length (newCells n base) = n.
Proof. induction n; simpl; congruence. Qed.

Lemma chainCells_length a n d : length (chainCells a n d) = n.
Proof.
  revert a. induction n as [|[|n] IH]; intros a; try reflexivity.
  change (S (length (chainCells (S a) (S n) d)) = S (S n)). by rewrite IH.
Qed.

Lemma newPointers_lookup a n base j :
  (j < n)%nat ->
  newPointers a n base !! j = Some (pointerValue (pointerN (n - S j) base) (a + j)).
Proof.
  revert a j. induction n as [|n IH]; intros a j Hj; [lia|].
  destruct j as [|j]; simpl.
  - by rewrite Nat.sub_0_r, Nat.add_0_r.
  - rewrite IH by lia. do 2 f_equal. lia.
Qed.

Lemma newPointers_length a n base : length (newPointers a n base) = n.
Proof. revert a. induction n; intros; simpl; congruence. Qed.

Lemma chainCells_lookup_link a n d j :
  (S j < n)%nat -> chainCells a n d !! j = Some (reflect.DPtr (Some (a + S j))).
Proof.
  revert a j. induction n as [|[|n] IH]; intros a j Hj; try lia.
  change (chainCells a (S (S n)) d)
    with (reflect.DPtr (Some (S a)) :: chainCells (S a) (S n) d).
  destruct j as [|j].
  - simpl. do 3 f_equal. lia.
  - change (chainCells (S a) (S n) d !! j = Some (reflect.DPtr (Some (a + S (S j))))).
    rewrite IH by lia. do 3 f_equal. lia.
Qed.

Lemma chainCells_lookup_last a n d :
  chainCells a (S n) d !! n = Some d.
Proof.
  revert a. induction n as [|n IH]; intros a; [reflexivity|].
  change (chainCells a (S (S n)) d)
    with (reflect.DPtr (Some (S a)) :: chainCells (S a) (S n) d).
  exact (IH (S a)).
Qed.

(** The allocation loop appends one zero cell per pointer level. *)
Lemma allocPointers_spec n base pointers (h : Heap) :
  (forall e, base <> reflect.PointerTo e) ->
  allocPointers (pointerN n base) pointers h
  = (h ++ newCells n base, pointers ++ newPointers (length h) n base).
Proof.
  intros Hb. revert pointers h. induction n as [|n IH]; intros pointers h; simpl.
  - rewrite !app_nil_r. destruct base; try reflexivity. exfalso. eapply Hb. reflexivity.
  - rewrite IH. rewrite length_app. simpl. rewrite <- !app_assoc. simpl.
    by rewrite Nat.add_1_r.
Qed.

Lemma Set_addressable (h : Heap) (v x : reflect.Value) c sel d old new :
  reflect.flagRO v = false -> reflect.flagRO x = false ->
  reflect.loc v = reflect.Addressable c sel ->
  reflect.read h x = Some d ->
  h !! c = Some old ->
  reflect.setSel old sel d = Some new ->
  reflect.Set_ h v x = Ret (<[c := new]> h).
Proof.
  intros Hv Hx Hl Hr Hc Hs. unfold reflect.Set_.
  rewrite Hv, Hx, Hl, Hr, Hc. simpl. rewrite Hs. reflexivity.
Qed.

Lemma setSel_is_Some (d : reflect.Data) sel new :
  is_Some (reflect.getSel d sel) -> is_Some (reflect.setSel d sel new).
Proof.
  revert d. induction sel as [|i sel IH]; intros d; simpl; [eauto|].
  destruct d; try (intros [? ?]; discriminate).
  destruct (fields !! i) as [x|]; simpl; [|intros [? ?]; discriminate].
  intros Hx. destruct (IH x Hx) as [x' ->]. simpl. eauto.
Qed.

Lemma getSel_setSel (d : reflect.Data) sel new d' :
  reflect.setSel d sel new = Some d' -> reflect.getSel d' sel = Some new.
Proof.
  revert d d'. induction sel as [|i sel IH]; intros d d'; simpl.
  - congruence.
  - destruct d; try discriminate.
    destruct (fields !! i) as [x|] eqn:Hi; simpl; [|discriminate].
    destruct (reflect.setSel x sel new) as [x'|] eqn:Hx; simpl; [|discriminate].
    intros [= <-]. rewrite list_lookup_insert_eq by (eapply lookup_lt_Some; eauto).
    simpl. eauto.
Qed.

Lemma Elem_pointerValue (h : Heap) T a :
  reflect.Elem h (pointerValue T a)
  = Some (reflect.mkValue T (reflect.Addressable a []) false).
Proof. reflexivity. Qed.

(** The linking loop, run from round [i] on a heap whose cells from [i] on
    are linked already, links the rest. *)
Lemma linkPointers_spec base n d (h : Heap) i :
  (i < n)%nat ->
  linkPointers (newPointers (length h) n base) i
    (h ++ take i (newCells n base) ++ drop i (chainCells (length h) n d))
  = Ret (h ++ chainCells (length h) n d).
Proof.
  induction i as [|j IH]; intros Hi; [reflexivity|].
  simpl linkPointers.
  rewrite !newPointers_lookup by lia.
  cbn [orPanic mbind Outcome_bind]. rewrite Elem_pointerValue.
  cbn [orPanic mbind Outcome_bind].
  assert (Hz : is_Some (newCells n base !! j))
    by (apply lookup_lt_is_Some; rewrite newCells_length; lia).
  destruct Hz as [z Hz].
  rewrite (take_S_r _ _ _ Hz).
  erewrite Set_addressable; [| reflexivity | reflexivity | reflexivity | reflexivity | | reflexivity].
  2:{ rewrite lookup_app_r by lia.
      replace (length h + j - length h)%nat with (length (take j (newCells n base)) + 0)%nat
        by (rewrite length_take, newCells_length; lia).
      rewrite <- app_assoc. rewrite lookup_app_r by lia.
      rewrite Nat.add_comm, Nat.add_sub. reflexivity. }
  simpl.
  rewrite insert_app_r. rewrite <- app_assoc.
  replace j with (length (take j (newCells n base)) + 0)%nat at 2
    by (rewrite length_take, newCells_length; lia).
  rewrite insert_app_r. simpl.
  rewrite <- (IH ltac:(lia)). do 3 f_equal.
  symmetry. apply drop_S. apply chainCells_lookup_link. lia.
Qed.

(** The closed form of [assign] on a field with [n] pointers around a
    non-pointer type: the heap grows by the [n] linked cells and the field
    slot receives the address of the first (the data itself when [n = 0]). *)
Lemma assign_spec (fieldValue : reflect.Value) (T : reflect.Type_) (d : reflect.Data)
    (h : Heap) n base c sel old :
  reflect.typ fieldValue = pointerN n base ->
  reflect.KindOf base <> reflect.Pointer ->
  reflect.flagRO fieldValue = false ->
  reflect.loc fieldValue = reflect.Addressable c sel ->
  h !! c = Some old ->
  is_Some (reflect.getSel old sel) ->
  exists new,
    reflect.setSel old sel
      (match n with O => d | S _ => reflect.DPtr (Some (length h)) end) = Some new /\
    assign fieldValue (reflect.mkValue T (reflect.Immediate d) false) h
    = Ret (<[c := new]> (h ++ chainCells (length h) n d)).
Proof.
  intros Ht Hk Hro Hloc Hc Hsel.
  destruct (setSel_is_Some old sel
              (match n with O => d | S _ => reflect.DPtr (Some (length h)) end) Hsel)
    as [new Hnew].
  exists new. split; [exact Hnew|].
  unfold assign. rewrite Ht.
  destruct n as [|n]; simpl pointerN.
  - rewrite decide_False by exact Hk. simpl. rewrite app_nil_r.
    eapply Set_addressable; eauto.
  - rewrite decide_True by reflexivity.
    cbn [reflect.ElemOf orPanic mbind Outcome_bind reflect.New].
    rewrite allocPointers_spec by (apply Kind_not_pointer; exact Hk).
    rewrite length_app. simpl length. rewrite <- app_assoc. simpl app.
    rewrite Nat.add_1_r.
    change (reflect.mkValue (reflect.PointerTo (pointerN n base))
              (reflect.Immediate (reflect.DPtr (Some (length h)))) false
            :: newPointers (S (length h)) n base)
      with (newPointers (length h) (S n) base).
    change (reflect.Zero (pointerN n base) :: newCells n base) with (newCells (S n) base).
    rewrite newPointers_length.
    replace (S n - 1)%nat with n by lia.
    rewrite !newPointers_lookup by lia.
    cbn [orPanic mbind Outcome_bind].
    assert (Hz : is_Some (newCells (S n) base !! n))
      by (apply lookup_lt_is_Some; rewrite newCells_length; lia).
    destruct Hz as [z Hz].
    rewrite Elem_pointerValue. cbn [orPanic mbind Outcome_bind].
    erewrite Set_addressable; [| reflexivity | reflexivity | reflexivity | reflexivity | | reflexivity].
    2:{ rewrite lookup_app_r by lia. rewrite Nat.add_comm, Nat.add_sub. exact Hz. }
    cbn [mbind Outcome_bind].
    replace (<[(length h + n)%nat := d]> (h ++ newCells (S n) base))
      with (h ++ take n (newCells (S n) base) ++ drop n (chainCells (length h) (S n) d)).
    2:{ rewrite insert_app_r. f_equal.
        rewrite (drop_S _ _ _ (chainCells_lookup_last _ _ _)).
        rewrite drop_ge by (rewrite chainCells_length; lia).
        rewrite <- (take_drop n (newCells (S n) base)) at 2.
        rewrite (drop_S _ _ _ Hz).
        rewrite drop_ge by (rewrite newCells_length; lia).
        rewrite insert_app_r_alt by (rewrite length_take, newCells_length; lia).
        rewrite length_take, newCells_length.
        by replace (n - n `min` S n)%nat with 0%nat by lia. }
    rewrite linkPointers_spec by lia.
    cbn [mbind Outcome_bind]. rewrite Nat.add_0_r.
    eapply (Set_addressable _ _ _ c sel (reflect.DPtr (Some (length h))) old new);
      try reflexivity; try assumption.
    rewrite lookup_app_l by (eapply lookup_lt_Some; eauto). exact Hc.
Qed.

Lemma chainCells_chainTo (H : Heap) a N d :
  (forall j, (j < N)%nat -> H !! (a + j)%nat = chainCells a N d !! j) ->
  forall n k, (k + n = N)%nat -> (1 <= n)%nat ->
  chainTo H (reflect.DPtr (Some (a + k)%nat)) (seq (a + k) n) d.
Proof.
  intros HH. induction n as [|m IH]; intros k Hk Hn; [lia|].
  simpl. split; [reflexivity|].
  destruct m as [|m].
  - exists d. split; [|reflexivity].
    rewrite HH by lia. subst N. rewrite Nat.add_1_r. apply chainCells_lookup_last.
  - exists (reflect.DPtr (Some (a + S k)%nat)). split.
    + rewrite HH by lia. apply chainCells_lookup_link. lia.
    + replace (S (a + k)) with (a + S k)%nat by lia. apply IH; lia.
Qed.

(** ** What a bind call leaves untouched *)

Lemma bind_Ret_inv {A B : Type} (m : Outcome A) (k : A -> Outcome B) (y : B) :
  m ≫= k = Ret y -> exists a, m = Ret a /\ k a = Ret y.
Proof. destruct m; simpl; intros Hm; try discriminate. eauto. Qed.

Lemma orPanic_Ret_inv {A : Type} msg (o : option A) (a : A) :
  orPanic msg o = Ret a -> o = Some a.
Proof. destruct o; simpl; congruence. Qed.

Ltac outcome_inv H :=
  let a := fresh "a" in
  let Ha := fresh "Ha" in
  apply bind_Ret_inv in H; destruct H as (a & Ha & H).

Lemma New_heap (T : reflect.Type_) (h : Heap) :
  reflect.New T h = (h ++ [reflect.Zero T], pointerValue T (length h)).
Proof. reflexivity. Qed.

Lemma insert_new_cell (h : Heap) (z d : reflect.Data) :
  <[length h := d]> (h ++ [z]) = h ++ [d].
Proof.
  rewrite insert_app_r_alt by lia. by rewrite Nat.sub_diag.
Qed.

Section NoWrite.

Context (E : Env) (s : jsonSourceImpl) (parsingCompanion : yagcl.ParsingCompanion)
        (bytes : list byte).

Lemma customUnmarshal_heap jsonPath fieldValue valueBytes dataType b0 (h h' : Heap) r :
  customUnmarshal E jsonPath fieldValue valueBytes dataType b0 h = (h', r) ->
  h `prefix_of` h' /\ (forall b1, r <> Stop (Continue b1)) /\
  (forall b1 e, r = Stop (Return b1 e) -> b1 = b0).
Proof.
  unfold customUnmarshal. rewrite New_heap.
  repeat case_match; intros [= <- <-]; rewrite ?insert_new_cell;
    (split; [solve [reflexivity | by apply prefix_app_r] | split; [congruence|]]);
    intros ? ? [=]; congruence.
Qed.

Lemma decodeDefault_heap jsonPath fieldType valueBytes b0 (h h' : Heap) r :
  decodeDefault E jsonPath fieldType valueBytes b0 h = (h', r) ->
  h `prefix_of` h' /\ (forall b1, r <> Stop (Continue b1)) /\
  (forall b1 e, r = Stop (Return b1 e) -> b1 = b0).
Proof.
  unfold decodeDefault. rewrite New_heap.
  repeat case_match; intros [= <- <-]; rewrite ?insert_new_cell;
    (split; [solve [reflexivity | by apply prefix_app_r] | split; [congruence|]]);
    intros ? ? [=]; congruence.
Qed.

Lemma decodeInt64_heap jsonPath structField fieldType valueBytes dataType b0 (h h' : Heap) r :
  decodeInt64 E jsonPath structField fieldType valueBytes dataType b0 h = (h', r) ->
  h `prefix_of` h' /\ (forall b1, r <> Stop (Continue b1)) /\
  (forall b1 e, r = Stop (Return b1 e) -> b1 = b0).
Proof.
  unfold decodeInt64.
  repeat case_match; try (apply decodeDefault_heap);
    intros [= <- <-]; (split; [reflexivity | split; [congruence|]]);
    intros ? ? [=]; congruence.
Qed.

Lemma decodeString_heap jsonPath structField valueBytes dataType b0 (h h' : Heap) r :
  decodeString E jsonPath structField valueBytes dataType b0 h = (h', r) ->
  h `prefix_of` h' /\ (forall b1, r <> Stop (Continue b1)) /\
  (forall b1 e, r = Stop (Return b1 e) -> b1 = b0).
Proof.
  unfold decodeString.
  repeat case_match; intros [= <- <-]; (split; [reflexivity | split; [congruence|]]);
    intros ? ? [=]; congruence.
Qed.

(** The struct case: it continues only after a recursive call that set
    nothing, and then with the flag it had. *)
Lemma decodeStruct_heap parse jsonPath fieldType fieldValue b0 (h h' : Heap) r :
  allocatesOnly parse ->
  decodeStruct parse jsonPath fieldType fieldValue b0 h = Ret (h', r) ->
  (forall b1, r = Stop (Continue b1) -> b1 = b0 /\ h `prefix_of` h') /\
  (forall b1 e, r = Stop (Return b1 e) -> b0 = true -> b1 = true).
Proof.
  intros Hrec. unfold decodeStruct. intros H.
  outcome_inv H. destruct (if a then _ else _) as [h1 sv0] eqn:Hsv in H.
  assert (Hp1 : h `prefix_of` h1).
  { destruct a; [rewrite New_heap in Hsv | ]; injection Hsv as <- <-;
      [by apply prefix_app_r | reflexivity]. }
  outcome_inv H. outcome_inv H. destruct a1 as [h2 [sub [err|]]].
  - injection H as <- <-. split; [intros b1 [=] |].
    intros b1 e0 [= <- <-] ->. reflexivity.
  - destruct sub; simpl in H.
    + outcome_inv H. injection H as <- <-. split; intros; discriminate.
    + injection H as <- <-. split; [|intros; discriminate].
      intros b1 [= <-]. split; [by rewrite orb_false_r|].
      etrans; [exact Hp1|]. eapply Hrec. exact Ha1.
Qed.

Lemma decode_heap parse jsonPath structField fieldType fieldValue valueBytes dataType
    b0 (h h' : Heap) r :
  allocatesOnly parse ->
  decode E parse jsonPath structField fieldType fieldValue valueBytes dataType b0 h
  = Ret (h', r) ->
  (forall b1, r = Stop (Continue b1) -> b1 = b0 /\ h `prefix_of` h') /\
  (forall b1 e, r = Stop (Return b1 e) -> b0 = true -> b1 = true).
Proof.
  intros Hrec. unfold decode.
  destruct (customUnmarshal _ _ _ _ _ _ _) as [h1 custom] eqn:Hc.
  apply customUnmarshal_heap in Hc as (Hp & Hnc & Hret).
  assert (Hlift : forall (x : Heap * Decode),
            (let '(h2, r2) := x in
             h1 `prefix_of` h2 /\ (forall b1, r2 <> Stop (Continue b1)) /\
             (forall b1 e, r2 = Stop (Return b1 e) -> b1 = b0)) ->
            Ret x = Ret (h', r) ->
            (forall b1, r = Stop (Continue b1) -> b1 = b0 /\ h `prefix_of` h') /\
            (forall b1 e, r = Stop (Return b1 e) -> b0 = true -> b1 = true)).
  { intros [h2 r2] (Hp2 & Hnc2 & Hret2) [= -> ->]. split.
    - intros b1 Hst. exfalso. by eapply Hnc2.
    - intros b1 e0 Hr ->. eauto. }
  destruct custom as [value | st |].
  - intros [= <- <-]. split; intros; discriminate.
  - intros [= <- <-]. split.
    + intros b1 Hst. exfalso. by eapply Hnc.
    + intros b1 e0 Hr ->. eauto.
  - unfold decodeByKind.
    destruct (reflect.KindOf fieldType);
      try (apply Hlift; destruct (decodeDefault _ _ _ _ _ _) eqn:Hd;
           apply decodeDefault_heap in Hd; exact Hd).
    + apply Hlift. destruct (decodeInt64 _ _ _ _ _ _ _ _) eqn:Hd.
      apply decodeInt64_heap in Hd; exact Hd.
    + intros [= <- <-]. split; [intros; discriminate|]. intros b1 e0 [= <- <-] ->. reflexivity.
    + intros [= <- <-]. split; [intros; discriminate|]. intros b1 e0 [= <- <-] ->. reflexivity.
    + apply Hlift. destruct (decodeString _ _ _ _ _ _ _) eqn:Hd.
      apply decodeString_heap in Hd; exact Hd.
    + intros Hs. apply decodeStruct_heap in Hs as [Hs1 Hs2]; [|exact Hrec].
      split.
      * intros b1 Hr. destruct (Hs1 b1 Hr) as [-> Hp2]. split; [reflexivity|].
        etrans; eauto.
      * exact Hs2.
Qed.

Lemma parseField_heap parse parentJsonPath structValue i structField b0 (h h' : Heap) step :
  allocatesOnly parse ->
  parseField E parse s parsingCompanion bytes parentJsonPath structValue i structField b0 h
  = Ret (h', step) ->
  (forall b1, step = Continue b1 -> b1 = true \/ (b1 = b0 /\ h `prefix_of` h')) /\
  (forall b1 e, step = Return b1 e -> b0 = true -> b1 = true).
Proof.
  intros Hrec. unfold parseField.
  destruct (negb _).
  { intros [= <- <-]. split; [|intros; discriminate]. intros b1 [= <-]. by right. }
  destruct (extractJSONKey _ _ _) as [jsonKey|err].
  2:{ intros [= <- <-]. split; [intros; discriminate|]. by intros b1 e0 [= <- <-]. }
  destruct (jsonparser_Get _ _ _) as [[valueBytes dataType]|[|msg]].
  2:{ intros [= <- <-]. split; [|intros; discriminate]. intros b1 [= <-]. by right. }
  2:{ intros [= <- <-]. split; [intros; discriminate|]. by intros b1 e0 [= <- <-]. }
  intros H. outcome_inv H. outcome_inv H. destruct a0 as [h1 decoded].
  eapply decode_heap in Ha0 as [Hcont Hret]; [|exact Hrec].
  destruct decoded as [value | st |]; [| | discriminate].
  - outcome_inv H. outcome_inv H. outcome_inv H. injection H as <- <-.
    split; [|intros; discriminate]. intros b1 [= <-]. by left.
  - injection H as <- <-. split.
    + intros b1 ->. right. by apply Hcont.
    + intros b1 e0 ->. by eapply Hret.
Qed.

Lemma parseFields_heap parse parentJsonPath structValue fields :
  allocatesOnly parse ->
  forall i b0 (h h' : Heap) b err,
  parseFields E parse s parsingCompanion bytes parentJsonPath structValue i fields b0 h
  = Ret (h', (b, err)) ->
  (b0 = true -> b = true) /\ (b = false -> err = None -> h `prefix_of` h').
Proof.
  intros Hrec. induction fields as [|structField rest IH]; intros i b0 h h' b err; simpl.
  - intros [= <- <- <-]. split; [done|reflexivity].
  - intros H. outcome_inv H. destruct a as [h1 step].
    eapply parseField_heap in Ha as [Hcont Hret]; [|exact Hrec].
    destruct step as [b1|b1 e1].
    + apply IH in H as [Hmono Hpre].
      destruct (Hcont b1 eq_refl) as [-> | [-> Hp]].
      * split; [by intros _; apply Hmono|]. intros Hb. rewrite Hmono in Hb; done.
      * split; [exact Hmono|]. intros Hb He. etrans; [exact Hp|]. by apply Hpre.
    + injection H as <- <- <-. split; [by eapply Hret|]. intros; discriminate.
Qed.

(** A bind call that reports "nothing set, no error" has written to no
    cell that existed before it. *)
Lemma parse_allocatesOnly fuel : allocatesOnly (parse E fuel s parsingCompanion bytes).
Proof.
  induction fuel as [|fuel IH]; intros jsonPath structValue h h'; simpl;
    destruct (reflect.typ structValue); try discriminate.
  intros H. by eapply parseFields_heap in H as [_ Hp]; eauto.
Qed.

End NoWrite.

(** ** The recursion budget *)

Lemma bind_terminates {A B : Type} (m : Outcome A) (k : A -> Outcome B) :
  m <> OutOfFuel -> (forall a, m = Ret a -> k a <> OutOfFuel) -> m ≫= k <> OutOfFuel.
Proof. destruct m; simpl; intros Hm Hk; [by apply Hk | discriminate | done]. Qed.

Lemma orPanic_terminates {A : Type} msg (o : option A) : orPanic msg o <> OutOfFuel.
Proof. by destruct o. Qed.

Lemma Set_terminates (h : Heap) v x : reflect.Set_ h v x <> OutOfFuel.
Proof.
  unfold reflect.Set_. destruct (_ || _); [done|]. destruct (reflect.loc v); [|done].
  repeat (apply bind_terminates; [apply orPanic_terminates | intros ? _]). done.
Qed.

Lemma linkPointers_terminates pointers n (h : Heap) : linkPointers pointers n h <> OutOfFuel.
Proof.
  revert h. induction n as [|n IH]; intros h; simpl; [done|].
  repeat (apply bind_terminates; [apply orPanic_terminates | intros ? _]).
  apply bind_terminates; [apply Set_terminates | intros ? _]. apply IH.
Qed.

Lemma assign_terminates fieldValue parsed (h : Heap) : assign fieldValue parsed h <> OutOfFuel.
Proof.
  unfold assign. destruct (decide _); [|apply Set_terminates].
  apply bind_terminates; [apply orPanic_terminates | intros elemType _].
  rewrite New_heap. destruct (allocPointers _ _ _) as [h1 pointers].
  repeat (apply bind_terminates; [apply orPanic_terminates | intros ? _]).
  apply bind_terminates; [apply Set_terminates | intros ? _].
  apply bind_terminates; [apply linkPointers_terminates | intros ? _].
  apply bind_terminates; [apply orPanic_terminates | intros ? _].
  apply Set_terminates.
Qed.

Lemma structDepth_strip T : structDepth (extractNonPointerFieldType T) = structDepth T.
Proof. induction T; simpl; congruence. Qed.

Lemma Indirect_depth (h : Heap) v v' :
  reflect.Indirect h v = Some v' ->
  structDepth (reflect.typ v') = structDepth (reflect.typ v).
Proof.
  unfold reflect.Indirect, reflect.Elem. destruct (decide _); [|congruence].
  destruct (reflect.typ v) eqn:Ht; try discriminate.
  destruct (reflect.read h v) as [[| | | |[a|]|]|]; try discriminate.
  intros [= <-]. reflexivity.
Qed.

Lemma Field_typ v i f fv : reflect.Field v i f = Ret fv -> reflect.typ fv = reflect.FType f.
Proof.
  unfold reflect.Field. destruct (reflect.loc v) as [c sel|[| | | | |fs]]; try discriminate.
  - by intros [= <-].
  - intros H. outcome_inv H. by injection H as <-.
Qed.

Section Total.

Context (E : Env) (s : jsonSourceImpl) (parsingCompanion : yagcl.ParsingCompanion)
        (bytes : list byte).

Lemma decode_terminates parse n jsonPath structField fieldType fieldValue valueBytes
    dataType b0 (h : Heap) :
  fuelSuffices n parse ->
  (structDepth fieldType <= n)%nat ->
  (structDepth (reflect.typ fieldValue) <= n)%nat ->
  decode E parse jsonPath structField fieldType fieldValue valueBytes dataType b0 h
  <> OutOfFuel.
Proof.
  intros Hrec HT Hfv. unfold decode.
  destruct (customUnmarshal _ _ _ _ _ _ _) as [h1 [value|st|]]; try done.
  unfold decodeByKind. destruct (reflect.KindOf fieldType); try done.
  unfold decodeStruct.
  apply bind_terminates; [unfold reflect.IsZero|].
  { apply bind_terminates; [apply orPanic_terminates | done]. }
  intros isZero _.
  destruct (if isZero then _ else _) as [h2 sv0] eqn:Hsv.
  apply bind_terminates; [apply orPanic_terminates|].
  intros sv Hind%orPanic_Ret_inv. apply Indirect_depth in Hind.
  apply bind_terminates.
  - apply Hrec. rewrite Hind.
    destruct isZero; [rewrite New_heap in Hsv|]; injection Hsv as <- <-; [exact HT|exact Hfv].
  - intros [h3 [sub [err|]]] _; [done|]. destruct sub; [|done]. simpl.
    unfold reflect.Interface_. destruct (reflect.flagRO sv); [done|].
    apply bind_terminates; [|done].
    apply bind_terminates; [apply orPanic_terminates | done].
Qed.

Lemma parseField_terminates parse n parentJsonPath structValue i structField b0 (h : Heap) :
  fuelSuffices n parse ->
  (structDepth (reflect.FType structField) <= n)%nat ->
  parseField E parse s parsingCompanion bytes parentJsonPath structValue i structField b0 h
  <> OutOfFuel.
Proof.
  intros Hrec Hf. unfold parseField.
  destruct (negb _); [done|].
  destruct (extractJSONKey _ _ _); [|done].
  destruct (jsonparser_Get _ _ _) as [[valueBytes dataType]|[|msg]]; [|done|done].
  apply bind_terminates.
  { unfold reflect.Field. destruct (reflect.loc structValue) as [|[]]; try done.
    apply bind_terminates; [apply orPanic_terminates | done]. }
  intros fv Hfv%Field_typ.
  apply bind_terminates.
  { eapply decode_terminates; eauto.
    - by rewrite structDepth_strip.
    - by rewrite Hfv. }
  intros [h1 [value|st|]] _; try done.
  apply bind_terminates; [apply orPanic_terminates | intros v _].
  apply bind_terminates.
  { unfold reflect.Convert. apply bind_terminates; [apply orPanic_terminates | done]. }
  intros parsed _. apply bind_terminates; [apply assign_terminates | done].
Qed.

Lemma parseFields_terminates parse n parentJsonPath structValue fields :
  fuelSuffices n parse ->
  Forall (fun f => (structDepth (reflect.FType f) <= n)%nat) fields ->
  forall i b0 (h : Heap),
  parseFields E parse s parsingCompanion bytes parentJsonPath structValue i fields b0 h
  <> OutOfFuel.
Proof.
  intros Hrec. induction 1 as [|f rest Hf Hrest IH]; intros i b0 h; simpl; [done|].
  apply bind_terminates; [by eapply parseField_terminates|].
  intros [h1 [b1|b1 e1]] _; [apply IH | done].
Qed.

Lemma structDepth_fields fields :
  Forall (fun f => (structDepth (reflect.FType f)
                    <= foldr Nat.max 0%nat (map (fun f => structDepth (reflect.FType f)) fields))%nat)
         fields.
Proof.
  induction fields as [|f rest IH]; constructor; simpl; [lia|].
  eapply Forall_impl; [exact IH|]. simpl. intros; lia.
Qed.

(** [parse] is total: the struct depth of the value's type is budget enough. *)
Lemma parse_total fuel : fuelSuffices fuel (parse E fuel s parsingCompanion bytes).
Proof.
  induction fuel as [|fuel IH]; intros jsonPath structValue h; simpl;
    destruct (reflect.typ structValue) as [| |name fields]; try done; simpl.
  - lia.
  - intros Hd. apply parseFields_terminates with (n := fuel); [exact IH|].
    eapply Forall_impl; [apply structDepth_fields|]. simpl. intros; lia.
Qed.

End Total.

(** ** One round of the field loop *)

Section Round.

Context (E : Env) (parse : parseFn) (s : jsonSourceImpl)
        (parsingCompanion : yagcl.ParsingCompanion) (bytes : list byte).

(** A round whose node is located: decoding, then the assignment. *)
Lemma parseField_located parentJsonPath structValue i structField b0 (h : Heap)
    jsonKey valueBytes dataType fieldValue :
  yagcl.IncludeField parsingCompanion structField = true ->
  extractJSONKey s parsingCompanion structField = Ok jsonKey ->
  jsonparser_Get E bytes (parentJsonPath ++ [jsonKey]) = Ok (valueBytes, dataType) ->
  reflect.Field structValue i structField = Ret fieldValue ->
  parseField E parse s parsingCompanion bytes parentJsonPath structValue i structField b0 h
  = '(h, decoded) ← decode E parse (parentJsonPath ++ [jsonKey]) structField
                       (extractNonPointerFieldType (reflect.FType structField))
                       fieldValue valueBytes dataType b0 h;
    match decoded with
    | Stop step => Ret (h, step)
    | NotApplied => Panic "unreachable"
    | Got value =>
        v ← orPanic "reflect: call of reflect.Value.Convert on zero Value"
              (reflect.ValueOf value ≫= reflect.Indirect h);
        parsed ← reflect.Convert h v (extractNonPointerFieldType (reflect.FType structField));
        h ← assign fieldValue parsed h;
        Ret (h, Continue true)
    end.
Proof.
  intros Hinc Hkey Hget Hfield. unfold parseField.
  rewrite Hinc, Hkey, Hget, Hfield. reflexivity.
Qed.

Lemma ValueOf_Indirect_flagRO (h : Heap) value v :
  reflect.ValueOf value ≫= reflect.Indirect h = Some v -> reflect.flagRO v = false.
Proof.
  destruct value as [[T d]|]; simpl; [|discriminate].
  unfold reflect.Indirect, reflect.Elem. simpl. destruct (decide _); [|by intros [= <-]].
  destruct T; try discriminate. destruct d as [| | | |[a|]|]; try discriminate.
  by intros [= <-].
Qed.

(** A round that decodes to a value hands its data to [assign]. *)
Lemma parseField_Got parentJsonPath structValue i structField b0 (h h1 : Heap)
    jsonKey valueBytes dataType fieldValue value v d :
  yagcl.IncludeField parsingCompanion structField = true ->
  extractJSONKey s parsingCompanion structField = Ok jsonKey ->
  jsonparser_Get E bytes (parentJsonPath ++ [jsonKey]) = Ok (valueBytes, dataType) ->
  reflect.Field structValue i structField = Ret fieldValue ->
  decode E parse (parentJsonPath ++ [jsonKey]) structField
         (extractNonPointerFieldType (reflect.FType structField))
         fieldValue valueBytes dataType b0 h = Ret (h1, Got value) ->
  reflect.ValueOf value ≫= reflect.Indirect h1 = Some v ->
  reflect.read h1 v = Some d ->
  parseField E parse s parsingCompanion bytes parentJsonPath structValue i structField b0 h
  = h' ← assign fieldValue
            (reflect.mkValue (extractNonPointerFieldType (reflect.FType structField))
                             (reflect.Immediate d) false) h1;
    Ret (h', Continue true).
Proof.
  intros Hinc Hkey Hget Hfield Hdec Hv Hd.
  erewrite parseField_located by eassumption.
  rewrite Hdec. cbn [mbind Outcome_bind]. rewrite Hv. cbn [orPanic mbind Outcome_bind].
  unfold reflect.Convert. rewrite Hd. cbn [orPanic mbind Outcome_bind].
  by rewrite (ValueOf_Indirect_flagRO _ _ _ Hv).
Qed.

(** The fields that yagcl includes, reached through exported fields only,
    can be interfaced: the guard of the probe holds for them. *)
Lemma included_field_can_interface structValue i structField fieldValue :
  yagcl.IncludeField yagcl.companion structField = true ->
  reflect.flagRO structValue = false ->
  reflect.Field structValue i structField = Ret fieldValue ->
  reflect.CanInterface fieldValue = true.
Proof.
  simpl. intros [Hexp _]%andb_prop Hro. unfold reflect.Field, reflect.CanInterface.
  rewrite Hro, Hexp. simpl.
  destruct (reflect.loc structValue) as [c sel|[| | | | |fs]]; try discriminate.
  - by intros [= <-].
  - intros H. outcome_inv H. by injection H as <-.
Qed.

(** No custom unmarshaller: the probe allocates at most its scratch cell. *)
Lemma customUnmarshal_no_hooks jsonPath fieldValue valueBytes dataType b0 (h : Heap) :
  UnmarshalJSON E (extractNonPointerFieldType (reflect.typ fieldValue)) = None ->
  UnmarshalText E (extractNonPointerFieldType (reflect.typ fieldValue)) = None ->
  customUnmarshal E jsonPath fieldValue valueBytes dataType b0 h
  = (if reflect.CanInterface fieldValue
     then h ++ [reflect.Zero (extractNonPointerFieldType (reflect.typ fieldValue))]
     else h, NotApplied).
Proof.
  intros HJ HT. unfold customUnmarshal. rewrite New_heap, HJ, HT.
  by destruct (reflect.CanInterface fieldValue).
Qed.

End Round.

(** ** Node lookup *)

(** C3. A field whose JSON path is absent from the document (the lookup
    reports key-path-not-found) is skipped: the heap, hence its slot, is
    untouched, no error is returned for it, and the loop goes on with the
    next field under the same flag. Any other lookup failure ends the bind
    call at once with an error that carries the JSON path of the field and
    wraps [ErrParseValue]. *)
Theorem absent_node_skipped_other_failure_aborts
    (E : Env) (parse : parseFn) (s : jsonSourceImpl)
    (parsingCompanion : yagcl.ParsingCompanion) (bytes : list byte)
    (parentJsonPath : list string) (structValue : reflect.Value) (i : nat)
    (structField : reflect.StructField) (rest : list reflect.StructField)
    (hasAnyFieldBeenSet : bool) (h : Heap) (jsonKey : string) :
  yagcl.IncludeField parsingCompanion structField = true ->
  extractJSONKey s parsingCompanion structField = Ok jsonKey ->
  (jsonparser_Get E bytes (parentJsonPath ++ [jsonKey]) = Err jsonparser.KeyPathNotFoundError ->
   parseField E parse s parsingCompanion bytes parentJsonPath structValue i structField
              hasAnyFieldBeenSet h
   = Ret (h, Continue hasAnyFieldBeenSet) /\
   parseFields E parse s parsingCompanion bytes parentJsonPath structValue i
               (structField :: rest) hasAnyFieldBeenSet h
   = parseFields E parse s parsingCompanion bytes parentJsonPath structValue (S i)
                 rest hasAnyFieldBeenSet h) /\
  (forall msg,
   jsonparser_Get E bytes (parentJsonPath ++ [jsonKey]) = Err (jsonparser.OtherError msg) ->
   let err := newJsonparserError (parentJsonPath ++ [jsonKey]) (jsonparser.OtherError msg) in
   parseFields E parse s parsingCompanion bytes parentJsonPath structValue i
               (structField :: rest) hasAnyFieldBeenSet h
   = Ret (h, (hasAnyFieldBeenSet, Some err)) /\
   err = ErrAccessingJSONField (parentJsonPath ++ [jsonKey]) (jsonparser.OtherError msg) /\
   errors_Is err yagcl.ErrParseValue = true).
Proof.
  intros Hinc Hkey. split.
  - intros Hget.
    assert (Hround : parseField E parse s parsingCompanion bytes parentJsonPath structValue
                       i structField hasAnyFieldBeenSet h
                     = Ret (h, Continue hasAnyFieldBeenSet))
      by (unfold parseField; rewrite Hinc, Hkey, Hget; reflexivity).
    split; [exact Hround|]. simpl parseFields. by rewrite Hround.
  - intros msg Hget err. split; [|split; reflexivity].
    simpl parseFields. unfold parseField. rewrite Hinc, Hkey, Hget. reflexivity.
Qed.

Lemma absent_node_skipped_other_failure_aborts_witness :
  let T := Demo.string_ in
  let malformed := jsonparser.OtherError "Malformed JSON error" in
  parseFields (Demo.env []) (parse (Demo.env []) 0 Demo.source yagcl.companion [])
              Demo.source yagcl.companion [] [] (Demo.root T) 0 [Demo.fieldA T; Demo.fieldA T]
              false (Demo.heap0 T)
  = parseFields (Demo.env []) (parse (Demo.env []) 0 Demo.source yagcl.companion [])
                Demo.source yagcl.companion [] [] (Demo.root T) 1 [Demo.fieldA T]
                false (Demo.heap0 T)
  /\ parseFields (Demo.env [(["field_a"], Err malformed)])
                 (parse (Demo.env []) 0 Demo.source yagcl.companion [])
                 Demo.source yagcl.companion [] [] (Demo.root T) 0 [Demo.fieldA T; Demo.fieldA T]
                 false (Demo.heap0 T)
     = Ret (Demo.heap0 T, (false, Some (ErrAccessingJSONField ["field_a"] malformed))).
Proof.
  intros T malformed. split.
  - exact (proj2 (proj1 (absent_node_skipped_other_failure_aborts
             (Demo.env []) (parse (Demo.env []) 0 Demo.source yagcl.companion [])
             Demo.source yagcl.companion [] [] (Demo.root T) 0 (Demo.fieldA T)
             [Demo.fieldA T] false (Demo.heap0 T) "field_a" eq_refl eq_refl) eq_refl)).
  - exact (proj1 (proj2 (absent_node_skipped_other_failure_aborts
             (Demo.env [(["field_a"], Err malformed)])
             (parse (Demo.env []) 0 Demo.source yagcl.companion [])
             Demo.source yagcl.companion [] [] (Demo.root T) 0 (Demo.fieldA T)
             [Demo.fieldA T] false (Demo.heap0 T) "field_a" eq_refl eq_refl)
             "Malformed JSON error" eq_refl)).
Defined.

(** ** Unsupported kinds *)

(** C9, as the code has it. A field of kind complex64 or complex128 (a
    type without custom unmarshallers) that is included, has a key, and
    whose node is located in the document ends the bind call with an error
    wrapping [ErrUnsupportedFieldType], whatever the node holds. *)
Theorem complex_field_unsupported_when_located
    (E : Env) (parse : parseFn) (s : jsonSourceImpl)
    (parsingCompanion : yagcl.ParsingCompanion) (bytes : list byte)
    (parentJsonPath : list string) (structValue : reflect.Value) (i : nat)
    (structField : reflect.StructField) (rest : list reflect.StructField)
    (hasAnyFieldBeenSet : bool) (h : Heap) (jsonKey : string)
    (valueBytes : list byte) (dataType : jsonparser.ValueType)
    (fieldValue : reflect.Value) :
  let fieldType := extractNonPointerFieldType (reflect.FType structField) in
  reflect.KindOf fieldType = reflect.Complex64 \/
  reflect.KindOf fieldType = reflect.Complex128 ->
  UnmarshalJSON E fieldType = None ->
  UnmarshalText E fieldType = None ->
  yagcl.IncludeField parsingCompanion structField = true ->
  extractJSONKey s parsingCompanion structField = Ok jsonKey ->
  jsonparser_Get E bytes (parentJsonPath ++ [jsonKey]) = Ok (valueBytes, dataType) ->
  reflect.Field structValue i structField = Ret fieldValue ->
  exists h',
    parseFields E parse s parsingCompanion bytes parentJsonPath structValue i
                (structField :: rest) hasAnyFieldBeenSet h
    = Ret (h', (hasAnyFieldBeenSet, Some (ErrUnsupportedType (reflect.Name structField)))) /\
    h `prefix_of` h' /\
    errors_Is (ErrUnsupportedType (reflect.Name structField)) yagcl.ErrUnsupportedFieldType
    = true.
Proof.
  intros fieldType Hkind HJ HT Hinc Hkey Hget Hfield.
  pose proof (Field_typ _ _ _ _ Hfield) as Htyp.
  exists (if reflect.CanInterface fieldValue then h ++ [reflect.Zero fieldType] else h).
  split; [|split; [|reflexivity]].
  - simpl parseFields.
    erewrite parseField_located by eassumption.
    unfold decode. rewrite customUnmarshal_no_hooks by (rewrite Htyp; assumption).
    rewrite Htyp. fold fieldType. unfold decodeByKind.
    destruct Hkind as [-> | ->]; reflexivity.
  - destruct (reflect.CanInterface fieldValue); [by apply prefix_app_r | reflexivity].
Qed.

Lemma complex_field_unsupported_when_located_witness :
  let T := Demo.complex128_ in
  let E := Demo.env [Demo.node ["field_a"] "irrelevant" jsonparser.String] in
  exists h',
    parseFields E (parse E 0 Demo.source yagcl.companion []) Demo.source yagcl.companion []
                [] (Demo.root T) 0 [Demo.fieldA T] false (Demo.heap0 T)
    = Ret (h', (false, Some (ErrUnsupportedType "FieldA"))) /\
    Demo.heap0 T `prefix_of` h' /\
    errors_Is (ErrUnsupportedType "FieldA") yagcl.ErrUnsupportedFieldType = true.
Proof.
  intros T E.
  exact (complex_field_unsupported_when_located
           E (parse E 0 Demo.source yagcl.companion []) Demo.source yagcl.companion []
           [] (Demo.root T) 0 (Demo.fieldA T) [] false (Demo.heap0 T) "field_a"
           (Demo.b "irrelevant") jsonparser.String
           (reflect.mkValue T (reflect.Addressable 0 [0%nat]) false)
           (or_intror eq_refl) eq_refl eq_refl eq_refl eq_refl eq_refl eq_refl).
Defined.

(** C9 as stated fails: when the document has no node for the field, a
    complex field is skipped like any other and binding succeeds. *)
Lemma complex_field_absent_node_no_error :
  Parse (Demo.env []) Demo.source yagcl.companion
        (Demo.target Demo.complex128_) (Demo.heap0 Demo.complex128_)
  = Ret (Demo.heap0 Demo.complex128_, (true, None)).
Proof. reflexivity. Qed.

(** ** Custom unmarshallers *)

Lemma Convert_new_cell (h : Heap) (T U : reflect.Type_) (d : reflect.Data) :
  let u : reflect.any := Some (reflect.PointerTo T, reflect.DPtr (Some (length h))) in
  reflect.ValueOf u ≫= reflect.Indirect (h ++ [d])
  = Some (reflect.mkValue T (reflect.Addressable (length h) []) false) /\
  reflect.read (h ++ [d]) (reflect.mkValue T (reflect.Addressable (length h) []) false)
  = Some d.
Proof.
  split; [reflexivity|]. unfold reflect.read. simpl.
  rewrite lookup_app_r by lia. by rewrite Nat.sub_diag.
Qed.

(** C6. A field whose stripped type implements [json.Unmarshaler]: the
    hook is run on the raw node bytes, put between two quote characters
    when the node is a String and unchanged otherwise. If the hook fails,
    the bind call ends with the unmarshal error that carries the JSON path
    of the field and the cause; if it succeeds, what it produced is what
    gets assigned. *)
Theorem json_unmarshaler_gets_requoted_string
    (E : Env) (parse : parseFn) (s : jsonSourceImpl)
    (parsingCompanion : yagcl.ParsingCompanion) (bytes : list byte)
    (parentJsonPath : list string) (structValue : reflect.Value) (i : nat)
    (structField : reflect.StructField) (rest : list reflect.StructField)
    (hasAnyFieldBeenSet : bool) (h : Heap) (jsonKey : string)
    (valueBytes : list byte) (dataType : jsonparser.ValueType)
    (fieldValue : reflect.Value) (unmarshalJSON : list byte -> Result string reflect.Data) :
  let fieldType := extractNonPointerFieldType (reflect.FType structField) in
  let jsonPath := parentJsonPath ++ [jsonKey] in
  yagcl.IncludeField parsingCompanion structField = true ->
  extractJSONKey s parsingCompanion structField = Ok jsonKey ->
  jsonparser_Get E bytes jsonPath = Ok (valueBytes, dataType) ->
  reflect.Field structValue i structField = Ret fieldValue ->
  reflect.CanInterface fieldValue = true ->
  UnmarshalJSON E fieldType = Some unmarshalJSON ->
  let passed :=
    if decide (dataType = jsonparser.String)
    then quote :: valueBytes ++ [quote]
    else valueBytes in
  match unmarshalJSON passed with
  | Err cause =>
      parseFields E parse s parsingCompanion bytes parentJsonPath structValue i
                  (structField :: rest) hasAnyFieldBeenSet h
      = Ret (h ++ [reflect.Zero fieldType],
             (hasAnyFieldBeenSet, Some (ErrUnmarshalling jsonPath cause))) /\
      newUnmarshalError jsonPath cause = ErrUnmarshalling jsonPath cause /\
      errors_Is (ErrUnmarshalling jsonPath cause) yagcl.ErrParseValue = true
  | Ok d =>
      parseField E parse s parsingCompanion bytes parentJsonPath structValue i structField
                 hasAnyFieldBeenSet h
      = h' ← assign fieldValue (reflect.mkValue fieldType (reflect.Immediate d) false)
                    (h ++ [d]);
        Ret (h', Continue true)
  end.
Proof.
  intros fieldType jsonPath Hinc Hkey Hget Hfield Hcan HJ passed.
  pose proof (Field_typ _ _ _ _ Hfield) as Htyp.
  assert (Hdec : decode E parse jsonPath structField fieldType fieldValue valueBytes
                   dataType hasAnyFieldBeenSet h
                 = match unmarshalJSON passed with
                   | Err cause =>
                       Ret (h ++ [reflect.Zero fieldType],
                            Stop (Return hasAnyFieldBeenSet (newUnmarshalError jsonPath cause)))
                   | Ok d =>
                       Ret (h ++ [d],
                            Got (Some (reflect.PointerTo fieldType,
                                       reflect.DPtr (Some (length h)))))
                   end).
  { unfold decode, customUnmarshal. rewrite Hcan, New_heap, Htyp. fold fieldType.
    rewrite HJ. fold passed.
    change (([quote] ++ valueBytes) ++ [quote]) with (quote :: valueBytes ++ [quote]).
    fold passed. destruct (unmarshalJSON passed); [|reflexivity].
    by rewrite insert_new_cell. }
  destruct (unmarshalJSON passed) as [d|cause].
  - destruct (Convert_new_cell h fieldType fieldType d) as [Hv Hd].
    eapply parseField_Got; eauto.
  - split; [|split; reflexivity]. simpl parseFields.
    erewrite parseField_located by eassumption.
    fold jsonPath fieldType. rewrite Hdec. reflexivity.
Qed.

Lemma json_unmarshaler_gets_requoted_string_witness :
  let T := Demo.customJSONUnmarshalable in
  let quoted := Demo.env [Demo.node ["field_a"] "lower" jsonparser.String] in
  let number := Demo.env [Demo.node ["field_a"] "12" jsonparser.Number] in
  let fieldValue := reflect.mkValue T (reflect.Addressable 0 [0%nat]) false in
  let cause := "invalid character looking for beginning of value" in
  (parseField quoted (parse quoted 0 Demo.source yagcl.companion []) Demo.source
              yagcl.companion [] [] (Demo.root T) 0 (Demo.fieldA T) false (Demo.heap0 T)
   = h' ← assign fieldValue
             (reflect.mkValue T (reflect.Immediate (reflect.DString "lower")) false)
             (Demo.heap0 T ++ [reflect.DString "lower"]);
     Ret (h', Continue true)) /\
  (parseFields number (parse number 0 Demo.source yagcl.companion []) Demo.source
               yagcl.companion [] [] (Demo.root T) 0 [Demo.fieldA T] false (Demo.heap0 T)
   = Ret (Demo.heap0 T ++ [reflect.Zero T],
          (false, Some (ErrUnmarshalling ["field_a"] cause)))).
Proof.
  intros T quoted number fieldValue cause. split.
  - exact (json_unmarshaler_gets_requoted_string
             quoted (parse quoted 0 Demo.source yagcl.companion []) Demo.source
             yagcl.companion [] [] (Demo.root T) 0 (Demo.fieldA T) [] false (Demo.heap0 T)
             "field_a" (Demo.b "lower") jsonparser.String fieldValue Demo.unquote
             eq_refl eq_refl eq_refl eq_refl eq_refl eq_refl).
  - exact (proj1 (json_unmarshaler_gets_requoted_string
             number (parse number 0 Demo.source yagcl.companion []) Demo.source
             yagcl.companion [] [] (Demo.root T) 0 (Demo.fieldA T) [] false (Demo.heap0 T)
             "field_a" (Demo.b "12") jsonparser.Number fieldValue Demo.unquote
             eq_refl eq_refl eq_refl eq_refl eq_refl eq_refl)).
Defined.

(** The text hook ([encoding.TextUnmarshaler], no [json.Unmarshaler]): on
    a String node it is run on the raw node bytes, escape sequences
    included; on any other node it is not run and the switch on the kind
    decides. *)
Lemma text_unmarshaler_path
    (E : Env) (parse : parseFn) (jsonPath : list string)
    (structField : reflect.StructField) (fieldValue : reflect.Value)
    (valueBytes : list byte) (dataType : jsonparser.ValueType)
    (hasAnyFieldBeenSet : bool) (h : Heap)
    (unmarshalText : list byte -> Result string reflect.Data) :
  let fieldType := extractNonPointerFieldType (reflect.typ fieldValue) in
  reflect.CanInterface fieldValue = true ->
  UnmarshalJSON E fieldType = None ->
  UnmarshalText E fieldType = Some unmarshalText ->
  decode E parse jsonPath structField fieldType fieldValue valueBytes dataType
         hasAnyFieldBeenSet h
  = if decide (dataType = jsonparser.String) then
      match unmarshalText valueBytes with
      | Err cause =>
          Ret (h ++ [reflect.Zero fieldType],
               Stop (Return hasAnyFieldBeenSet (ErrUnmarshalling jsonPath cause)))
      | Ok d =>
          Ret (h ++ [d], Got (Some (reflect.PointerTo fieldType, reflect.DPtr (Some (length h)))))
      end
    else
      decodeByKind E parse jsonPath structField fieldType fieldValue valueBytes dataType
                   hasAnyFieldBeenSet (h ++ [reflect.Zero fieldType]).
Proof.
  intros fieldType Hcan HJ HT. unfold decode, customUnmarshal.
  rewrite Hcan, New_heap. fold fieldType. rewrite HJ, HT.
  destruct (decide _); [|reflexivity].
  destruct (unmarshalText valueBytes); [|reflexivity]. by rewrite insert_new_cell.
Qed.

(** C7 at a document with an escape sequence. The node of
    [{"field_a": "a\nb"}] has the four raw bytes [a], backslash, [n], [b],
    and its unescaped content is [a], line feed, [b]. The text hook, which
    keeps the text it is given, is handed the raw bytes: the field ends up
    holding the backslash and the [n]. A field of kind string bound to the
    same node holds the unescaped content. *)
Theorem text_unmarshaler_given_escaped_bytes :
  let E := Demo.env [Demo.node ["field_a"] "a\nb" jsonparser.String] in
  let unescaped := String.String "a" (String.String "010" (String.String "b" EmptyString)) in
  jsonparser_ParseString E (Demo.b "a\nb") = Ok unescaped /\
  Parse E Demo.source yagcl.companion
        (Demo.target Demo.customTextUnmarshalable) (Demo.heap0 Demo.customTextUnmarshalable)
  = Ret ([reflect.DStruct [reflect.DString "a\nb"]; reflect.DString "a\nb"], (true, None)) /\
  Parse E Demo.source yagcl.companion (Demo.target Demo.string_) (Demo.heap0 Demo.string_)
  = Ret ([reflect.DStruct [reflect.DString unescaped]; reflect.DString EmptyString], (true, None)) /\
  reflect.DString "a\nb" <> reflect.DString unescaped.
Proof. repeat split; try reflexivity. discriminate. Qed.

(** ** Durations *)

(** C8. A field of kind int64 to which no custom unmarshaller applies.
    When the node is a String, its content unescapes to [stringValue] and
    the field type is assignable to [time.Duration], the string is parsed
    as a duration literal: a parsed duration is what gets assigned, and an
    unparsable string ends the bind call with a conversion error wrapping
    [ErrParseValue]. A field type that is not assignable to
    [time.Duration] takes the generic decoding of the [default] case. *)
Theorem duration_field_parsed_from_string
    (E : Env) (parse : parseFn) (s : jsonSourceImpl)
    (parsingCompanion : yagcl.ParsingCompanion) (bytes : list byte)
    (parentJsonPath : list string) (structValue : reflect.Value) (i : nat)
    (structField : reflect.StructField) (rest : list reflect.StructField)
    (hasAnyFieldBeenSet : bool) (h h1 : Heap) (jsonKey : string)
    (valueBytes : list byte) (dataType : jsonparser.ValueType)
    (fieldValue : reflect.Value) :
  let fieldType := extractNonPointerFieldType (reflect.FType structField) in
  let jsonPath := parentJsonPath ++ [jsonKey] in
  yagcl.IncludeField parsingCompanion structField = true ->
  extractJSONKey s parsingCompanion structField = Ok jsonKey ->
  jsonparser_Get E bytes jsonPath = Ok (valueBytes, dataType) ->
  reflect.Field structValue i structField = Ret fieldValue ->
  reflect.KindOf fieldType = reflect.Int64 ->
  customUnmarshal E jsonPath fieldValue valueBytes dataType hasAnyFieldBeenSet h
  = (h1, NotApplied) ->
  (forall stringValue,
     dataType = jsonparser.String ->
     jsonparser_ParseString E valueBytes = Ok stringValue ->
     AssignableToDuration fieldType = true ->
     match time_ParseDuration E stringValue with
     | Ok duration =>
         parseField E parse s parsingCompanion bytes parentJsonPath structValue i structField
                    hasAnyFieldBeenSet h
         = h' ← assign fieldValue
                   (reflect.mkValue fieldType (reflect.Immediate (reflect.DInt duration)) false)
                   h1;
           Ret (h', Continue true)
     | Err _ =>
         let err := ErrDurationUnparsable stringValue (reflect.Name structField) in
         parseFields E parse s parsingCompanion bytes parentJsonPath structValue i
                     (structField :: rest) hasAnyFieldBeenSet h
         = Ret (h1, (hasAnyFieldBeenSet, Some err)) /\
         errors_Is err yagcl.ErrParseValue = true
     end) /\
  (AssignableToDuration fieldType = false ->
   decode E parse jsonPath structField fieldType fieldValue valueBytes dataType
          hasAnyFieldBeenSet h
   = Ret (decodeDefault E jsonPath fieldType valueBytes hasAnyFieldBeenSet h1)).
Proof.
  intros fieldType jsonPath Hinc Hkey Hget Hfield Hkind Hcustom.
  assert (Hdec : decode E parse jsonPath structField fieldType fieldValue valueBytes
                   dataType hasAnyFieldBeenSet h
                 = Ret (decodeInt64 E jsonPath structField fieldType valueBytes dataType
                                    hasAnyFieldBeenSet h1)).
  { unfold decode. rewrite Hcustom. unfold decodeByKind. by rewrite Hkind. }
  split.
  - intros stringValue -> Hstr Hdur.
    assert (Hint : decodeInt64 E jsonPath structField fieldType valueBytes jsonparser.String
                     hasAnyFieldBeenSet h1
                   = match time_ParseDuration E stringValue with
                     | Ok duration => (h1, Got (Some (fieldType, reflect.DInt duration)))
                     | Err _ =>
                         (h1, Stop (Return hasAnyFieldBeenSet
                                      (ErrDurationUnparsable stringValue
                                         (reflect.Name structField))))
                     end).
    { unfold decodeInt64. rewrite decide_True by reflexivity. by rewrite Hstr, Hdur. }
    rewrite Hint in Hdec. destruct (time_ParseDuration E stringValue) as [duration|cause].
    + eapply parseField_Got
        with (v := reflect.mkValue fieldType (reflect.Immediate (reflect.DInt duration)) false);
        eauto.
      simpl. unfold reflect.Indirect. simpl. rewrite decide_False; [reflexivity|].
      unfold fieldType in Hkind |- *. rewrite Hkind. discriminate.
    + split; [|reflexivity]. simpl parseFields.
      erewrite parseField_located by eassumption.
      fold jsonPath fieldType. rewrite Hdec. reflexivity.
  - intros Hdur. rewrite Hdec. f_equal. unfold decodeInt64. rewrite Hdur.
    destruct (decide _); [|reflexivity]. by destruct (jsonparser_ParseString E valueBytes).
Qed.

Lemma duration_field_parsed_from_string_witness :
  let T := time_Duration in
  let fieldValue := reflect.mkValue T (reflect.Addressable 0 [0%nat]) false in
  let E1 := Demo.env [Demo.node ["field_a"] "10s" jsonparser.String] in
  let E2 := Demo.env [Demo.node ["field_a"] "ain't valid" jsonparser.String] in
  (parseField E1 (parse E1 0 Demo.source yagcl.companion []) Demo.source yagcl.companion []
              [] (Demo.root T) 0 (Demo.fieldA T) false (Demo.heap0 T)
   = h' ← assign fieldValue
             (reflect.mkValue T (reflect.Immediate (reflect.DInt (10 * 1000000000))) false)
             (Demo.heap0 T ++ [reflect.DInt 0]);
     Ret (h', Continue true)) /\
  (parseFields E2 (parse E2 0 Demo.source yagcl.companion []) Demo.source yagcl.companion []
               [] (Demo.root T) 0 [Demo.fieldA T] false (Demo.heap0 T)
   = Ret (Demo.heap0 T ++ [reflect.DInt 0],
          (false, Some (ErrDurationUnparsable "ain't valid" "FieldA"))) /\
   errors_Is (ErrDurationUnparsable "ain't valid" "FieldA") yagcl.ErrParseValue = true).
Proof.
  intros T fieldValue E1 E2. split.
  - exact (proj1 (duration_field_parsed_from_string
             E1 (parse E1 0 Demo.source yagcl.companion []) Demo.source yagcl.companion []
             [] (Demo.root T) 0 (Demo.fieldA T) [] false (Demo.heap0 T)
             (Demo.heap0 T ++ [reflect.DInt 0]) "field_a" (Demo.b "10s") jsonparser.String
             fieldValue eq_refl eq_refl eq_refl eq_refl eq_refl eq_refl)
             "10s" eq_refl eq_refl eq_refl).
  - exact (proj1 (duration_field_parsed_from_string
             E2 (parse E2 0 Demo.source yagcl.companion []) Demo.source yagcl.companion []
             [] (Demo.root T) 0 (Demo.fieldA T) [] false (Demo.heap0 T)
             (Demo.heap0 T ++ [reflect.DInt 0]) "field_a" (Demo.b "ain't valid")
             jsonparser.String fieldValue eq_refl eq_refl eq_refl eq_refl eq_refl eq_refl)
             "ain't valid" eq_refl eq_refl eq_refl).
Defined.

(** The two documents of the tests, bound from end to end: ["10s"] yields
    ten seconds, ["ain't valid"] a conversion error. *)
Lemma duration_documents :
  Parse (Demo.env [Demo.node ["field_a"] "10s" jsonparser.String]) Demo.source yagcl.companion
        (Demo.target time_Duration) (Demo.heap0 time_Duration)
  = Ret ([reflect.DStruct [reflect.DInt (10 * 1000000000)]; reflect.DInt 0], (true, None)) /\
  Parse (Demo.env [Demo.node ["field_a"] "ain't valid" jsonparser.String]) Demo.source
        yagcl.companion (Demo.target time_Duration) (Demo.heap0 time_Duration)
  = Ret ([reflect.DStruct [reflect.DInt 0]; reflect.DInt 0],
         (false, Some (ErrDurationUnparsable "ain't valid" "FieldA"))).
Proof. split; reflexivity. Qed.

(** ** Pointer fields *)

Lemma read_written_slot (h : Heap) (v : reflect.Value) c sel old new x :
  reflect.loc v = reflect.Addressable c sel ->
  h !! c = Some old ->
  reflect.setSel old sel x = Some new ->
  reflect.read (<[c := new]> h) v = Some x.
Proof.
  intros Hloc Hc Hset. unfold reflect.read. rewrite Hloc.
  rewrite list_lookup_insert_eq by (eapply lookup_lt_Some; eauto).
  simpl. eapply getSel_setSel; eauto.
Qed.

Lemma chain_in_result (h : Heap) c new n d :
  (c < length h)%nat ->
  chainTo (<[c := new]> (h ++ chainCells (length h) n d))
          (match n with O => d | S _ => reflect.DPtr (Some (length h)) end)
          (seq (length h) n) d.
Proof.
  intros Hlt. destruct n as [|n]; [reflexivity|].
  pose proof (chainCells_chainTo (<[c := new]> (h ++ chainCells (length h) (S n) d))
                (length h) (S n) d) as Hchain.
  specialize (Hchain ltac:(intros j Hj; rewrite list_lookup_insert_ne by lia;
                           rewrite lookup_app_r by lia; f_equal; lia)
                     (S n) 0%nat ltac:(lia) ltac:(lia)).
  by rewrite Nat.add_0_r in Hchain.
Qed.

(** What a round that decoded the data [d] leaves in the heap. *)
Lemma parseField_assigns_chain
    (E : Env) (parse : parseFn) (s : jsonSourceImpl)
    (parsingCompanion : yagcl.ParsingCompanion) (bytes : list byte)
    (parentJsonPath : list string) (structValue : reflect.Value) (i : nat)
    (structField : reflect.StructField)
    (hasAnyFieldBeenSet : bool) (h h1 : Heap) (jsonKey : string)
    (valueBytes : list byte) (dataType : jsonparser.ValueType)
    (fieldValue v : reflect.Value) (value : reflect.any) (d old : reflect.Data)
    (c : reflect.addr) (sel : list nat) :
  let fieldType := extractNonPointerFieldType (reflect.FType structField) in
  let N := pointerDepth (reflect.FType structField) in
  yagcl.IncludeField parsingCompanion structField = true ->
  extractJSONKey s parsingCompanion structField = Ok jsonKey ->
  jsonparser_Get E bytes (parentJsonPath ++ [jsonKey]) = Ok (valueBytes, dataType) ->
  reflect.Field structValue i structField = Ret fieldValue ->
  decode E parse (parentJsonPath ++ [jsonKey]) structField fieldType fieldValue
         valueBytes dataType hasAnyFieldBeenSet h = Ret (h1, Got value) ->
  reflect.ValueOf value ≫= reflect.Indirect h1 = Some v ->
  reflect.read h1 v = Some d ->
  reflect.KindOf fieldType <> reflect.Pointer ->
  reflect.flagRO fieldValue = false ->
  reflect.loc fieldValue = reflect.Addressable c sel ->
  h1 !! c = Some old ->
  is_Some (reflect.getSel old sel) ->
  exists h' x,
    parseField E parse s parsingCompanion bytes parentJsonPath structValue i structField
               hasAnyFieldBeenSet h
    = Ret (h', Continue true) /\
    reflect.read h' fieldValue = Some x /\
    chainTo h' x (seq (length h1) N) d /\
    length h' = (length h1 + N)%nat /\
    (forall a, (a < length h1)%nat -> a <> c -> h' !! a = h1 !! a).
Proof.
  intros fieldType N Hinc Hkey Hget Hfield Hdec Hv Hd Hkind Hro Hloc Hc Hsel.
  pose proof (Field_typ _ _ _ _ Hfield) as Htyp.
  pose proof (lookup_lt_Some _ _ _ Hc) as Hlt.
  destruct (assign_spec fieldValue fieldType d h1 N fieldType c sel old) as (new & Hnew & Hassign);
    try assumption.
  { rewrite Htyp. apply pointerN_strip. }
  exists (<[c := new]> (h1 ++ chainCells (length h1) N d)).
  exists (match N with O => d | S _ => reflect.DPtr (Some (length h1)) end).
  split; [|split; [|split; [|split]]].
  - erewrite parseField_Got by eassumption. fold fieldType. by rewrite Hassign.
  - eapply read_written_slot; eauto. rewrite lookup_app_l by exact Hlt. exact Hc.
  - by apply chain_in_result.
  - rewrite length_insert, length_app, chainCells_length. reflexivity.
  - intros a Ha Hne. rewrite list_lookup_insert_ne by congruence.
    by rewrite lookup_app_l.
Qed.

(** C4. A field with [N] pointers around its stripped type, whose node is
    located and decodes to the data [d]: the round allocates exactly [N]
    cells, all of them new (the addresses from the end of the heap on,
    which no cell had before), the field slot leads through them, one
    after the other, to [d], and no other cell that existed changes. With
    [N = 0] the slot holds [d] itself. This is for every [N]. *)
Theorem pointer_field_gets_fresh_chain
    (E : Env) (parse : parseFn) (s : jsonSourceImpl)
    (parsingCompanion : yagcl.ParsingCompanion) (bytes : list byte)
    (parentJsonPath : list string) (structValue : reflect.Value) (i : nat)
    (structField : reflect.StructField)
    (hasAnyFieldBeenSet : bool) (h h1 : Heap) (jsonKey : string)
    (valueBytes : list byte) (dataType : jsonparser.ValueType)
    (fieldValue v : reflect.Value) (value : reflect.any) (d old : reflect.Data)
    (c : reflect.addr) (sel : list nat) :
  let fieldType := extractNonPointerFieldType (reflect.FType structField) in
  let N := pointerDepth (reflect.FType structField) in
  yagcl.IncludeField parsingCompanion structField = true ->
  extractJSONKey s parsingCompanion structField = Ok jsonKey ->
  jsonparser_Get E bytes (parentJsonPath ++ [jsonKey]) = Ok (valueBytes, dataType) ->
  reflect.Field structValue i structField = Ret fieldValue ->
  decode E parse (parentJsonPath ++ [jsonKey]) structField fieldType fieldValue
         valueBytes dataType hasAnyFieldBeenSet h = Ret (h1, Got value) ->
  reflect.ValueOf value ≫= reflect.Indirect h1 = Some v ->
  reflect.read h1 v = Some d ->
  reflect.KindOf fieldType <> reflect.Pointer ->
  reflect.flagRO fieldValue = false ->
  reflect.loc fieldValue = reflect.Addressable c sel ->
  h1 !! c = Some old ->
  is_Some (reflect.getSel old sel) ->
  reflect.FType structField = pointerN N fieldType /\
  Forall (fun a => h1 !! a = None) (seq (length h1) N) /\
  NoDup (seq (length h1) N) /\
  exists h' x,
    parseField E parse s parsingCompanion bytes parentJsonPath structValue i structField
               hasAnyFieldBeenSet h
    = Ret (h', Continue true) /\
    reflect.read h' fieldValue = Some x /\
    chainTo h' x (seq (length h1) N) d /\
    length h' = (length h1 + N)%nat /\
    (forall a, (a < length h1)%nat -> a <> c -> h' !! a = h1 !! a).
Proof.
  intros fieldType N Hinc Hkey Hget Hfield Hdec Hv Hd Hkind Hro Hloc Hc Hsel.
  split; [apply pointerN_strip|]. split; [|split; [apply NoDup_seq|]].
  - apply Forall_forall. intros a Ha%elem_of_seq. apply lookup_ge_None. lia.
  - eapply parseField_assigns_chain; eassumption.
Qed.

Lemma pointer_field_gets_fresh_chain_witness :
  let T := pointerN 3 Demo.int_ in
  let E := Demo.env [Demo.node ["field_a"] "12" jsonparser.Number] in
  let h1 : Heap := [reflect.DStruct [reflect.DPtr None]; reflect.DInt 0; reflect.DInt 12] in
  let fieldValue := reflect.mkValue T (reflect.Addressable 0 [0%nat]) false in
  T = pointerN 3 Demo.int_ /\
  Forall (fun a => h1 !! a = None) [3; 4; 5]%nat /\
  NoDup [3; 4; 5]%nat /\
  exists h' x,
    parseField E (parse E 0 Demo.source yagcl.companion []) Demo.source yagcl.companion []
               [] (Demo.root T) 0 (Demo.fieldA T) false (Demo.heap0 T)
    = Ret (h', Continue true) /\
    reflect.read h' fieldValue = Some x /\
    chainTo h' x [3; 4; 5]%nat (reflect.DInt 12) /\
    length h' = 6%nat /\
    (forall a, (a < 3)%nat -> a <> 0%nat -> h' !! a = h1 !! a).
Proof.
  intros T E h1 fieldValue.
  refine (pointer_field_gets_fresh_chain
            E (parse E 0 Demo.source yagcl.companion []) Demo.source yagcl.companion []
            [] (Demo.root T) 0 (Demo.fieldA T) false (Demo.heap0 T) h1 "field_a"
            (Demo.b "12") jsonparser.Number fieldValue
            (reflect.mkValue Demo.int_ (reflect.Addressable 2 []) false)
            (Some (reflect.PointerTo Demo.int_, reflect.DPtr (Some 2%nat)))
            (reflect.DInt 12) (reflect.DStruct [reflect.DPtr None]) 0%nat [0%nat]
            eq_refl eq_refl eq_refl eq_refl eq_refl eq_refl eq_refl _ eq_refl eq_refl eq_refl _).
  - discriminate.
  - eexists. reflexivity.
Defined.

(** ** Nested records *)

Lemma parse_Ret_struct E fuel s parsingCompanion bytes jsonPath structValue (h : Heap) r :
  parse E fuel s parsingCompanion bytes jsonPath structValue h = Ret r ->
  reflect.KindOf (reflect.typ structValue) = reflect.Struct.
Proof.
  destruct fuel; simpl; destruct (reflect.typ structValue); try discriminate; reflexivity.
Qed.

Lemma Indirect_flagRO (h : Heap) v v' :
  reflect.Indirect h v = Some v' -> reflect.flagRO v' = reflect.flagRO v.
Proof.
  unfold reflect.Indirect, reflect.Elem. destruct (decide _); [|by intros [= <-]].
  destruct (reflect.typ v); try discriminate.
  destruct (reflect.read h v) as [[| | | |[a|]|]|]; try discriminate.
  by intros [= <-].
Qed.

Lemma read_prefix (h h' : Heap) v x :
  h `prefix_of` h' -> reflect.read h v = Some x -> reflect.read h' v = Some x.
Proof.
  intros Hp. unfold reflect.read. destruct (reflect.loc v) as [c sel|d]; [|done].
  destruct (h !! c) as [cell|] eqn:Hc; [|discriminate].
  by rewrite (prefix_lookup_Some _ _ _ _ Hc Hp).
Qed.

(** C2. A field whose stripped type is a struct and to which no custom
    unmarshaller applies; the recursive bind call, made on the record
    already in the field or on a fresh one, returns without error and
    reports [hasAnySubStructFieldBeenSet].

    If it reports [false], the round changes no cell that existed (the
    parent field reads as before), the loop goes on with the next field,
    and the flag of the enclosing call is the one it had. If it reports
    [true], the record as the recursive call left it, [d], is assigned:
    the field slot leads to [d] through as many new pointers as the field
    type has, and the flag is set. *)
Theorem nested_record_attached_iff_any_field_set
    (E : Env) (fuel : nat) (s : jsonSourceImpl)
    (parsingCompanion : yagcl.ParsingCompanion) (bytes : list byte)
    (parentJsonPath : list string) (structValue : reflect.Value) (i : nat)
    (structField : reflect.StructField) (rest : list reflect.StructField)
    (hasAnyFieldBeenSet : bool) (h h1 h2 h3 : Heap) (jsonKey : string)
    (valueBytes : list byte) (dataType : jsonparser.ValueType)
    (fieldValue subValue0 subValue : reflect.Value) (isZero : bool)
    (hasAnySubStructFieldBeenSet : bool) :
  let fieldType := extractNonPointerFieldType (reflect.FType structField) in
  let jsonPath := parentJsonPath ++ [jsonKey] in
  let recurse := parse E fuel s parsingCompanion bytes in
  yagcl.IncludeField parsingCompanion structField = true ->
  extractJSONKey s parsingCompanion structField = Ok jsonKey ->
  jsonparser_Get E bytes jsonPath = Ok (valueBytes, dataType) ->
  reflect.Field structValue i structField = Ret fieldValue ->
  reflect.KindOf fieldType = reflect.Struct ->
  customUnmarshal E jsonPath fieldValue valueBytes dataType hasAnyFieldBeenSet h
  = (h1, NotApplied) ->
  reflect.IsZero h1 fieldValue = Ret isZero ->
  (if isZero then reflect.New fieldType h1 else (h1, fieldValue)) = (h2, subValue0) ->
  reflect.Indirect h2 subValue0 = Some subValue ->
  recurse jsonPath subValue h2 = Ret (h3, (hasAnySubStructFieldBeenSet, None)) ->
  (hasAnySubStructFieldBeenSet = false ->
     parseField E recurse s parsingCompanion bytes parentJsonPath structValue i structField
                hasAnyFieldBeenSet h
     = Ret (h3, Continue hasAnyFieldBeenSet) /\
     parseFields E recurse s parsingCompanion bytes parentJsonPath structValue i
                 (structField :: rest) hasAnyFieldBeenSet h
     = parseFields E recurse s parsingCompanion bytes parentJsonPath structValue (S i)
                   rest hasAnyFieldBeenSet h3 /\
     h `prefix_of` h3 /\
     (forall x, reflect.read h fieldValue = Some x -> reflect.read h3 fieldValue = Some x)) /\
  (hasAnySubStructFieldBeenSet = true ->
     forall d old c sel,
     reflect.read h3 subValue = Some d ->
     reflect.flagRO fieldValue = false ->
     reflect.loc fieldValue = reflect.Addressable c sel ->
     h3 !! c = Some old ->
     is_Some (reflect.getSel old sel) ->
     exists h4 x,
       parseField E recurse s parsingCompanion bytes parentJsonPath structValue i structField
                  hasAnyFieldBeenSet h
       = Ret (h4, Continue true) /\
       reflect.read h4 fieldValue = Some x /\
       chainTo h4 x (seq (length h3) (pointerDepth (reflect.FType structField))) d).
Proof.
  intros fieldType jsonPath recurse Hinc Hkey Hget Hfield Hkind Hcustom Hzero Hsub0 Hsub Hrec.
  assert (Hdec : decode E recurse jsonPath structField fieldType fieldValue valueBytes
                   dataType hasAnyFieldBeenSet h
                 = if hasAnySubStructFieldBeenSet
                   then value ← reflect.Interface_ h3 subValue; Ret (h3, Got value)
                   else Ret (h3, Stop (Continue hasAnyFieldBeenSet))).
  { unfold decode. rewrite Hcustom. unfold decodeByKind. rewrite Hkind.
    unfold decodeStruct. rewrite Hzero. cbn [mbind Outcome_bind].
    rewrite Hsub0, Hsub. cbn [orPanic mbind Outcome_bind]. rewrite Hrec.
    cbn [mbind Outcome_bind].
    destruct hasAnySubStructFieldBeenSet; [reflexivity|].
    by rewrite orb_false_r. }
  split; intros ->.
  - assert (Hround : parseField E recurse s parsingCompanion bytes parentJsonPath structValue
                       i structField hasAnyFieldBeenSet h
                     = Ret (h3, Continue hasAnyFieldBeenSet)).
    { erewrite parseField_located by eassumption.
      fold jsonPath fieldType. by rewrite Hdec. }
    assert (Hp : h `prefix_of` h3).
    { apply customUnmarshal_heap in Hcustom as (Hp1 & _).
      etrans; [exact Hp1|]. etrans; [|eapply parse_allocatesOnly; exact Hrec].
      destruct isZero; [rewrite New_heap in Hsub0|]; injection Hsub0 as <- _;
        [by apply prefix_app_r | reflexivity]. }
    split; [exact Hround|]. split; [simpl parseFields; by rewrite Hround|].
    split; [exact Hp|]. intros x. by apply read_prefix.
  - intros d old c sel Hd Hro Hloc Hc Hsel.
    assert (Hrosub : reflect.flagRO subValue = false).
    { rewrite (Indirect_flagRO _ _ _ Hsub).
      destruct isZero; [rewrite New_heap in Hsub0|]; by injection Hsub0 as _ <-. }
    pose proof (parse_Ret_struct _ _ _ _ _ _ _ _ _ Hrec) as Hstruct.
    destruct (parseField_assigns_chain E recurse s parsingCompanion bytes parentJsonPath
                structValue i structField hasAnyFieldBeenSet h h3 jsonKey valueBytes dataType
                fieldValue (reflect.mkValue (reflect.typ subValue) (reflect.Immediate d) false)
                (Some (reflect.typ subValue, d)) d old c sel)
      as (h4 & x & Hround & Hread & Hchain & _); try assumption.
    + fold jsonPath fieldType. rewrite Hdec. unfold reflect.Interface_.
      by rewrite Hrosub, Hd.
    + simpl. unfold reflect.Indirect. simpl. rewrite decide_False; [reflexivity|].
      rewrite Hstruct. discriminate.
    + reflexivity.
    + unfold fieldType in Hkind. rewrite Hkind. discriminate.
    + eauto.
Qed.

Lemma nested_record_attached_iff_any_field_set_witness :
  let Sub := Demo.configuration Demo.int_ in
  let T := pointerN 2 Sub in
  let fieldValue := reflect.mkValue T (reflect.Addressable 0 [0%nat]) false in
  let subValue := reflect.mkValue Sub (reflect.Addressable 2 []) false in
  let empty := Demo.env [Demo.node ["field_a"] "{}" jsonparser.Object] in
  let filled := Demo.env [Demo.node ["field_a"] "{}" jsonparser.Object;
                          Demo.node ["field_a"; "field_a"] "7" jsonparser.Number] in
  let h : Heap := Demo.heap0 T in
  let h2 : Heap := h ++ [reflect.Zero Sub; reflect.Zero Sub] in
  let h3 : Heap := [reflect.DStruct [reflect.DPtr None]; reflect.DStruct [reflect.DInt 0];
                    reflect.DStruct [reflect.DInt 7]; reflect.DInt 0; reflect.DInt 7] in
  (parseFields empty (parse empty 1 Demo.source yagcl.companion []) Demo.source
               yagcl.companion [] [] (Demo.root T) 0 [Demo.fieldA T] false h
   = parseFields empty (parse empty 1 Demo.source yagcl.companion []) Demo.source
                 yagcl.companion [] [] (Demo.root T) 1 [] false h2 /\
   h `prefix_of` h2 /\
   (forall x, reflect.read h fieldValue = Some x -> reflect.read h2 fieldValue = Some x)) /\
  (exists h4 x,
     parseField filled (parse filled 1 Demo.source yagcl.companion []) Demo.source
                yagcl.companion [] [] (Demo.root T) 0 (Demo.fieldA T) false h
     = Ret (h4, Continue true) /\
     reflect.read h4 fieldValue = Some x /\
     chainTo h4 x [5; 6]%nat (reflect.DStruct [reflect.DInt 7])).
Proof.
  intros Sub T fieldValue subValue empty filled h h2 h3. split.
  - exact (proj2 (proj1 (nested_record_attached_iff_any_field_set
             empty 1 Demo.source yagcl.companion [] [] (Demo.root T) 0 (Demo.fieldA T) []
             false h (h ++ [reflect.Zero Sub]) h2 h2 "field_a" (Demo.b "{}") jsonparser.Object
             fieldValue (pointerValue Sub 2) subValue true false
             eq_refl eq_refl eq_refl eq_refl eq_refl eq_refl eq_refl eq_refl eq_refl eq_refl)
             eq_refl)).
  - refine (proj2 (nested_record_attached_iff_any_field_set
             filled 1 Demo.source yagcl.companion [] [] (Demo.root T) 0 (Demo.fieldA T) []
             false h (h ++ [reflect.Zero Sub]) h2 h3 "field_a" (Demo.b "{}") jsonparser.Object
             fieldValue (pointerValue Sub 2) subValue true true
             eq_refl eq_refl eq_refl eq_refl eq_refl eq_refl eq_refl eq_refl eq_refl eq_refl)
             eq_refl (reflect.DStruct [reflect.DInt 7]) (reflect.DStruct [reflect.DPtr None])
             0%nat [0%nat] eq_refl eq_refl eq_refl eq_refl _).
    eexists. reflexivity.
Defined.

(** ** The source: [verify], [getBytes], [Parse] *)

(** [Parse] never exhausts the recursion budget it gives to [parse]. *)
Lemma Parse_total E s parsingCompanion configurationStruct (h : Heap) :
  Parse E s parsingCompanion configurationStruct h <> OutOfFuel.
Proof.
  unfold Parse. destruct (verify s); [done|].
  destruct (getBytes E s) as [data|err]; [|by destruct (_ && _)].
  apply bind_terminates; [apply orPanic_terminates|]. intros structValue _.
  apply bind_terminates; [by apply parse_total|]. by intros [h' [b err]] _.
Qed.

(** C1, as the code has it. Once the source is verified and its bytes are
    acquired, [Parse] returns the error of the bind call unchanged, and its
    boolean is [true] exactly when that error is nil; the flag that the
    bind call reports is dropped. In particular the error is nil on
    success. *)
Theorem Parse_reports_absence_of_error
    (E : Env) (s : jsonSourceImpl) (parsingCompanion : yagcl.ParsingCompanion)
    (configurationStruct : reflect.any) (h h' : Heap) (data : list byte)
    (structValue : reflect.Value) (hasAnyFieldBeenSet : bool) (err : option error) :
  verify s = None ->
  getBytes E s = Ok data ->
  reflect.ValueOf configurationStruct ≫= reflect.Indirect h = Some structValue ->
  parse E (structDepth (reflect.typ structValue)) s parsingCompanion data [] structValue h
  = Ret (h', (hasAnyFieldBeenSet, err)) ->
  Parse E s parsingCompanion configurationStruct h = Ret (h', (isNil err, err)) /\
  (isNil err = true <-> err = None).
Proof.
  intros Hverify Hbytes Hvalue Hparse. split.
  - unfold Parse. rewrite Hverify, Hbytes, Hvalue. cbn [orPanic mbind Outcome_bind].
    by rewrite Hparse.
  - destruct err; simpl; split; congruence.
Qed.

Lemma Parse_reports_absence_of_error_witness :
  let T := Demo.string_ in
  Parse (Demo.env []) Demo.source yagcl.companion (Demo.target T) (Demo.heap0 T)
  = Ret (Demo.heap0 T, (true, None)) /\
  (true = true <-> @None error = None).
Proof.
  intros T.
  exact (Parse_reports_absence_of_error
           (Demo.env []) Demo.source yagcl.companion (Demo.target T) (Demo.heap0 T)
           (Demo.heap0 T) (Demo.b "{}") (Demo.root T) false None
           eq_refl eq_refl eq_refl eq_refl).
Defined.

(** C1 as stated fails. For [struct { FieldA string `key:"field_a"` }] and
    the document [{}], the bind call assigns no field and reports [false],
    and yet [Parse] returns [true]. *)
Lemma Parse_true_though_nothing_set :
  let T := Demo.string_ in
  parse (Demo.env []) (structDepth (Demo.configuration T)) Demo.source yagcl.companion
        (Demo.b "{}") [] (Demo.root T) (Demo.heap0 T)
  = Ret (Demo.heap0 T, (false, None)) /\
  Parse (Demo.env []) Demo.source yagcl.companion (Demo.target T) (Demo.heap0 T)
  = Ret (Demo.heap0 T, (true, None)).
Proof. split; reflexivity. Qed.

(** A not-exist error of the file system or of the reader is what
    [getBytes] reports as [yagcl.ErrSourceNotFound]. *)
Lemma getBytes_not_exist E s e :
  bytes s = [] -> path s <> EmptyString ->
  os_ReadFile E (path s) = Err e ->
  os_IsNotExist e || is_fs_ErrNotExist e = true ->
  getBytes E s = Err (ErrYagcl yagcl.ErrSourceNotFound).
Proof.
  intros Hb Hp Hread Hne. unfold getBytes, notExistToSourceNotFound.
  rewrite Hb. simpl. rewrite bool_decide_eq_false_2 by exact Hp. simpl.
  by rewrite Hread, Hne.
Qed.

(** C5. A verified source whose byte acquisition fails. If it reports
    "source not found": without [Must], [Parse] is a successful no-op,
    [(false, nil)] with the heap, hence the target record, as it was; with
    [Must], the not-found error is returned. Any other failure is returned
    as it is, whatever [Must] says. *)
Theorem source_not_found_tolerated_unless_must
    (E : Env) (s : jsonSourceImpl) (parsingCompanion : yagcl.ParsingCompanion)
    (configurationStruct : reflect.any) (h : Heap) (err : error) :
  verify s = None ->
  getBytes E s = Err err ->
  (err = ErrYagcl yagcl.ErrSourceNotFound -> must s = false ->
   Parse E s parsingCompanion configurationStruct h = Ret (h, (false, None))) /\
  (err = ErrYagcl yagcl.ErrSourceNotFound -> must s = true ->
   Parse E s parsingCompanion configurationStruct h
   = Ret (h, (false, Some (ErrYagcl yagcl.ErrSourceNotFound)))) /\
  (err <> ErrYagcl yagcl.ErrSourceNotFound ->
   Parse E s parsingCompanion configurationStruct h = Ret (h, (false, Some err))).
Proof.
  intros Hverify Hbytes. unfold Parse. rewrite Hverify, Hbytes.
  split; [|split].
  - by intros -> ->.
  - by intros -> ->.
  - intros Hne. replace (isErrSourceNotFound err) with false; [by rewrite andb_false_r|].
    destruct err as [| | [] | | | | | | | |]; try reflexivity. by destruct Hne.
Qed.

Lemma source_not_found_tolerated_unless_must_witness :
  let T := Demo.string_ in
  let missing := Path Source "./doesntexist.json" in
  let directory := Path Source "./" in
  Parse (Demo.env []) missing yagcl.companion (Demo.target T) (Demo.heap0 T)
  = Ret (Demo.heap0 T, (false, None)) /\
  Parse (Demo.env []) (Must missing) yagcl.companion (Demo.target T) (Demo.heap0 T)
  = Ret (Demo.heap0 T, (false, Some (ErrYagcl yagcl.ErrSourceNotFound))) /\
  Parse (Demo.env []) directory yagcl.companion (Demo.target T) (Demo.heap0 T)
  = Ret (Demo.heap0 T, (false, Some (ErrIO Demo.isDirectory))).
Proof.
  intros T missing directory. split; [|split].
  - exact (proj1 (source_not_found_tolerated_unless_must
             (Demo.env []) missing yagcl.companion (Demo.target T) (Demo.heap0 T)
             (ErrYagcl yagcl.ErrSourceNotFound) eq_refl eq_refl) eq_refl eq_refl).
  - exact (proj1 (proj2 (source_not_found_tolerated_unless_must
             (Demo.env []) (Must missing) yagcl.companion (Demo.target T) (Demo.heap0 T)
             (ErrYagcl yagcl.ErrSourceNotFound) eq_refl eq_refl)) eq_refl eq_refl).
  - refine (proj2 (proj2 (source_not_found_tolerated_unless_must
             (Demo.env []) directory yagcl.companion (Demo.target T) (Demo.heap0 T)
             (ErrIO Demo.isDirectory) eq_refl eq_refl)) _).
    discriminate.
Defined.

(** C10. A source given only an empty byte slice, or only the empty
    string, counts as having no data source: [Parse] returns [false] and
    [ErrNoDataSourceSpecified] and parses nothing, with or without [Must].
    [verify] counts the bytes source exactly when the buffer is not
    empty. *)
Theorem empty_bytes_is_no_data_source
    (E : Env) (parsingCompanion : yagcl.ParsingCompanion)
    (configurationStruct : reflect.any) (h : Heap) (data : list byte) (p : string) :
  Parse E (Bytes Source []) parsingCompanion configurationStruct h
  = Ret (h, (false, Some ErrNoDataSourceSpecified)) /\
  Parse E (String_ Source EmptyString) parsingCompanion configurationStruct h
  = Ret (h, (false, Some ErrNoDataSourceSpecified)) /\
  Parse E (Must (Bytes Source [])) parsingCompanion configurationStruct h
  = Ret (h, (false, Some ErrNoDataSourceSpecified)) /\
  Parse E (Must (String_ Source EmptyString)) parsingCompanion configurationStruct h
  = Ret (h, (false, Some ErrNoDataSourceSpecified)) /\
  verify (Bytes Source data)
  = (if (0 <? length data)%nat then None else Some ErrNoDataSourceSpecified) /\
  verify (Path (Bytes Source data) (String.String "f" p))
  = (if (0 <? length data)%nat then Some ErrMultipleDataSourcesSpecified else None).
Proof.
  repeat split; try reflexivity.
  - unfold verify. simpl. by destruct (0 <? length data)%nat.
  - unfold verify. simpl. by destruct (0 <? length data)%nat.
Qed.

(** * Further properties of the package *)

(** ** The source *)

Lemma isErrSourceNotFound_true err :
  isErrSourceNotFound err = true -> err = ErrYagcl yagcl.ErrSourceNotFound.
Proof. destruct err as [| | [] | | | | | | | |]; simpl; congruence. Qed.

(** X1. [verify] accepts a source exactly when one and only one of the
    three data sources is configured (a path that is not empty, a byte
    buffer that is not empty, a reader that is not nil); it answers
    [ErrNoDataSourceSpecified] exactly when none is, and
    [ErrMultipleDataSourcesSpecified] exactly when two or three are. *)
Theorem verify_accepts_exactly_one_source (s : jsonSourceImpl) :
  let hasPath := negb (bool_decide (path s = EmptyString)) in
  let hasBytes := (0 <? length (bytes s))%nat in
  let hasReader := bool_decide (is_Some (reader s)) in
  (verify s = None <->
     (hasPath, hasBytes, hasReader) = (true, false, false) \/
     (hasPath, hasBytes, hasReader) = (false, true, false) \/
     (hasPath, hasBytes, hasReader) = (false, false, true)) /\
  (verify s = Some ErrNoDataSourceSpecified <->
     (hasPath, hasBytes, hasReader) = (false, false, false)) /\
  (verify s = Some ErrMultipleDataSourcesSpecified <->
     (hasPath && hasBytes) || (hasPath && hasReader) || (hasBytes && hasReader) = true).
Proof.
  intros hasPath hasBytes hasReader. unfold verify.
  fold hasPath hasBytes.
  assert (Hr : hasReader = match reader s with Some _ => true | None => false end)
    by (unfold hasReader; destruct (reader s); [by rewrite bool_decide_eq_true_2 by eauto|
        apply bool_decide_eq_false_2; by intros [? ?]]).
  rewrite Hr. destruct hasPath, hasBytes, (reader s); simpl;
    repeat split; intros; try discriminate; try tauto; intuition congruence.
Qed.

(** X2. The last error of [getBytes], which its comment calls dead code,
    is returned exactly for the sources that [verify] rejects for having
    no data source: after a successful [verify] it cannot occur. *)
Theorem getBytes_dead_code_iff_no_source (E : Env) (s : jsonSourceImpl) :
  getBytes E s = Err ErrVerificationMustHaveFailed <->
  verify s = Some ErrNoDataSourceSpecified.
Proof.
  unfold getBytes, verify, notExistToSourceNotFound.
  destruct (0 <? length (bytes s))%nat, (bool_decide (path s = EmptyString)); simpl.
  - destruct (reader s); simpl; split; discriminate.
  - destruct (reader s); simpl; split; discriminate.
  - destruct (reader s) as [r|]; simpl; [|tauto].
    destruct (io_ReadAll r) as [data|e]; [split; discriminate|].
    destruct (_ || _); split; discriminate.
  - destruct (os_ReadFile E (path s)) as [data|e].
    + destruct (reader s); simpl; split; discriminate.
    + destruct (_ || _), (reader s); simpl; split; discriminate.
Qed.

(** X3. What [Parse] can return. It never returns [true] together with an
    error. It returns [(false, nil)] only for a verified source without
    [Must] whose bytes were not found, and then the heap is as it was. And
    whenever it returns an error of [verify] or of [getBytes], the heap is
    as it was. *)
Theorem Parse_result_shape
    (E : Env) (s : jsonSourceImpl) (parsingCompanion : yagcl.ParsingCompanion)
    (configurationStruct : reflect.any) (h h' : Heap) (loaded : bool) (err : option error) :
  Parse E s parsingCompanion configurationStruct h = Ret (h', (loaded, err)) ->
  (loaded = true -> err = None /\ verify s = None /\ exists data, getBytes E s = Ok data) /\
  (loaded = false -> err = None ->
     must s = false /\ verify s = None /\
     getBytes E s = Err (ErrYagcl yagcl.ErrSourceNotFound) /\ h' = h) /\
  (forall e, verify s = Some e -> loaded = false /\ err = Some e /\ h' = h) /\
  (forall e, verify s = None -> getBytes E s = Err e -> loaded = false /\ h' = h).
Proof.
  unfold Parse. destruct (verify s) as [e|] eqn:Hverify.
  { intros [= <- <- <-]. repeat split; intros; try discriminate; congruence. }
  destruct (getBytes E s) as [data|e] eqn:Hbytes.
  - intros H. outcome_inv H. outcome_inv H. destruct a0 as [h1 [b1 e1]].
    injection H as <- <- <-.
    destruct e1; simpl; repeat split; intros; try discriminate; eauto.
  - destruct (negb (must s)) eqn:Hmust; simpl.
    + destruct (isErrSourceNotFound e) eqn:Hnf; intros [= <- <- <-];
        repeat split; intros; try discriminate; try congruence.
      * by destruct (must s).
      * by rewrite (isErrSourceNotFound_true _ Hnf).
    + intros [= <- <- <-]. repeat split; intros; try discriminate; congruence.
Qed.

Lemma Parse_result_shape_witness :
  let T := Demo.string_ in
  let missing := Path Source "./doesntexist.json" in
  must missing = false /\ verify missing = None /\
  getBytes (Demo.env []) missing = Err (ErrYagcl yagcl.ErrSourceNotFound) /\
  Demo.heap0 T = Demo.heap0 T.
Proof.
  intros T missing.
  exact (proj1 (proj2 (Parse_result_shape
           (Demo.env []) missing yagcl.companion (Demo.target T) (Demo.heap0 T)
           (Demo.heap0 T) false None eq_refl)) eq_refl eq_refl).
Defined.

(** The bind call depends on its recursive call only through the results
    of that call, and on the source not at all. *)
Section Extensionality.

Context (E : Env) (parsingCompanion : yagcl.ParsingCompanion) (bytes : list byte).

Lemma decode_ext (parse parse' : parseFn) jsonPath structField fieldType fieldValue
    valueBytes dataType b0 (h : Heap) :
  (forall p v (h0 : Heap), parse p v h0 = parse' p v h0) ->
  decode E parse jsonPath structField fieldType fieldValue valueBytes dataType b0 h
  = decode E parse' jsonPath structField fieldType fieldValue valueBytes dataType b0 h.
Proof.
  intros Hext. unfold decode.
  destruct (customUnmarshal _ _ _ _ _ _ _) as [h1 [value|st|]]; try reflexivity.
  unfold decodeByKind. destruct (reflect.KindOf fieldType); try reflexivity.
  unfold decodeStruct. destruct (reflect.IsZero h1 fieldValue) as [isZero| |]; try reflexivity.
  cbn [mbind Outcome_bind].
  destruct (if isZero then _ else _) as [h2 sv0].
  destruct (reflect.Indirect h2 sv0) as [sv|]; [|reflexivity].
  cbn [orPanic mbind Outcome_bind]. by rewrite Hext.
Qed.

Lemma parseFields_ext (parse parse' : parseFn) (s s' : jsonSourceImpl) parentJsonPath
    structValue fields :
  (forall p v (h0 : Heap), parse p v h0 = parse' p v h0) ->
  forall i b0 (h : Heap),
  parseFields E parse s parsingCompanion bytes parentJsonPath structValue i fields b0 h
  = parseFields E parse' s' parsingCompanion bytes parentJsonPath structValue i fields b0 h.
Proof.
  intros Hext. induction fields as [|f rest IH]; intros i b0 h; [reflexivity|].
  simpl.
  assert (Hround : parseField E parse s parsingCompanion bytes parentJsonPath structValue i f b0 h
                   = parseField E parse' s' parsingCompanion bytes parentJsonPath structValue
                                i f b0 h).
  { unfold parseField, extractJSONKey, KeyTag.
    destruct (negb _); [reflexivity|].
    destruct (if negb _ then _ else _) as [jsonKey|err]; [|reflexivity].
    destruct (jsonparser_Get _ _ _) as [[valueBytes dataType]|e]; [|reflexivity].
    destruct (reflect.Field structValue i f) as [fv| |]; try reflexivity.
    cbn [mbind Outcome_bind]. by rewrite (decode_ext parse parse'). }
  rewrite Hround. clear Hround.
  destruct (parseField _ _ _ _ _ _ _ _ _ _ _) as [[h1 [b1|b1 e1]]| |]; try reflexivity.
  apply IH.
Qed.

Lemma parse_source_irrelevant fuel (s s' : jsonSourceImpl) parentJsonPath structValue (h : Heap) :
  parse E fuel s parsingCompanion bytes parentJsonPath structValue h
  = parse E fuel s' parsingCompanion bytes parentJsonPath structValue h.
Proof.
  revert parentJsonPath structValue h.
  induction fuel as [|fuel IH]; intros parentJsonPath structValue h; simpl;
    destruct (reflect.typ structValue); try reflexivity.
  by apply parseFields_ext.
Qed.

End Extensionality.

(** X4. [Must] changes the result of [Parse] only when the byte
    acquisition reports "source not found": for every other source, among
    them every source that reads from a byte buffer or a string, [Parse]
    with and without [Must] return the same result and leave the same
    heap. *)
Theorem Must_matters_only_when_not_found
    (E : Env) (s : jsonSourceImpl) (parsingCompanion : yagcl.ParsingCompanion)
    (configurationStruct : reflect.any) (h : Heap) :
  getBytes E s <> Err (ErrYagcl yagcl.ErrSourceNotFound) ->
  Parse E (Must s) parsingCompanion configurationStruct h
  = Parse E s parsingCompanion configurationStruct h.
Proof.
  intros Hfound. unfold Parse.
  change (verify (Must s)) with (verify s). change (getBytes E (Must s)) with (getBytes E s).
  destruct (verify s); [reflexivity|].
  destruct (getBytes E s) as [data|err] eqn:Hbytes.
  - destruct (reflect.ValueOf configurationStruct ≫= reflect.Indirect h) as [sv|];
      [|reflexivity].
    cbn [orPanic mbind Outcome_bind]. by rewrite (parse_source_irrelevant E _ _ _ (Must s) s).
  - replace (isErrSourceNotFound err) with false; [by rewrite !andb_false_r|].
    destruct (isErrSourceNotFound err) eqn:Hnf; [|reflexivity].
    apply isErrSourceNotFound_true in Hnf. congruence.
Qed.

Lemma Must_matters_only_when_not_found_witness :
  let T := Demo.string_ in
  let E := Demo.env [Demo.node ["field_a"] "content a" jsonparser.String] in
  Parse E (Must Demo.source) yagcl.companion (Demo.target T) (Demo.heap0 T)
  = Parse E Demo.source yagcl.companion (Demo.target T) (Demo.heap0 T).
Proof.
  intros T E.
  refine (Must_matters_only_when_not_found E Demo.source yagcl.companion (Demo.target T)
            (Demo.heap0 T) _).
  discriminate.
Defined.

(** ** Keys and types *)

Lemma beforeComma_split (key : string) :
  exists rest, key = (beforeComma key ++ rest)%string /\
               (rest = EmptyString \/ exists r, rest = String.String "," r).
Proof.
  induction key as [|c key IH]; simpl.
  - exists EmptyString. split; [reflexivity|by left].
  - destruct (Ascii.eqb c ",") eqn:Hc.
    + apply Ascii.eqb_eq in Hc as ->. exists (String.String "," key).
      split; [reflexivity|]. right. eauto.
    + destruct IH as (rest & Hkey & Hrest). exists rest. simpl.
      split; [rewrite Hkey at 1; reflexivity|exact Hrest].
Qed.

Lemma beforeComma_no_comma (key : string) :
  ~ In ","%char (list_ascii_of_string (beforeComma key)).
Proof.
  induction key as [|c key IH]; simpl; [tauto|].
  destruct (Ascii.eqb c ",") eqn:Hc; simpl; [tauto|].
  intros [->|Hin]; [|by apply IH]. by rewrite Ascii.eqb_refl in Hc.
Qed.

(** X5. How the JSON key of a field is resolved. A [json] tag that is not
    empty always decides, whatever the fallback tag says: the key is the
    part of the tag before its first comma, so it holds no comma, the tag
    is that key followed by nothing or by a comma and the rest, and a tag
    that starts with a comma gives the empty key. The resolution fails
    exactly when the [json] tag and the companion's key are both empty, and
    the error then wraps [ErrExportedFieldMissingKey]. *)
Theorem extractJSONKey_resolution
    (s : jsonSourceImpl) (parsingCompanion : yagcl.ParsingCompanion)
    (structField : reflect.StructField) :
  let tag := reflect.TagGet (reflect.Tag structField) "json" in
  let fallback := yagcl.ExtractFieldKey parsingCompanion structField in
  (tag <> EmptyString ->
     exists key rest,
       extractJSONKey s parsingCompanion structField = Ok key /\
       tag = (key ++ rest)%string /\
       (rest = EmptyString \/ exists r, rest = String.String "," r) /\
       ~ In ","%char (list_ascii_of_string key)) /\
  (forall r, tag = String.String "," r ->
     extractJSONKey s parsingCompanion structField = Ok EmptyString) /\
  (tag = EmptyString -> fallback <> EmptyString ->
     extractJSONKey s parsingCompanion structField = Ok fallback) /\
  ((exists err, extractJSONKey s parsingCompanion structField = Err err) <->
     tag = EmptyString /\ fallback = EmptyString) /\
  (forall err, extractJSONKey s parsingCompanion structField = Err err ->
     err = ErrNoKeyTag "json" "key" (reflect.Name structField) /\
     errors_Is err yagcl.ErrExportedFieldMissingKey = true).
Proof.
  intros tag fallback. unfold extractJSONKey, KeyTag. fold tag fallback.
  split; [|split; [|split; [|split]]].
  - intros Htag. rewrite bool_decide_eq_false_2 by exact Htag. simpl.
    destruct (beforeComma_split tag) as (rest & Hsplit & Hrest).
    exists (beforeComma tag), rest. repeat split; try assumption.
    apply beforeComma_no_comma.
  - intros r ->. reflexivity.
  - intros -> Hfb. simpl. by rewrite bool_decide_eq_false_2 by exact Hfb.
  - destruct (bool_decide (tag = EmptyString)) eqn:Htag; simpl.
    + apply bool_decide_eq_true_1 in Htag.
      destruct (bool_decide (fallback = EmptyString)) eqn:Hfb; simpl.
      * apply bool_decide_eq_true_1 in Hfb. split; [done|]. intros _. eauto.
      * apply bool_decide_eq_false_1 in Hfb. split; [by intros [? ?]|]. by intros [_ ?].
    + apply bool_decide_eq_false_1 in Htag. split; [by intros [? ?]|]. by intros [? _].
  - destruct (negb _); [discriminate|]. destruct (negb _); [discriminate|].
    by intros err [= <-].
Qed.

Lemma extractJSONKey_resolution_witness :
  let f := reflect.mkStructField "FieldB"
             [("json", "field_b,omitempty"); ("key", "other")] true Demo.string_ in
  exists key rest,
    extractJSONKey Demo.source yagcl.companion f = Ok key /\
    "field_b,omitempty" = (key ++ rest)%string /\
    (rest = EmptyString \/ exists r, rest = String.String "," r) /\
    ~ In ","%char (list_ascii_of_string key).
Proof.
  intros f.
  refine (proj1 (extractJSONKey_resolution Demo.source yagcl.companion f) _).
  discriminate.
Defined.

(** X6. [extractNonPointerFieldType] removes the pointers around a type
    and nothing else: its result is not a pointer type, putting back as
    many pointers as the type had gives the type again, pointers added
    around a type do not change the result, and applying it twice is
    applying it once. *)
Theorem extractNonPointerFieldType_strips_pointers (T : reflect.Type_) (n : nat) :
  (forall elem, extractNonPointerFieldType T <> reflect.PointerTo elem) /\
  T = pointerN (pointerDepth T) (extractNonPointerFieldType T) /\
  extractNonPointerFieldType (pointerN n T) = extractNonPointerFieldType T /\
  pointerDepth (pointerN n T) = (n + pointerDepth T)%nat /\
  extractNonPointerFieldType (extractNonPointerFieldType T) = extractNonPointerFieldType T.
Proof.
  split; [|split; [|split; [|split]]].
  - intros elem. apply extractNonPointerFieldType_not_pointer.
  - apply pointerN_strip.
  - induction n; simpl; congruence.
  - induction n; simpl; congruence.
  - induction T; simpl; congruence.
Qed.

(** ** The field loop *)

(** X7. An included field that has neither a [json] tag nor a key from the
    companion ends the bind call with the error wrapping
    [ErrExportedFieldMissingKey], before the document is looked at: the
    result is the same for every document and every environment, the heap
    is as it was and the flag is the one reached so far. *)
Theorem untagged_field_aborts_for_every_document
    (E : Env) (parse : parseFn) (s : jsonSourceImpl)
    (parsingCompanion : yagcl.ParsingCompanion) (bytes : list byte)
    (parentJsonPath : list string) (structValue : reflect.Value) (i : nat)
    (structField : reflect.StructField) (rest : list reflect.StructField)
    (hasAnyFieldBeenSet : bool) (h : Heap) :
  yagcl.IncludeField parsingCompanion structField = true ->
  reflect.TagGet (reflect.Tag structField) "json" = EmptyString ->
  yagcl.ExtractFieldKey parsingCompanion structField = EmptyString ->
  let err := ErrNoKeyTag "json" "key" (reflect.Name structField) in
  parseFields E parse s parsingCompanion bytes parentJsonPath structValue i
              (structField :: rest) hasAnyFieldBeenSet h
  = Ret (h, (hasAnyFieldBeenSet, Some err)) /\
  errors_Is err yagcl.ErrExportedFieldMissingKey = true.
Proof.
  intros Hinc Htag Hfb err. split; [|reflexivity].
  simpl parseFields. unfold parseField, extractJSONKey, KeyTag.
  rewrite Hinc, Htag, Hfb. reflexivity.
Qed.

Lemma untagged_field_aborts_for_every_document_witness :
  let T := Demo.string_ in
  let untagged := reflect.mkStructField "FieldA" [] true T in
  let E := Demo.env [Demo.node ["field_a"] "content a" jsonparser.String] in
  parseFields E (parse E 0 Demo.source yagcl.companion []) Demo.source yagcl.companion []
              [] (Demo.root T) 0 [untagged] false (Demo.heap0 T)
  = Ret (Demo.heap0 T, (false, Some (ErrNoKeyTag "json" "key" "FieldA"))) /\
  errors_Is (ErrNoKeyTag "json" "key" "FieldA") yagcl.ErrExportedFieldMissingKey = true.
Proof.
  intros T untagged E.
  exact (untagged_field_aborts_for_every_document
           E (parse E 0 Demo.source yagcl.companion []) Demo.source yagcl.companion []
           [] (Demo.root T) 0 untagged [] false (Demo.heap0 T) eq_refl eq_refl eq_refl).
Defined.

Lemma parseFields_all_absent
    (E : Env) (parse : parseFn) (s : jsonSourceImpl)
    (parsingCompanion : yagcl.ParsingCompanion) (bytes : list byte)
    (parentJsonPath : list string) (structValue : reflect.Value) (h : Heap)
    (fields : list reflect.StructField) :
  Forall (fun f =>
            yagcl.IncludeField parsingCompanion f = false \/
            exists jsonKey,
              extractJSONKey s parsingCompanion f = Ok jsonKey /\
              jsonparser_Get E bytes (parentJsonPath ++ [jsonKey])
              = Err jsonparser.KeyPathNotFoundError) fields ->
  forall i b0,
  parseFields E parse s parsingCompanion bytes parentJsonPath structValue i fields b0 h
  = Ret (h, (b0, None)).
Proof.
  induction 1 as [|f rest Hf _ IH]; intros i b0; [reflexivity|].
  simpl parseFields.
  assert (Hround : parseField E parse s parsingCompanion bytes parentJsonPath structValue
                     i f b0 h
                   = Ret (h, Continue b0)).
  { unfold parseField. destruct Hf as [Hexcl | (jsonKey & Hkey & Hget)].
    - by rewrite Hexcl.
    - destruct (negb _); [reflexivity|]. by rewrite Hkey, Hget. }
  rewrite Hround. apply IH.
Qed.

(** X8. A bind call on a record of which every field is either excluded
    by the companion or keyed to a path that the document does not have
    returns "nothing set, no error" and leaves the heap exactly as it was:
    it allocates nothing and calls no decoder. *)
Theorem absent_fields_change_nothing
    (E : Env) (fuel : nat) (s : jsonSourceImpl)
    (parsingCompanion : yagcl.ParsingCompanion) (bytes : list byte)
    (parentJsonPath : list string) (structValue : reflect.Value) (h : Heap)
    (name : string) (fields : list reflect.StructField) :
  reflect.typ structValue = reflect.StructOf name fields ->
  Forall (fun f =>
            yagcl.IncludeField parsingCompanion f = false \/
            exists jsonKey,
              extractJSONKey s parsingCompanion f = Ok jsonKey /\
              jsonparser_Get E bytes (parentJsonPath ++ [jsonKey])
              = Err jsonparser.KeyPathNotFoundError) fields ->
  parse E (S fuel) s parsingCompanion bytes parentJsonPath structValue h
  = Ret (h, (false, None)).
Proof.
  intros Htyp Hfields. simpl. rewrite Htyp. by apply parseFields_all_absent.
Qed.

Lemma absent_fields_change_nothing_witness :
  let Sub := Demo.configuration Demo.int_ in
  let hidden := reflect.mkStructField "fieldB" [("key", "field_b")] false Demo.int_ in
  let ignored := reflect.mkStructField "FieldC" [("ignore", "TRUE")] true Demo.int_ in
  let T := reflect.StructOf "configuration" [Demo.fieldA (pointerN 2 Sub); hidden; ignored] in
  let h : Heap := [reflect.Zero T] in
  let E := Demo.env [Demo.node ["field_b"] "1" jsonparser.Number;
                     Demo.node ["FieldC"] "2" jsonparser.Number] in
  parse E 1 Demo.source yagcl.companion [] []
        (reflect.mkValue T (reflect.Addressable 0 []) false) h
  = Ret (h, (false, None)).
Proof.
  intros Sub hidden ignored T h E.
  refine (absent_fields_change_nothing E 0 Demo.source yagcl.companion [] []
            (reflect.mkValue T (reflect.Addressable 0 []) false) h "configuration"
            [Demo.fieldA (pointerN 2 Sub); hidden; ignored] eq_refl _).
  constructor; [right; exists "field_a"; split; reflexivity|].
  constructor; [left; reflexivity|].
  constructor; [left; reflexivity|].
  constructor.
Defined.

(** ** The switch on the kind *)

(** X9. A field of kind string to which no custom unmarshaller applies. A
    node that is not a String ends the bind call with the incorrect-type
    error, which names the field and the type found and wraps
    [ErrParseValue]; a String node whose content cannot be unescaped ends
    it with the access error carrying the JSON path; otherwise the
    unescaped content is what gets assigned. *)
Theorem string_field_wants_string_node
    (E : Env) (parse : parseFn) (s : jsonSourceImpl)
    (parsingCompanion : yagcl.ParsingCompanion) (bytes : list byte)
    (parentJsonPath : list string) (structValue : reflect.Value) (i : nat)
    (structField : reflect.StructField) (rest : list reflect.StructField)
    (hasAnyFieldBeenSet : bool) (h h1 : Heap) (jsonKey : string)
    (valueBytes : list byte) (dataType : jsonparser.ValueType)
    (fieldValue : reflect.Value) :
  let fieldType := extractNonPointerFieldType (reflect.FType structField) in
  let jsonPath := parentJsonPath ++ [jsonKey] in
  yagcl.IncludeField parsingCompanion structField = true ->
  extractJSONKey s parsingCompanion structField = Ok jsonKey ->
  jsonparser_Get E bytes jsonPath = Ok (valueBytes, dataType) ->
  reflect.Field structValue i structField = Ret fieldValue ->
  reflect.KindOf fieldType = reflect.String ->
  customUnmarshal E jsonPath fieldValue valueBytes dataType hasAnyFieldBeenSet h
  = (h1, NotApplied) ->
  (dataType <> jsonparser.String ->
     let err := ErrIncorrectJSONType (reflect.Name structField) dataType in
     parseFields E parse s parsingCompanion bytes parentJsonPath structValue i
                 (structField :: rest) hasAnyFieldBeenSet h
     = Ret (h1, (hasAnyFieldBeenSet, Some err)) /\
     errors_Is err yagcl.ErrParseValue = true) /\
  (dataType = jsonparser.String ->
     match jsonparser_ParseString E valueBytes with
     | Err cause =>
         parseFields E parse s parsingCompanion bytes parentJsonPath structValue i
                     (structField :: rest) hasAnyFieldBeenSet h
         = Ret (h1, (hasAnyFieldBeenSet, Some (ErrAccessingJSONField jsonPath cause)))
     | Ok content =>
         parseField E parse s parsingCompanion bytes parentJsonPath structValue i structField
                    hasAnyFieldBeenSet h
         = h' ← assign fieldValue
                   (reflect.mkValue fieldType (reflect.Immediate (reflect.DString content)) false)
                   h1;
           Ret (h', Continue true)
     end).
Proof.
  intros fieldType jsonPath Hinc Hkey Hget Hfield Hkind Hcustom.
  assert (Hdec : decode E parse jsonPath structField fieldType fieldValue valueBytes
                   dataType hasAnyFieldBeenSet h
                 = Ret (decodeString E jsonPath structField valueBytes dataType
                                     hasAnyFieldBeenSet h1)).
  { unfold decode. rewrite Hcustom. unfold decodeByKind. by rewrite Hkind. }
  split.
  - intros Hne err. split; [|reflexivity]. simpl parseFields.
    erewrite parseField_located by eassumption. fold jsonPath fieldType. rewrite Hdec.
    unfold decodeString. by rewrite bool_decide_eq_false_2 by exact Hne.
  - intros ->. unfold decodeString in Hdec. rewrite bool_decide_eq_true_2 in Hdec by reflexivity.
    simpl negb in Hdec. cbv iota in Hdec.
    destruct (jsonparser_ParseString E valueBytes) as [content|cause].
    + eapply parseField_Got
        with (v := reflect.mkValue (reflect.Basic "string" reflect.String)
                     (reflect.Immediate (reflect.DString content)) false);
        eauto.
    + simpl parseFields. erewrite parseField_located by eassumption.
      fold jsonPath fieldType. by rewrite Hdec.
Qed.

Lemma string_field_wants_string_node_witness :
  let T := Demo.string_ in
  let E := Demo.env [Demo.node ["field_a"] "12" jsonparser.Number] in
  parseFields E (parse E 0 Demo.source yagcl.companion []) Demo.source yagcl.companion []
              [] (Demo.root T) 0 [Demo.fieldA T] false (Demo.heap0 T)
  = Ret (Demo.heap0 T ++ [reflect.Zero T],
         (false, Some (ErrIncorrectJSONType "FieldA" jsonparser.Number))) /\
  errors_Is (ErrIncorrectJSONType "FieldA" jsonparser.Number) yagcl.ErrParseValue = true.
Proof.
  intros T E.
  refine (proj1 (string_field_wants_string_node
            E (parse E 0 Demo.source yagcl.companion []) Demo.source yagcl.companion []
            [] (Demo.root T) 0 (Demo.fieldA T) [] false (Demo.heap0 T)
            (Demo.heap0 T ++ [reflect.Zero T]) "field_a" (Demo.b "12") jsonparser.Number
            (reflect.mkValue T (reflect.Addressable 0 [0%nat]) false)
            eq_refl eq_refl eq_refl eq_refl eq_refl eq_refl) _).
  discriminate.
Defined.

(** X10. A field of any kind other than string, struct, complex64,
    complex128 and int64 (the numbers, booleans, slices, maps, arrays and
    so on) to which no custom unmarshaller applies is decoded by
    [json.Unmarshal] into a fresh instance of its stripped type. A decode
    failure ends the bind call with the unmarshal error carrying the JSON
    path and the cause; decoded data is what gets assigned; and when
    [json.Unmarshal] leaves the interface value nil, the conversion that
    follows panics. A field of kind int64 whose node is not a String takes
    the same way. *)
Theorem other_kinds_decoded_by_json_Unmarshal
    (E : Env) (parse : parseFn) (s : jsonSourceImpl)
    (parsingCompanion : yagcl.ParsingCompanion) (bytes : list byte)
    (parentJsonPath : list string) (structValue : reflect.Value) (i : nat)
    (structField : reflect.StructField) (rest : list reflect.StructField)
    (hasAnyFieldBeenSet : bool) (h h1 : Heap) (jsonKey : string)
    (valueBytes : list byte) (dataType : jsonparser.ValueType)
    (fieldValue : reflect.Value) :
  let fieldType := extractNonPointerFieldType (reflect.FType structField) in
  let jsonPath := parentJsonPath ++ [jsonKey] in
  yagcl.IncludeField parsingCompanion structField = true ->
  extractJSONKey s parsingCompanion structField = Ok jsonKey ->
  jsonparser_Get E bytes jsonPath = Ok (valueBytes, dataType) ->
  reflect.Field structValue i structField = Ret fieldValue ->
  defaultKind (reflect.KindOf fieldType) = true \/
  (reflect.KindOf fieldType = reflect.Int64 /\ dataType <> jsonparser.String) ->
  customUnmarshal E jsonPath fieldValue valueBytes dataType hasAnyFieldBeenSet h
  = (h1, NotApplied) ->
  match json_Unmarshal E valueBytes fieldType with
  | UnmarshalFailed cause =>
      let err := ErrUnmarshalling jsonPath cause in
      parseFields E parse s parsingCompanion bytes parentJsonPath structValue i
                  (structField :: rest) hasAnyFieldBeenSet h
      = Ret (h1 ++ [reflect.Zero fieldType], (hasAnyFieldBeenSet, Some err)) /\
      errors_Is err yagcl.ErrParseValue = true
  | Decoded d =>
      parseField E parse s parsingCompanion bytes parentJsonPath structValue i structField
                 hasAnyFieldBeenSet h
      = h' ← assign fieldValue (reflect.mkValue fieldType (reflect.Immediate d) false)
                    (h1 ++ [d]);
        Ret (h', Continue true)
  | ResetToNil =>
      parseField E parse s parsingCompanion bytes parentJsonPath structValue i structField
                 hasAnyFieldBeenSet h
      = Panic "reflect: call of reflect.Value.Convert on zero Value"
  end.
Proof.
  intros fieldType jsonPath Hinc Hkey Hget Hfield Hkind Hcustom.
  assert (Hdec : decode E parse jsonPath structField fieldType fieldValue valueBytes
                   dataType hasAnyFieldBeenSet h
                 = Ret (decodeDefault E jsonPath fieldType valueBytes hasAnyFieldBeenSet h1)).
  { unfold decode. rewrite Hcustom. unfold decodeByKind.
    destruct Hkind as [Hk | [Hk Hdt]].
    - destruct (reflect.KindOf fieldType); try discriminate; reflexivity.
    - rewrite Hk. unfold decodeInt64. by rewrite decide_False by exact Hdt. }
  unfold decodeDefault in Hdec. rewrite New_heap in Hdec.
  destruct (json_Unmarshal E valueBytes fieldType) as [d| |cause].
  - rewrite insert_new_cell in Hdec.
    destruct (Convert_new_cell h1 fieldType fieldType d) as [Hv Hd].
    eapply parseField_Got; eauto.
  - erewrite parseField_located by eassumption. fold jsonPath fieldType.
    by rewrite Hdec.
  - intros err. split; [|reflexivity]. simpl parseFields.
    erewrite parseField_located by eassumption. fold jsonPath fieldType.
    by rewrite Hdec.
Qed.

Lemma other_kinds_decoded_by_json_Unmarshal_witness :
  let T := Demo.int_ in
  let fieldValue := reflect.mkValue T (reflect.Addressable 0 [0%nat]) false in
  let h1 : Heap := Demo.heap0 T ++ [reflect.Zero T] in
  let good := Demo.env [Demo.node ["field_a"] "12" jsonparser.Number] in
  let bad := Demo.env [Demo.node ["field_a"] "no integer here" jsonparser.String] in
  (parseField good (parse good 0 Demo.source yagcl.companion []) Demo.source yagcl.companion
              [] [] (Demo.root T) 0 (Demo.fieldA T) false (Demo.heap0 T)
   = h' ← assign fieldValue (reflect.mkValue T (reflect.Immediate (reflect.DInt 12)) false)
                 (h1 ++ [reflect.DInt 12]);
     Ret (h', Continue true)) /\
  (parseFields bad (parse bad 0 Demo.source yagcl.companion []) Demo.source yagcl.companion
               [] [] (Demo.root T) 0 [Demo.fieldA T] false (Demo.heap0 T)
   = Ret (h1 ++ [reflect.Zero T],
          (false, Some (ErrUnmarshalling ["field_a"] "json: cannot unmarshal")))).
Proof.
  intros T fieldValue h1 good bad. split.
  - exact (other_kinds_decoded_by_json_Unmarshal
             good (parse good 0 Demo.source yagcl.companion []) Demo.source yagcl.companion
             [] [] (Demo.root T) 0 (Demo.fieldA T) [] false (Demo.heap0 T) h1 "field_a"
             (Demo.b "12") jsonparser.Number fieldValue
             eq_refl eq_refl eq_refl eq_refl (or_introl eq_refl) eq_refl).
  - exact (proj1 (other_kinds_decoded_by_json_Unmarshal
             bad (parse bad 0 Demo.source yagcl.companion []) Demo.source yagcl.companion
             [] [] (Demo.root T) 0 (Demo.fieldA T) [] false (Demo.heap0 T) h1 "field_a"
             (Demo.b "no integer here") jsonparser.String fieldValue
             eq_refl eq_refl eq_refl eq_refl (or_introl eq_refl) eq_refl)).
Defined.

(** X11. A field whose stripped type has a text hook
    ([encoding.TextUnmarshaler]) and no JSON hook. On a String node the
    hook is run on the bytes of the node as the locator returned them: a
    failure ends the bind call with the unmarshal error carrying the JSON
    path and the cause, a success is what gets assigned. On a node of any
    other type the hook is not run and the switch on the kind decides. *)
Theorem text_unmarshaler_runs_on_string_nodes_only
    (E : Env) (parse : parseFn) (s : jsonSourceImpl)
    (parsingCompanion : yagcl.ParsingCompanion) (bytes : list byte)
    (parentJsonPath : list string) (structValue : reflect.Value) (i : nat)
    (structField : reflect.StructField) (rest : list reflect.StructField)
    (hasAnyFieldBeenSet : bool) (h : Heap) (jsonKey : string)
    (valueBytes : list byte) (dataType : jsonparser.ValueType)
    (fieldValue : reflect.Value) (unmarshalText : list byte -> Result string reflect.Data) :
  let fieldType := extractNonPointerFieldType (reflect.FType structField) in
  let jsonPath := parentJsonPath ++ [jsonKey] in
  yagcl.IncludeField parsingCompanion structField = true ->
  extractJSONKey s parsingCompanion structField = Ok jsonKey ->
  jsonparser_Get E bytes jsonPath = Ok (valueBytes, dataType) ->
  reflect.Field structValue i structField = Ret fieldValue ->
  reflect.CanInterface fieldValue = true ->
  UnmarshalJSON E fieldType = None ->
  UnmarshalText E fieldType = Some unmarshalText ->
  (dataType = jsonparser.String ->
     match unmarshalText valueBytes with
     | Err cause =>
         let err := ErrUnmarshalling jsonPath cause in
         parseFields E parse s parsingCompanion bytes parentJsonPath structValue i
                     (structField :: rest) hasAnyFieldBeenSet h
         = Ret (h ++ [reflect.Zero fieldType], (hasAnyFieldBeenSet, Some err)) /\
         errors_Is err yagcl.ErrParseValue = true
     | Ok d =>
         parseField E parse s parsingCompanion bytes parentJsonPath structValue i structField
                    hasAnyFieldBeenSet h
         = h' ← assign fieldValue (reflect.mkValue fieldType (reflect.Immediate d) false)
                       (h ++ [d]);
           Ret (h', Continue true)
     end) /\
  (dataType <> jsonparser.String ->
     decode E parse jsonPath structField fieldType fieldValue valueBytes dataType
            hasAnyFieldBeenSet h
     = decodeByKind E parse jsonPath structField fieldType fieldValue valueBytes dataType
                    hasAnyFieldBeenSet (h ++ [reflect.Zero fieldType])).
Proof.
  intros fieldType jsonPath Hinc Hkey Hget Hfield Hcan HJ HT.
  pose proof (Field_typ _ _ _ _ Hfield) as Htyp.
  pose proof (text_unmarshaler_path E parse jsonPath structField fieldValue valueBytes
                dataType hasAnyFieldBeenSet h unmarshalText Hcan) as Hpath.
  rewrite Htyp in Hpath. fold fieldType in Hpath. specialize (Hpath HJ HT).
  split.
  - intros ->. rewrite decide_True in Hpath by reflexivity.
    destruct (unmarshalText valueBytes) as [d|cause].
    + destruct (Convert_new_cell h fieldType fieldType d) as [Hv Hd].
      eapply parseField_Got; eauto.
    + intros err. split; [|reflexivity]. simpl parseFields.
      erewrite parseField_located by eassumption. fold jsonPath fieldType.
      by rewrite Hpath.
  - intros Hne. by rewrite decide_False in Hpath by exact Hne.
Qed.

Lemma text_unmarshaler_runs_on_string_nodes_only_witness :
  let T := Demo.customTextUnmarshalable in
  let E := Demo.env [Demo.node ["field_a"] "lower" jsonparser.String] in
  let fieldValue := reflect.mkValue T (reflect.Addressable 0 [0%nat]) false in
  parseField E (parse E 0 Demo.source yagcl.companion []) Demo.source yagcl.companion []
             [] (Demo.root T) 0 (Demo.fieldA T) false (Demo.heap0 T)
  = h' ← assign fieldValue
            (reflect.mkValue T (reflect.Immediate (reflect.DString "lower")) false)
            (Demo.heap0 T ++ [reflect.DString "lower"]);
    Ret (h', Continue true).
Proof.
  intros T E fieldValue.
  exact (proj1 (text_unmarshaler_runs_on_string_nodes_only
           E (parse E 0 Demo.source yagcl.companion []) Demo.source yagcl.companion []
           [] (Demo.root T) 0 (Demo.fieldA T) [] false (Demo.heap0 T) "field_a"
           (Demo.b "lower") jsonparser.String fieldValue Demo.keepText
           eq_refl eq_refl eq_refl eq_refl eq_refl eq_refl eq_refl) eq_refl).
Defined.

(** ** Nested records, further *)

(** X12. An error of the recursive bind call on a nested record ends the
    enclosing bind call at once with that same error: the rest of the
    fields are not visited, nothing is assigned to the parent field by
    this round, and the flag returned is the flag so far or-ed with the
    flag of the recursive call. *)
Theorem nested_error_propagates
    (E : Env) (parse : parseFn) (s : jsonSourceImpl)
    (parsingCompanion : yagcl.ParsingCompanion) (bytes : list byte)
    (parentJsonPath : list string) (structValue : reflect.Value) (i : nat)
    (structField : reflect.StructField) (rest : list reflect.StructField)
    (hasAnyFieldBeenSet : bool) (h h1 h2 h3 : Heap) (jsonKey : string)
    (valueBytes : list byte) (dataType : jsonparser.ValueType)
    (fieldValue subValue0 subValue : reflect.Value) (isZero : bool)
    (hasAnySubStructFieldBeenSet : bool) (err : error) :
  let fieldType := extractNonPointerFieldType (reflect.FType structField) in
  let jsonPath := parentJsonPath ++ [jsonKey] in
  yagcl.IncludeField parsingCompanion structField = true ->
  extractJSONKey s parsingCompanion structField = Ok jsonKey ->
  jsonparser_Get E bytes jsonPath = Ok (valueBytes, dataType) ->
  reflect.Field structValue i structField = Ret fieldValue ->
  reflect.KindOf fieldType = reflect.Struct ->
  customUnmarshal E jsonPath fieldValue valueBytes dataType hasAnyFieldBeenSet h
  = (h1, NotApplied) ->
  reflect.IsZero h1 fieldValue = Ret isZero ->
  (if isZero then reflect.New fieldType h1 else (h1, fieldValue)) = (h2, subValue0) ->
  reflect.Indirect h2 subValue0 = Some subValue ->
  parse jsonPath subValue h2 = Ret (h3, (hasAnySubStructFieldBeenSet, Some err)) ->
  parseFields E parse s parsingCompanion bytes parentJsonPath structValue i
              (structField :: rest) hasAnyFieldBeenSet h
  = Ret (h3, (hasAnyFieldBeenSet || hasAnySubStructFieldBeenSet, Some err)).
Proof.
  intros fieldType jsonPath Hinc Hkey Hget Hfield Hkind Hcustom Hzero Hsub0 Hsub Hrec.
  simpl parseFields. erewrite parseField_located by eassumption.
  fold jsonPath fieldType. unfold decode. rewrite Hcustom. unfold decodeByKind.
  rewrite Hkind. unfold decodeStruct. rewrite Hzero. cbn [mbind Outcome_bind].
  rewrite Hsub0, Hsub. cbn [orPanic mbind Outcome_bind]. by rewrite Hrec.
Qed.

Lemma nested_error_propagates_witness :
  let Sub := Demo.configuration Demo.int_ in
  let T := reflect.PointerTo Sub in
  let E := Demo.env [Demo.node ["field_a"] "{}" jsonparser.Object;
                     Demo.node ["field_a"; "field_a"] "no integer here" jsonparser.String] in
  let h : Heap := Demo.heap0 T in
  let h2 : Heap := h ++ [reflect.Zero Sub; reflect.Zero Sub] in
  let h3 : Heap := h2 ++ [reflect.DInt 0; reflect.DInt 0] in
  parseFields E (parse E 1 Demo.source yagcl.companion []) Demo.source yagcl.companion []
              [] (Demo.root T) 0 [Demo.fieldA T] false h
  = Ret (h3, (false, Some (ErrUnmarshalling ["field_a"; "field_a"] "json: cannot unmarshal"))).
Proof.
  intros Sub T E h h2 h3.
  exact (nested_error_propagates
           E (parse E 1 Demo.source yagcl.companion []) Demo.source yagcl.companion []
           [] (Demo.root T) 0 (Demo.fieldA T) [] false h (h ++ [reflect.Zero Sub]) h2 h3
           "field_a" (Demo.b "{}") jsonparser.Object
           (reflect.mkValue T (reflect.Addressable 0 [0%nat]) false)
           (pointerValue Sub 2) (reflect.mkValue Sub (reflect.Addressable 2 []) false)
           true false (ErrUnmarshalling ["field_a"; "field_a"] "json: cannot unmarshal")
           eq_refl eq_refl eq_refl eq_refl eq_refl eq_refl eq_refl eq_refl eq_refl eq_refl).
Defined.

(** X13. A field with two or more pointers around a struct that already
    holds a pointer: the field is not zero, so the binder works on the
    field itself and removes one pointer only; what it hands to the
    recursive call is still a pointer, and the recursive call panics when
    it asks for the number of fields. (With exactly one pointer the
    recursive call gets the struct the field points to.) *)
Theorem preset_double_pointer_to_struct_panics
    (E : Env) (fuel : nat) (s : jsonSourceImpl)
    (parsingCompanion : yagcl.ParsingCompanion) (bytes : list byte)
    (parentJsonPath : list string) (structValue : reflect.Value) (i : nat)
    (structField : reflect.StructField)
    (hasAnyFieldBeenSet : bool) (h h1 : Heap) (jsonKey : string)
    (valueBytes : list byte) (dataType : jsonparser.ValueType)
    (fieldValue : reflect.Value) (elem : reflect.Type_) (a : reflect.addr) :
  let fieldType := extractNonPointerFieldType (reflect.FType structField) in
  let jsonPath := parentJsonPath ++ [jsonKey] in
  yagcl.IncludeField parsingCompanion structField = true ->
  extractJSONKey s parsingCompanion structField = Ok jsonKey ->
  jsonparser_Get E bytes jsonPath = Ok (valueBytes, dataType) ->
  reflect.Field structValue i structField = Ret fieldValue ->
  reflect.FType structField = reflect.PointerTo (reflect.PointerTo elem) ->
  reflect.KindOf fieldType = reflect.Struct ->
  customUnmarshal E jsonPath fieldValue valueBytes dataType hasAnyFieldBeenSet h
  = (h1, NotApplied) ->
  reflect.read h1 fieldValue = Some (reflect.DPtr (Some a)) ->
  parseField E (parse E fuel s parsingCompanion bytes) s parsingCompanion bytes
             parentJsonPath structValue i structField hasAnyFieldBeenSet h
  = Panic "reflect: call of reflect.Value.NumField on non-struct Value".
Proof.
  intros fieldType jsonPath Hinc Hkey Hget Hfield Hptr Hkind Hcustom Hread.
  pose proof (Field_typ _ _ _ _ Hfield) as Htyp.
  erewrite parseField_located by eassumption.
  fold jsonPath fieldType. unfold decode. rewrite Hcustom. unfold decodeByKind.
  rewrite Hkind. unfold decodeStruct, reflect.IsZero. rewrite Hread.
  cbn [orPanic mbind Outcome_bind reflect.isZeroData].
  unfold reflect.Indirect, reflect.Elem. rewrite Htyp, Hptr, Hread.
  cbn [reflect.KindOf]. rewrite decide_True by reflexivity.
  cbn [orPanic mbind Outcome_bind]. by destruct fuel.
Qed.

Lemma preset_double_pointer_to_struct_panics_witness :
  let Sub := Demo.configuration Demo.int_ in
  let T := pointerN 2 Sub in
  let E := Demo.env [Demo.node ["field_a"] "{}" jsonparser.Object;
                     Demo.node ["field_a"; "field_a"] "7" jsonparser.Number] in
  let h : Heap := [reflect.DStruct [reflect.DPtr (Some 1%nat)]; reflect.DPtr (Some 2%nat);
                   reflect.DStruct [reflect.DInt 0]] in
  parseField E (parse E 1 Demo.source yagcl.companion []) Demo.source yagcl.companion []
             [] (Demo.root T) 0 (Demo.fieldA T) false h
  = Panic "reflect: call of reflect.Value.NumField on non-struct Value".
Proof.
  intros Sub T E h.
  exact (preset_double_pointer_to_struct_panics
           E 1 Demo.source yagcl.companion [] [] (Demo.root T) 0 (Demo.fieldA T) false
           h (h ++ [reflect.Zero Sub]) "field_a" (Demo.b "{}") jsonparser.Object
           (reflect.mkValue T (reflect.Addressable 0 [0%nat]) false) Sub 1%nat
           eq_refl eq_refl eq_refl eq_refl eq_refl eq_refl eq_refl eq_refl).
Defined.

(** ** Flat records *)

Lemma parseFields_flat
    (E : Env) (parse : parseFn) (s : jsonSourceImpl)
    (parsingCompanion : yagcl.ParsingCompanion) (bytes : list byte)
    (parentJsonPath : list string) (T : reflect.Type_) (c : reflect.addr)
    (fields : list reflect.StructField) (results : list (option string)) :
  Forall2 (stringBinding E s parsingCompanion bytes parentJsonPath) fields results ->
  forall i b0 (h : Heap) pre suf,
  length pre = i -> length suf = length fields ->
  h !! c = Some (reflect.DStruct (pre ++ suf)) ->
  exists h' : Heap,
    parseFields E parse s parsingCompanion bytes parentJsonPath
                (reflect.mkValue T (reflect.Addressable c []) false) i fields b0 h
    = Ret (h', (b0 || anyBound results, None)) /\
    h' !! c = Some (reflect.DStruct (pre ++ zip_with bound suf results)) /\
    (length h <= length h')%nat /\
    (forall a, (a < length h)%nat -> a <> c -> h' !! a = h !! a).
Proof.
  induction 1 as [|f r fields results Hf _ IH]; intros i b0 h pre suf Hpre Hsuf Hc.
  - destruct suf; [|discriminate]. exists h. simpl. rewrite orb_false_r. eauto.
  - destruct suf as [|x suf]; [discriminate|]. injection Hsuf as Hsuf.
    simpl parseFields. destruct r as [content|]; simpl in Hf.
    + destruct Hf as (Hinc & Hexp & [name Hname] & HJ & HT & jsonKey & valueBytes
                      & Hkey & Hget & Hstr).
      set (fieldValue := reflect.mkValue (reflect.FType f) (reflect.Addressable c [i]) false).
      set (d := reflect.DString content).
      set (h2 := <[c := reflect.DStruct ((pre ++ [d]) ++ suf)]>
                   (h ++ [reflect.Zero (reflect.FType f)])).
      pose proof (lookup_lt_Some _ _ _ Hc) as Hlt.
      assert (Hfield : reflect.Field (reflect.mkValue T (reflect.Addressable c []) false) i f
                       = Ret fieldValue)
        by (unfold reflect.Field; simpl; by rewrite Hexp).
      assert (Hstrip : extractNonPointerFieldType (reflect.FType f) = reflect.FType f)
        by (by rewrite Hname).
      assert (Hround : parseField E parse s parsingCompanion bytes parentJsonPath
                         (reflect.mkValue T (reflect.Addressable c []) false) i f b0 h
                       = Ret (h2, Continue true)).
      { erewrite parseField_Got
          with (v := reflect.mkValue (reflect.Basic "string" reflect.String)
                       (reflect.Immediate d) false)
               (value := Some (reflect.Basic "string" reflect.String, d))
               (h1 := h ++ [reflect.Zero (reflect.FType f)]); try eassumption;
          try reflexivity.
        - unfold assign. simpl reflect.typ. rewrite Hstrip, Hname. simpl reflect.KindOf.
          rewrite decide_False by discriminate.
          erewrite Set_addressable with (c := c) (sel := [i]) (d := d)
            (old := reflect.DStruct (pre ++ x :: suf))
            (new := reflect.DStruct ((pre ++ [d]) ++ suf)); try reflexivity.
          + unfold h2. by rewrite Hname.
          + by rewrite lookup_app_l.
          + simpl. rewrite list_lookup_middle by done. simpl.
            rewrite insert_app_r_alt by lia. rewrite Hpre, Nat.sub_diag. simpl.
            by rewrite <- app_assoc.
        - unfold decode. rewrite customUnmarshal_no_hooks by (simpl; by rewrite Hstrip).
          simpl. rewrite Hstrip. unfold decodeByKind. rewrite Hname. simpl.
          unfold decodeString. rewrite Hstr. reflexivity. }
      rewrite Hround. cbn [mbind Outcome_bind].
      destruct (IH (S i) true h2 (pre ++ [d]) suf) as (h' & Hrun & Hcell & Hlen & Hother).
      * rewrite length_app. simpl. lia.
      * exact Hsuf.
      * unfold h2. apply list_lookup_insert_eq. rewrite length_app. lia.
      * exists h'. split; [|split; [|split]].
        -- rewrite Hrun. simpl. by rewrite orb_true_r.
        -- rewrite Hcell. simpl. by rewrite <- app_assoc.
        -- unfold h2 in Hlen. rewrite length_insert, length_app in Hlen. lia.
        -- intros a Ha Hne. rewrite Hother; [| |exact Hne].
           ++ unfold h2. rewrite list_lookup_insert_ne by congruence. by rewrite lookup_app_l.
           ++ unfold h2. rewrite length_insert, length_app. lia.
    + assert (Hround : parseField E parse s parsingCompanion bytes parentJsonPath
                         (reflect.mkValue T (reflect.Addressable c []) false) i f b0 h
                       = Ret (h, Continue b0)).
      { unfold parseField. destruct Hf as [Hexcl | (jsonKey & Hkey & Hget)].
        - by rewrite Hexcl.
        - destruct (negb _); [reflexivity|]. by rewrite Hkey, Hget. }
      rewrite Hround. cbn [mbind Outcome_bind].
      destruct (IH (S i) b0 h (pre ++ [x]) suf) as (h' & Hrun & Hcell & Hlen & Hother).
      * rewrite length_app. simpl. lia.
      * exact Hsuf.
      * by rewrite <- app_assoc.
      * exists h'. split; [|split; [|split]]; try assumption.
        rewrite Hcell. simpl. by rewrite <- app_assoc.
Qed.

(** X14. A bind call on a record that lives in cell [c] and whose fields
    are each either absent from the document (or excluded) or string fields
    with a String node. The call returns without error; afterwards every
    field with a node holds the unescaped content of its node and every
    other field holds what it held before; every other cell that existed
    is unchanged; and the flag is [true] exactly when some field had a
    node. *)
Theorem flat_string_record_bound
    (E : Env) (fuel : nat) (s : jsonSourceImpl)
    (parsingCompanion : yagcl.ParsingCompanion) (bytes : list byte)
    (parentJsonPath : list string) (name : string)
    (fields : list reflect.StructField) (results : list (option string))
    (c : reflect.addr) (h : Heap) (slots : list reflect.Data) :
  Forall2 (stringBinding E s parsingCompanion bytes parentJsonPath) fields results ->
  h !! c = Some (reflect.DStruct slots) ->
  length slots = length fields ->
  exists h' : Heap,
    parse E (S fuel) s parsingCompanion bytes parentJsonPath
          (reflect.mkValue (reflect.StructOf name fields) (reflect.Addressable c []) false) h
    = Ret (h', (anyBound results, None)) /\
    h' !! c = Some (reflect.DStruct (zip_with bound slots results)) /\
    (forall a, (a < length h)%nat -> a <> c -> h' !! a = h !! a).
Proof.
  intros Hfields Hc Hlen.
  destruct (parseFields_flat E (parse E fuel s parsingCompanion bytes) s parsingCompanion
              bytes parentJsonPath (reflect.StructOf name fields) c fields results Hfields
              0%nat false h [] slots eq_refl Hlen Hc)
    as (h' & Hrun & Hcell & _ & Hother).
  exists h'. split; [exact Hrun|]. split; assumption.
Qed.

Lemma flat_string_record_bound_witness :
  let fieldB := reflect.mkStructField "FieldB" [("json", "field_b")] true Demo.string_ in
  let fieldC := reflect.mkStructField "FieldC" [("key", "field_c")] true Demo.string_ in
  let fields := [Demo.fieldA Demo.string_; fieldB; fieldC] in
  let E := Demo.env [Demo.node ["field_a"] "content a" jsonparser.String;
                     Demo.node ["field_b"] "content b" jsonparser.String] in
  let h : Heap := [reflect.DStruct [reflect.DString EmptyString; reflect.DString EmptyString;
                                    reflect.DString "set before"]] in
  exists h' : Heap,
    parse E 1 Demo.source yagcl.companion [] []
          (reflect.mkValue (reflect.StructOf "configuration" fields)
                           (reflect.Addressable 0 []) false) h
    = Ret (h', (true, None)) /\
    h' !! 0%nat = Some (reflect.DStruct [reflect.DString "content a";
                                         reflect.DString "content b";
                                         reflect.DString "set before"]) /\
    (forall a, (a < 1)%nat -> a <> 0%nat -> h' !! a = h !! a).
Proof.
  intros fieldB fieldC fields E h.
  refine (flat_string_record_bound E 0 Demo.source yagcl.companion [] [] "configuration"
            fields [Some "content a"; Some "content b"; None] 0%nat h
            [reflect.DString EmptyString; reflect.DString EmptyString;
             reflect.DString "set before"] _ eq_refl eq_refl).
  constructor; [|constructor; [|constructor; [|constructor]]].
  - repeat split; try reflexivity; [by exists "string"|].
    exists "field_a", (Demo.b "content a"). repeat split; reflexivity.
  - repeat split; try reflexivity; [by exists "string"|].
    exists "field_b", (Demo.b "content b"). repeat split; reflexivity.
  - right. exists "field_c". split; reflexivity.
Defined.

(** ** What a bind call leaves untouched, at every level *)

(** X15. A bind call, at the top or nested, that returns "nothing set, no
    error" has written to no cell that existed when it was called: the
    heap it leaves is the heap it was given followed by the cells it
    allocated, so every value that could be read before reads the same
    after. *)
Theorem bind_call_that_set_nothing_wrote_nothing
    (E : Env) (fuel : nat) (s : jsonSourceImpl)
    (parsingCompanion : yagcl.ParsingCompanion) (bytes : list byte)
    (parentJsonPath : list string) (structValue : reflect.Value) (h h' : Heap) :
  parse E fuel s parsingCompanion bytes parentJsonPath structValue h
  = Ret (h', (false, None)) ->
  (exists allocated, h' = h ++ allocated) /\
  (forall v x, reflect.read h v = Some x -> reflect.read h' v = Some x).
Proof.
  intros Hparse. apply parse_allocatesOnly in Hparse.
  split; [exact Hparse|]. intros v x. by apply read_prefix.
Qed.

Lemma bind_call_that_set_nothing_wrote_nothing_witness :
  let Sub := Demo.configuration Demo.int_ in
  let T := pointerN 2 Sub in
  let E := Demo.env [Demo.node ["field_a"] "{}" jsonparser.Object] in
  let h : Heap := Demo.heap0 T in
  let h' : Heap := h ++ [reflect.Zero Sub; reflect.Zero Sub] in
  (exists allocated, h' = h ++ allocated) /\
  (forall v x, reflect.read h v = Some x -> reflect.read h' v = Some x).
Proof.
  intros Sub T E h h'.
  exact (bind_call_that_set_nothing_wrote_nothing
           E 2 Demo.source yagcl.companion [] [] (Demo.root T) h h' eq_refl).
Defined.

(** ** The setters of the source *)

(** X16. [Bytes] and [String] write the same buffer of the source, so the
    later call replaces the earlier one and the two together count as one
    data source: a source given bytes and then a non-empty string passes
    [verify] and [getBytes] returns the bytes of the string, in every
    environment. [Must] and the other setters commute with them. *)
Theorem Bytes_and_String_share_one_buffer
    (E : Env) (s : jsonSourceImpl) (data : list byte) (c : ascii) (str p : string) :
  String_ (Bytes s data) str = String_ s str /\
  Bytes (String_ s str) data = Bytes s data /\
  Must (Bytes s data) = Bytes (Must s) data /\
  Path (String_ s str) p = String_ (Path s p) str /\
  verify (String_ (Bytes Source data) (String.String c str)) = None /\
  getBytes E (String_ (Bytes Source data) (String.String c str))
  = Ok (list_byte_of_string (String.String c str)).
Proof. repeat split. Qed.

(** ** A pointer to a flat record *)

Lemma Zero_struct_slots name fields :
  reflect.Zero (reflect.StructOf name fields)
  = reflect.DStruct (map (fun f => reflect.Zero (reflect.FType f)) fields).
Proof. reflexivity. Qed.

(** X17. A zero field (a nil pointer, at any pointer depth [N], or an
    all-zero struct for [N = 0]) whose stripped type is a flat record of
    string fields, and whose node is located. The binder fills a fresh
    record with the strings that the document has for the nested fields.
    If the document has at least one of them, the parent slot afterwards
    leads through [N] cells allocated by this round to that record, in
    which the fields without a node are zero, and the flag is set; if it
    has none, the round only allocates, the parent field reads as before
    and the flag is the one it was. *)
Theorem pointer_to_flat_record_materialised_iff_any_present
    (E : Env) (fuel : nat) (s : jsonSourceImpl)
    (parsingCompanion : yagcl.ParsingCompanion) (bytes : list byte)
    (parentJsonPath : list string) (structValue : reflect.Value) (i : nat)
    (structField : reflect.StructField)
    (hasAnyFieldBeenSet : bool) (h : Heap) (jsonKey : string)
    (valueBytes : list byte) (dataType : jsonparser.ValueType)
    (fieldValue : reflect.Value) (before : reflect.Data)
    (N : nat) (name : string) (fields : list reflect.StructField)
    (results : list (option string)) (c : reflect.addr) (sel : list nat) :
  let record := reflect.StructOf name fields in
  let jsonPath := parentJsonPath ++ [jsonKey] in
  let recurse := parse E (S fuel) s parsingCompanion bytes in
  let filled := reflect.DStruct
                  (zip_with bound (map (fun f => reflect.Zero (reflect.FType f)) fields)
                            results) in
  yagcl.IncludeField parsingCompanion structField = true ->
  extractJSONKey s parsingCompanion structField = Ok jsonKey ->
  jsonparser_Get E bytes jsonPath = Ok (valueBytes, dataType) ->
  reflect.Field structValue i structField = Ret fieldValue ->
  reflect.FType structField = pointerN N record ->
  UnmarshalJSON E record = None ->
  UnmarshalText E record = None ->
  reflect.flagRO fieldValue = false ->
  reflect.loc fieldValue = reflect.Addressable c sel ->
  reflect.read h fieldValue = Some before ->
  reflect.isZeroData before = true ->
  Forall2 (stringBinding E s parsingCompanion bytes jsonPath) fields results ->
  (anyBound results = true ->
     exists (h' : Heap) x first,
       parseField E recurse s parsingCompanion bytes parentJsonPath structValue i structField
                  hasAnyFieldBeenSet h
       = Ret (h', Continue true) /\
       reflect.read h' fieldValue = Some x /\
       (length h <= first)%nat /\
       chainTo h' x (seq first N) filled) /\
  (anyBound results = false ->
     exists h' : Heap,
       parseField E recurse s parsingCompanion bytes parentJsonPath structValue i structField
                  hasAnyFieldBeenSet h
       = Ret (h', Continue hasAnyFieldBeenSet) /\
       h `prefix_of` h' /\
       reflect.read h' fieldValue = Some before).
Proof.
  intros record jsonPath recurse filled Hinc Hkey Hget Hfield Hftype HJ HT Hro Hloc
         Hread Hzero Hfields.
  pose proof (Field_typ _ _ _ _ Hfield) as Htyp.
  assert (Hstrip : extractNonPointerFieldType (reflect.FType structField) = record).
  { rewrite Hftype. apply extractNonPointerFieldType_pointerN. intros e. discriminate. }
  set (h1 := h ++ [reflect.Zero record]).
  set (h2 := h1 ++ [reflect.Zero record]).
  set (cell := length h1).
  set (subValue := reflect.mkValue record (reflect.Addressable cell []) false).
  assert (Hp1 : h `prefix_of` h1) by (by apply prefix_app_r).
  assert (Hp2 : h `prefix_of` h2) by (by do 2 apply prefix_app_r).
  destruct (parseFields_flat E (parse E fuel s parsingCompanion bytes) s parsingCompanion
              bytes jsonPath record cell fields results Hfields 0%nat false h2 []
              (map (fun f => reflect.Zero (reflect.FType f)) fields) eq_refl)
    as (h3 & Hrun & Hcell & Hlen & Hother).
  { by rewrite length_map. }
  { unfold h2, cell. rewrite lookup_app_r by lia. by rewrite Nat.sub_diag. }
  simpl in Hrun, Hcell. fold filled in Hcell.
  assert (Hrec : recurse jsonPath subValue h2 = Ret (h3, (anyBound results, None)))
    by exact Hrun.
  assert (Hdec : decode E recurse jsonPath structField record fieldValue valueBytes
                   dataType hasAnyFieldBeenSet h
                 = if anyBound results
                   then Ret (h3, Got (Some (record, filled)))
                   else Ret (h3, Stop (Continue hasAnyFieldBeenSet))).
  { unfold decode. rewrite customUnmarshal_no_hooks by (rewrite Htyp, Hstrip; assumption).
    unfold reflect.CanInterface. rewrite Hro, Htyp, Hstrip. simpl negb. cbv iota.
    fold h1. unfold decodeByKind. simpl reflect.KindOf. cbv iota.
    unfold decodeStruct, reflect.IsZero.
    rewrite (read_prefix h h1 fieldValue before Hp1 Hread).
    cbn [orPanic mbind Outcome_bind]. rewrite Hzero, New_heap. fold h2 cell.
    change (reflect.Indirect h2 (pointerValue record cell)) with (Some subValue).
    cbn [orPanic mbind Outcome_bind]. rewrite Hrec. cbn [mbind Outcome_bind].
    destruct (anyBound results); [|by rewrite orb_false_r].
    unfold reflect.Interface_, reflect.read. simpl. rewrite Hcell. reflexivity. }
  assert (Hslot : exists old, h !! c = Some old /\ reflect.getSel old sel = Some before).
  { unfold reflect.read in Hread. rewrite Hloc in Hread.
    destruct (h !! c) as [old|]; [|discriminate]. eauto. }
  destruct Hslot as (old & Hc & Hsel).
  pose proof (lookup_lt_Some _ _ _ Hc) as Hlt.
  split; intros Hany; rewrite Hany in Hdec, Hrec.
  - assert (Hc3 : h3 !! c = Some old).
    { rewrite Hother.
      - by apply (prefix_lookup_Some h).
      - unfold h2, h1. rewrite !length_app. simpl. lia.
      - unfold cell, h1. rewrite length_app. simpl. lia. }
    destruct (parseField_assigns_chain E recurse s parsingCompanion bytes parentJsonPath
                structValue i structField hasAnyFieldBeenSet h h3 jsonKey valueBytes dataType
                fieldValue (reflect.mkValue record (reflect.Immediate filled) false)
                (Some (record, filled)) filled old c sel)
      as (h' & x & Hround & Hx & Hchain & _); try assumption; try reflexivity.
    + fold jsonPath. by rewrite Hstrip.
    + rewrite Hstrip. discriminate.
    + eauto.
    + exists h', x, (length h3). split; [exact Hround|]. split; [exact Hx|].
      split.
      * unfold h2, h1 in Hlen. rewrite !length_app in Hlen. simpl in Hlen. lia.
      * rewrite Hftype in Hchain.
        replace (pointerDepth (pointerN N record)) with N in Hchain; [exact Hchain|].
        clear. induction N; simpl; congruence.
  - exists h3. assert (Hp3 : h `prefix_of` h3).
    { etrans; [exact Hp2|]. eapply parse_allocatesOnly. exact Hrec. }
    split; [|split; [exact Hp3|by apply (read_prefix h)]].
    erewrite parseField_located by eassumption. fold jsonPath. rewrite Hstrip.
    by rewrite Hdec.
Qed.

Lemma pointer_to_flat_record_materialised_iff_any_present_witness :
  let Sub := Demo.configuration Demo.string_ in
  let T := pointerN 2 Sub in
  let E := Demo.env [Demo.node ["field_a"] "{}" jsonparser.Object;
                     Demo.node ["field_a"; "field_a"] "content c" jsonparser.String] in
  let h : Heap := Demo.heap0 T in
  let fieldValue := reflect.mkValue T (reflect.Addressable 0 [0%nat]) false in
  exists (h' : Heap) x first,
    parseField E (parse E 1 Demo.source yagcl.companion []) Demo.source yagcl.companion []
               [] (Demo.root T) 0 (Demo.fieldA T) false h
    = Ret (h', Continue true) /\
    reflect.read h' fieldValue = Some x /\
    (length h <= first)%nat /\
    chainTo h' x (seq first 2) (reflect.DStruct [reflect.DString "content c"]).
Proof.
  intros Sub T E h fieldValue.
  refine (proj1 (pointer_to_flat_record_materialised_iff_any_present
            E 0 Demo.source yagcl.companion [] [] (Demo.root T) 0 (Demo.fieldA T) false h
            "field_a" (Demo.b "{}") jsonparser.Object fieldValue (reflect.DPtr None)
            2 "configuration" [Demo.fieldA Demo.string_] [Some "content c"] 0%nat [0%nat]
            eq_refl eq_refl eq_refl eq_refl eq_refl eq_refl eq_refl eq_refl eq_refl eq_refl
            eq_refl _) eq_refl).
  constructor; [|constructor].
  repeat split; try reflexivity; [by exists "string"|].
  exists "field_a", (Demo.b "content c"). repeat split; reflexivity.
Defined.

(** X18. A field that is a pointer to a flat record of string fields and
    already points to a record (set by the caller or by an earlier
    source), with its node located. The binder works on the record pointed
    to: the nested fields that the document has are overwritten in it and
    the others keep what they held. If the document has at least one of
    them, the parent slot then receives a pointer to a new cell holding
    that merged record, and the flag is set; if it has none, no cell that
    existed changes and the flag is the one it was. *)
Theorem preset_pointer_to_flat_record_merged
    (E : Env) (fuel : nat) (s : jsonSourceImpl)
    (parsingCompanion : yagcl.ParsingCompanion) (bytes : list byte)
    (parentJsonPath : list string) (structValue : reflect.Value) (i : nat)
    (structField : reflect.StructField)
    (hasAnyFieldBeenSet : bool) (h : Heap) (jsonKey : string)
    (valueBytes : list byte) (dataType : jsonparser.ValueType)
    (fieldValue : reflect.Value) (name : string) (fields : list reflect.StructField)
    (results : list (option string)) (slots : list reflect.Data)
    (c a : reflect.addr) (sel : list nat) :
  let record := reflect.StructOf name fields in
  let jsonPath := parentJsonPath ++ [jsonKey] in
  let recurse := parse E (S fuel) s parsingCompanion bytes in
  let merged := reflect.DStruct (zip_with bound slots results) in
  yagcl.IncludeField parsingCompanion structField = true ->
  extractJSONKey s parsingCompanion structField = Ok jsonKey ->
  jsonparser_Get E bytes jsonPath = Ok (valueBytes, dataType) ->
  reflect.Field structValue i structField = Ret fieldValue ->
  reflect.FType structField = reflect.PointerTo record ->
  UnmarshalJSON E record = None ->
  UnmarshalText E record = None ->
  reflect.flagRO fieldValue = false ->
  reflect.loc fieldValue = reflect.Addressable c sel ->
  reflect.read h fieldValue = Some (reflect.DPtr (Some a)) ->
  h !! a = Some (reflect.DStruct slots) ->
  length slots = length fields ->
  a <> c ->
  Forall2 (stringBinding E s parsingCompanion bytes jsonPath) fields results ->
  (anyBound results = true ->
     exists (h' : Heap) fresh,
       parseField E recurse s parsingCompanion bytes parentJsonPath structValue i structField
                  hasAnyFieldBeenSet h
       = Ret (h', Continue true) /\
       reflect.read h' fieldValue = Some (reflect.DPtr (Some fresh)) /\
       (length h <= fresh)%nat /\
       h' !! fresh = Some merged /\
       h' !! a = Some merged) /\
  (anyBound results = false ->
     exists h' : Heap,
       parseField E recurse s parsingCompanion bytes parentJsonPath structValue i structField
                  hasAnyFieldBeenSet h
       = Ret (h', Continue hasAnyFieldBeenSet) /\
       h `prefix_of` h').
Proof.
  intros record jsonPath recurse merged Hinc Hkey Hget Hfield Hftype HJ HT Hro Hloc
         Hread Ha Hslots Hne Hfields.
  pose proof (Field_typ _ _ _ _ Hfield) as Htyp.
  assert (Hstrip : extractNonPointerFieldType (reflect.FType structField) = record)
    by (by rewrite Hftype).
  set (h1 := h ++ [reflect.Zero record]).
  set (subValue := reflect.mkValue record (reflect.Addressable a []) false).
  assert (Hp1 : h `prefix_of` h1) by (by apply prefix_app_r).
  pose proof (read_prefix h h1 fieldValue _ Hp1 Hread) as Hread1.
  destruct (parseFields_flat E (parse E fuel s parsingCompanion bytes) s parsingCompanion
              bytes jsonPath record a fields results Hfields 0%nat false h1 [] slots
              eq_refl Hslots)
    as (h3 & Hrun & Hcell & Hlen & Hother).
  { by apply (prefix_lookup_Some h). }
  simpl in Hrun, Hcell. fold merged in Hcell.
  assert (Hrec : recurse jsonPath subValue h1 = Ret (h3, (anyBound results, None)))
    by exact Hrun.
  assert (Hind : reflect.Indirect h1 fieldValue = Some subValue).
  { unfold reflect.Indirect, reflect.Elem. rewrite Htyp, Hftype, Hread1, Hro.
    reflexivity. }
  assert (Hdec : decode E recurse jsonPath structField record fieldValue valueBytes
                   dataType hasAnyFieldBeenSet h
                 = if anyBound results
                   then Ret (h3, Got (Some (record, merged)))
                   else Ret (h3, Stop (Continue hasAnyFieldBeenSet))).
  { unfold decode. rewrite customUnmarshal_no_hooks by (rewrite Htyp, Hstrip; assumption).
    unfold reflect.CanInterface. rewrite Hro, Htyp, Hstrip. simpl negb. cbv iota.
    fold h1. unfold decodeByKind. simpl reflect.KindOf. cbv iota.
    unfold decodeStruct, reflect.IsZero. rewrite Hread1.
    cbn [orPanic mbind Outcome_bind reflect.isZeroData]. rewrite Hind.
    cbn [orPanic mbind Outcome_bind]. rewrite Hrec. cbn [mbind Outcome_bind].
    destruct (anyBound results); [|by rewrite orb_false_r].
    unfold reflect.Interface_, reflect.read. simpl. rewrite Hcell. reflexivity. }
  assert (Hslot : exists old, h !! c = Some old
                              /\ reflect.getSel old sel = Some (reflect.DPtr (Some a))).
  { unfold reflect.read in Hread. rewrite Hloc in Hread.
    destruct (h !! c) as [old|]; [|discriminate]. eauto. }
  destruct Hslot as (old & Hc & Hsel).
  pose proof (lookup_lt_Some _ _ _ Hc) as Hlt.
  pose proof (lookup_lt_Some _ _ _ Ha) as Hlta.
  split; intros Hany; rewrite Hany in Hdec, Hrec.
  - assert (Hc3 : h3 !! c = Some old).
    { rewrite Hother; [by apply (prefix_lookup_Some h)| |congruence].
      unfold h1. rewrite length_app. simpl. lia. }
    assert (Hlen3 : (length h <= length h3)%nat)
      by (unfold h1 in Hlen; rewrite length_app in Hlen; simpl in Hlen; lia).
    destruct (parseField_assigns_chain E recurse s parsingCompanion bytes parentJsonPath
                structValue i structField hasAnyFieldBeenSet h h3 jsonKey valueBytes dataType
                fieldValue (reflect.mkValue record (reflect.Immediate merged) false)
                (Some (record, merged)) merged old c sel)
      as (h' & x & Hround & Hx & Hchain & _ & Hrest); try assumption; try reflexivity.
    + fold jsonPath. by rewrite Hstrip.
    + rewrite Hstrip. discriminate.
    + eauto.
    + rewrite Hftype in Hchain. simpl in Hchain.
      destruct Hchain as (-> & y & Hy & ->).
      exists h', (length h3). split; [exact Hround|]. split; [exact Hx|].
      split; [exact Hlen3|]. split; [exact Hy|].
      rewrite Hrest; [exact Hcell | lia | exact Hne].
  - exists h3. split.
    + erewrite parseField_located by eassumption. fold jsonPath. rewrite Hstrip.
      by rewrite Hdec.
    + etrans; [exact Hp1|]. eapply parse_allocatesOnly. exact Hrec.
Qed.

Lemma preset_pointer_to_flat_record_merged_witness :
  let fieldC := reflect.mkStructField "FieldC" [("key", "field_c")] true Demo.string_ in
  let fieldD := reflect.mkStructField "FieldD" [("key", "field_d")] true Demo.string_ in
  let Sub := reflect.StructOf "substruct" [fieldC; fieldD] in
  let T := reflect.PointerTo Sub in
  let E := Demo.env [Demo.node ["field_a"] "{}" jsonparser.Object;
                     Demo.node ["field_a"; "field_c"] "content c" jsonparser.String] in
  let h : Heap := [reflect.DStruct [reflect.DPtr (Some 1%nat)];
                   reflect.DStruct [reflect.DString EmptyString; reflect.DString "set before"]] in
  let merged := reflect.DStruct [reflect.DString "content c"; reflect.DString "set before"] in
  let fieldValue := reflect.mkValue T (reflect.Addressable 0 [0%nat]) false in
  exists (h' : Heap) fresh,
    parseField E (parse E 1 Demo.source yagcl.companion []) Demo.source yagcl.companion []
               [] (Demo.root T) 0 (Demo.fieldA T) false h
    = Ret (h', Continue true) /\
    reflect.read h' fieldValue = Some (reflect.DPtr (Some fresh)) /\
    (length h <= fresh)%nat /\
    h' !! fresh = Some merged /\
    h' !! 1%nat = Some merged.
Proof.
  intros fieldC fieldD Sub T E h merged fieldValue.
  refine (proj1 (preset_pointer_to_flat_record_merged
            E 0 Demo.source yagcl.companion [] [] (Demo.root T) 0 (Demo.fieldA T) false h
            "field_a" (Demo.b "{}") jsonparser.Object fieldValue "substruct" [fieldC; fieldD]
            [Some "content c"; None]
            [reflect.DString EmptyString; reflect.DString "set before"] 0%nat 1%nat [0%nat]
            eq_refl eq_refl eq_refl eq_refl eq_refl eq_refl eq_refl eq_refl eq_refl eq_refl
            eq_refl eq_refl _ _) eq_refl).
  - discriminate.
  - constructor; [|constructor; [|constructor]].
    + repeat split; try reflexivity; [by exists "string"|].
      exists "field_c", (Demo.b "content c"). repeat split; reflexivity.
    + right. exists "field_d". split; reflexivity.
Defined.

(** ** From end to end *)

(** X19. [Parse] on a verified source whose bytes are acquired, given a
    pointer to a record in cell [c] whose fields are each either absent
    from the document (or excluded) or string fields with a String node:
    it returns [(true, nil)]; afterwards every field with a node holds the
    unescaped content of its node, every other field holds what it held
    before, and every other cell that existed is unchanged. *)
Theorem Parse_binds_flat_record
    (E : Env) (s : jsonSourceImpl) (parsingCompanion : yagcl.ParsingCompanion)
    (data : list byte) (name : string) (fields : list reflect.StructField)
    (results : list (option string)) (c : reflect.addr) (h : Heap)
    (slots : list reflect.Data) :
  let record := reflect.StructOf name fields in
  verify s = None ->
  getBytes E s = Ok data ->
  Forall2 (stringBinding E s parsingCompanion data []) fields results ->
  h !! c = Some (reflect.DStruct slots) ->
  length slots = length fields ->
  exists h' : Heap,
    Parse E s parsingCompanion (Some (reflect.PointerTo record, reflect.DPtr (Some c))) h
    = Ret (h', (true, None)) /\
    h' !! c = Some (reflect.DStruct (zip_with bound slots results)) /\
    (forall a, (a < length h)%nat -> a <> c -> h' !! a = h !! a).
Proof.
  intros record Hverify Hbytes Hfields Hc Hlen.
  destruct (parseFields_flat E
              (parse E (foldr Nat.max 0%nat
                          (map (fun f => structDepth (reflect.FType f)) fields))
                     s parsingCompanion data)
              s parsingCompanion data [] record c fields results Hfields
              0%nat false h [] slots eq_refl Hlen Hc)
    as (h' & Hrun & Hcell & _ & Hother).
  exists h'. split; [|split; assumption].
  unfold Parse. rewrite Hverify, Hbytes. simpl. unfold reflect.Indirect, reflect.Elem. simpl.
  change (parseFields E _ s parsingCompanion data [] _ 0 fields false h)
    with (parseFields E
            (parse E (foldr Nat.max 0%nat
                        (map (fun f => structDepth (reflect.FType f)) fields))
                   s parsingCompanion data)
            s parsingCompanion data []
            (reflect.mkValue record (reflect.Addressable c []) false) 0 fields false h).
  by rewrite Hrun.
Qed.

Lemma Parse_binds_flat_record_witness :
  let fieldB := reflect.mkStructField "FieldB" [("json", "field_b")] true Demo.string_ in
  let fields := [Demo.fieldA Demo.string_; fieldB] in
  let E := Demo.env [Demo.node ["field_a"] "content a" jsonparser.String;
                     Demo.node ["field_b"] "content b" jsonparser.String] in
  let h : Heap := [reflect.DStruct [reflect.DString EmptyString; reflect.DString EmptyString]] in
  exists h' : Heap,
    Parse E Demo.source yagcl.companion
          (Some (reflect.PointerTo (reflect.StructOf "configuration" fields),
                 reflect.DPtr (Some 0%nat))) h
    = Ret (h', (true, None)) /\
    h' !! 0%nat = Some (reflect.DStruct [reflect.DString "content a";
                                         reflect.DString "content b"]) /\
    (forall a, (a < 1)%nat -> a <> 0%nat -> h' !! a = h !! a).
Proof.
  intros fieldB fields E h.
  refine (Parse_binds_flat_record E Demo.source yagcl.companion (Demo.b "{}") "configuration"
            fields [Some "content a"; Some "content b"] 0%nat h
            [reflect.DString EmptyString; reflect.DString EmptyString]
            eq_refl eq_refl _ eq_refl eq_refl).
  constructor; [|constructor; [|constructor]].
  - repeat split; try reflexivity; [by exists "string"|].
    exists "field_a", (Demo.b "content a"). repeat split; reflexivity.
  - repeat split; try reflexivity; [by exists "string"|].
    exists "field_b", (Demo.b "content b"). repeat split; reflexivity.
Defined.
